(** * EcoMetrics backend: a shallow embedding of the record, audit-log and
    authentication code, and the properties its specification states.

    The Python sources are embedded module by module ([schemas], [models],
    [auth], [routers_auth], [routers_data], [routers_logs]).  A request
    handler is a computation over the committed database state that either
    returns a JSON body or raises; everything the handler cannot control
    (the clock, the JWT library, transient persistence failures) is read
    from an environment record. *)

From Stdlib Require Import ZArith List String Ascii Bool Lia DecimalString.
From Stdlib Require Import QArith Lqa.
From Stdlib Require PrimFloat FloatOps SpecFloat Uint63.
From Stdlib Require Import Sorting.Sorted Sorting.Permutation.
Import ListNotations.

Set Warnings "-register-all".

Local Open Scope string_scope.
Local Open Scope list_scope.
Local Open Scope Z_scope.

(* ------------------------------------------------------------------ *)
(** ** Python values *)

(** [str(n)] for an [int]. *)
Definition str_int (n : Z) : string := NilZero.string_of_int (Z.to_int n).

(** Truthiness of an [int] and of a [str] ([if n:], [if s:]). *)
Definition truthy_int (n : Z) : bool := negb (n =? 0).
Definition truthy_str (s : string) : bool := negb (String.eqb s "").

(** [len(s)] as an [int]. *)
Definition len (s : string) : Z := Z.of_nat (String.length s).

(** [s.startswith(p)]. *)
Definition startswith (s p : string) : bool := String.prefix p s.

(** Whitespace removed by [str.strip()], among the code points below 256
    that a header value is made of: the blank, U+0009 to U+000D, the
    separators U+001C to U+001F, U+0085 and U+00A0. *)
Definition is_space (c : ascii) : bool :=
  let n := nat_of_ascii c in
  ((n =? 32) || ((9 <=? n) && (n <=? 13)) || ((28 <=? n) && (n <=? 31))
   || (n =? 133) || (n =? 160))%nat.

Fixpoint lstrip (s : string) : string :=
  match s with
  | String c s' => if is_space c then lstrip s' else s
  | EmptyString => EmptyString
  end.

Fixpoint rev_string (acc s : string) : string :=
  match s with
  | String c s' => rev_string (String c acc) s'
  | EmptyString => acc
  end.

Definition strip (s : string) : string :=
  rev_string "" (lstrip (rev_string "" (lstrip s))).

(** [s.split(",")[0]]: the text before the first comma. *)
Fixpoint split_comma_head (s : string) : string :=
  match s with
  | String c s' => if Ascii.eqb c "," then EmptyString else String c (split_comma_head s')
  | EmptyString => EmptyString
  end.

(* ------------------------------------------------------------------ *)
(** ** [datetime.date] and [datetime.datetime] *)

Module date.
Record t := mk { year : Z; month : Z; day : Z }.

Definition eqb (a b : t) : bool :=
  (year a =? year b) && (month a =? month b) && (day a =? day b).

Definition ltb (a b : t) : bool :=
  (year a <? year b)
  || ((year a =? year b)
      && ((month a <? month b) || ((month a =? month b) && (day a <? day b)))).

Definition leb (a b : t) : bool := ltb a b || eqb a b.

(** Zero padding of the [%04d] / [%02d] conversions. *)
Definition pad (width : nat) (s : string) : string :=
  (fix go (k : nat) := match k with O => s | S k' => String "0" (go k') end)
    (width - String.length s)%nat.

Definition isoformat (d : t) : string :=
  (pad 4 (str_int (year d)) ++ "-" ++ pad 2 (str_int (month d)) ++ "-"
   ++ pad 2 (str_int (day d)))%string.
End date.

Module datetime.
(** A point in time: the calendar day and the microseconds elapsed in it. *)
Record t := mk { day : date.t; micros : Z }.

(** What the database compares a [DateTime] column with when handed a
    [date]: that day at midnight. *)
Definition of_date (d : date.t) : t := mk d 0.

(** The columns of a transient object that the database has yet to fill. *)
Definition unset : t := mk (date.mk 0 0 0) 0.

Definition eqb (a b : t) : bool := date.eqb (day a) (day b) && (micros a =? micros b).
Definition ltb (a b : t) : bool :=
  date.ltb (day a) (day b) || (date.eqb (day a) (day b) && (micros a <? micros b)).
Definition leb (a b : t) : bool := ltb a b || eqb a b.
End datetime.

(* ------------------------------------------------------------------ *)
(** ** [decimal.Decimal] at the scale of the [Numeric(10, 2)] columns *)

(** A value of a [Numeric(10, 2)] column is a whole number of hundredths. *)
Definition Decimal := Z.

(* ------------------------------------------------------------------ *)
(** ** IEEE 754 binary64, as Python's [float] *)

Module binary64.
(** A finite double is [mant * 2 ^ expo]; zero is [(0, 0)] and a non-zero
    normal number has [2^52 <= |mant| < 2^53]. *)
Record t := mk { mant : Z; expo : Z }.

Definition zero : t := mk 0 0.

(** [n / d] rounded to an integer, ties to even ([d > 0]). *)
Definition round_half_even (n d : Z) : Z :=
  let q := n / d in
  let r := n mod d in
  if (2 * r <? d)%Z then q
  else if (d <? 2 * r)%Z then q + 1
  else if Z.even q then q else q + 1.

(** [n / (d * 2^e)] as a fraction of integers. *)
Definition scaled (n d e : Z) : Z * Z :=
  if (0 <=? e)%Z then (n, d * 2 ^ e) else (n * 2 ^ (- e), d).

(** Round to nearest, ties to even, of the positive rational [n / d]
    (no overflow: the quotients formed here stay far below [2^1024]). *)
Definition round_pos (n d : Z) : t :=
  let e0 := Z.log2 n - Z.log2 d - 53 in
  let '(n1, d1) := scaled n d (e0 + 1) in
  let e1 := if (2 ^ 52 * d1 <=? n1)%Z then e0 + 1 else e0 in
  let e := Z.max e1 (-1074) in
  let '(n2, d2) := scaled n d e in
  let m := round_half_even n2 d2 in
  if (m =? 2 ^ 53)%Z then mk (2 ^ 52) (e + 1)
  else if (m =? 0)%Z then zero
  else mk m e.

Definition opp (x : t) : t := mk (- mant x) (expo x).

(** The double nearest to [n / d], [d > 0]. *)
Definition round (n d : Z) : t :=
  match n with
  | Z0 => zero
  | Zpos _ => round_pos n d
  | Zneg _ => opp (round_pos (- n) d)
  end.

(** A double as an exact fraction [(n, d)], [d > 0]. *)
Definition frac (x : t) : Z * Z :=
  if (0 <=? expo x)%Z then (mant x * 2 ^ expo x, 1) else (mant x, 2 ^ (- expo x)).

(** [float(Decimal)]: the correctly rounded conversion of [c / 100]. *)
Definition of_Decimal (c : Decimal) : t := round c 100.

(** [x / y] for [y <> 0]. *)
Definition div (x y : t) : t :=
  let '(nx, dx) := frac x in
  let '(ny, dy) := frac y in
  if (0 <? ny)%Z then round (nx * dy) (dx * ny) else round (- (nx * dy)) (dx * (- ny)).

Definition gtb_zero (x : t) : bool := (0 <? mant x)%Z.

(** The decimal digits CPython's [round(x, ndigits)] goes through: [x]
    rounded exactly (ties to even) to a whole number of [10^-ndigits]. *)
Definition round_digits (x : t) (ndigits : Z) : Z :=
  let '(n, d) := frac x in
  round_half_even (n * 10 ^ ndigits) d.

(** [round(x, ndigits)]: the digits above read back as a double. *)
Definition py_round (x : t) (ndigits : Z) : t :=
  round (round_digits x ndigits) (10 ^ ndigits).
End binary64.

Definition float := binary64.t.

(* ------------------------------------------------------------------ *)
(** ** JSON bodies and exceptions *)

(** The dictionaries and lists a handler returns or stores in a JSON column. *)
Inductive json : Type :=
| JNull
| JBool (b : bool)
| JInt (n : Z)
| JFloat (x : float)
| JStr (s : string)
| JDate (d : date.t)
| JDateTime (d : datetime.t)
| JList (items : list json)
| JDict (items : list (string * json)).

(** [body[key]], when [body] is a dictionary holding [key]. *)
Definition json_get (key : string) (body : json) : option json :=
  match body with
  | JDict items =>
      match find (fun kv => String.eqb (fst kv) key) items with
      | Some kv => Some (snd kv)
      | None => None
      end
  | _ => None
  end.

Definition json_of_option {A} (f : A -> json) (o : option A) : json :=
  match o with Some a => f a | None => JNull end.

(** The exceptions that travel through the handlers.  [IntegrityError] and
    [OperationalError] are the [SQLAlchemyError]s (the second stands for every
    persistence failure that is not an integrity violation); all of them are
    [Exception]s. *)
Inductive exn : Type :=
| HTTPException (status_code : Z) (detail : string)
| IntegrityError (msg : string)
| OperationalError (msg : string)
| AttributeError (msg : string)
| ValueError (msg : string)
| RequestValidationError (errors : list (string * string))
| Exception (msg : string).

(** [str(e)].  An [HTTPException] prints as its status and detail; the text
    of a request validation error, a listing of the errors, is abbreviated. *)
Definition str_exn (e : exn) : string :=
  match e with
  | HTTPException status_code detail => (str_int status_code ++ ": " ++ detail)%string
  | IntegrityError msg | OperationalError msg | AttributeError msg | ValueError msg
  | Exception msg => msg
  | RequestValidationError _ => "validation error"
  end.

Definition is_SQLAlchemyError (e : exn) : bool :=
  match e with IntegrityError _ | OperationalError _ => true | _ => false end.

Definition HTTP_401_UNAUTHORIZED : Z := 401.
Definition HTTP_403_FORBIDDEN : Z := 403.
Definition HTTP_404_NOT_FOUND : Z := 404.
Definition HTTP_500_INTERNAL_SERVER_ERROR : Z := 500.

(* ------------------------------------------------------------------ *)
(** ** models.py *)

Module User.
Record t := mk {
  id : Z;
  username : string;
  password : string;
  role : string;
  created_at : datetime.t;
  updated_at : datetime.t;
  last_login_at : option datetime.t }.

Definition with_role (r : string) (u : t) : t :=
  mk (id u) (username u) (password u) r (created_at u) (updated_at u) (last_login_at u).
End User.

Module EcoRecord.
Record t := mk {
  id : Z;
  date : date.t;
  power_consumption : Decimal;
  drinking_water : Decimal;
  irrigation_water : Decimal;
  electricity_price : Decimal;
  created_by : Z;
  updated_by : option Z;
  created_at : datetime.t;
  updated_at : datetime.t }.

Definition set_power_consumption (v : Decimal) (r : t) : t :=
  mk (id r) (date r) v (drinking_water r) (irrigation_water r) (electricity_price r)
     (created_by r) (updated_by r) (created_at r) (updated_at r).
Definition set_drinking_water (v : Decimal) (r : t) : t :=
  mk (id r) (date r) (power_consumption r) v (irrigation_water r) (electricity_price r)
     (created_by r) (updated_by r) (created_at r) (updated_at r).
Definition set_irrigation_water (v : Decimal) (r : t) : t :=
  mk (id r) (date r) (power_consumption r) (drinking_water r) v (electricity_price r)
     (created_by r) (updated_by r) (created_at r) (updated_at r).
Definition set_electricity_price (v : Decimal) (r : t) : t :=
  mk (id r) (date r) (power_consumption r) (drinking_water r) (irrigation_water r) v
     (created_by r) (updated_by r) (created_at r) (updated_at r).
Definition set_updated_by (v : Z) (r : t) : t :=
  mk (id r) (date r) (power_consumption r) (drinking_water r) (irrigation_water r)
     (electricity_price r) (created_by r) (Some v) (created_at r) (updated_at r).
Definition set_updated_at (v : datetime.t) (r : t) : t :=
  mk (id r) (date r) (power_consumption r) (drinking_water r) (irrigation_water r)
     (electricity_price r) (created_by r) (updated_by r) (created_at r) v.
Definition set_id (v : Z) (r : t) : t :=
  mk v (date r) (power_consumption r) (drinking_water r) (irrigation_water r)
     (electricity_price r) (created_by r) (updated_by r) (created_at r) (updated_at r).
End EcoRecord.

Module OperationLog.
Record t := mk {
  id : Z;
  user_id : Z;
  action : string;
  table_name : string;
  record_id : option Z;
  old_data : option json;
  new_data : option json;
  description : option string;
  ip_address : option string;
  created_at : datetime.t }.
End OperationLog.

(** The committed contents of the three tables, with the [AUTO_INCREMENT]
    counters of the two tables the handlers insert into. *)
Record Db := mkDb {
  users : list User.t;
  eco_records : list EcoRecord.t;
  operation_logs : list OperationLog.t;
  users_seq : Z;
  eco_records_seq : Z;
  operation_logs_seq : Z }.

Definition set_eco_records (rows : list EcoRecord.t) (seq : Z) (db : Db) : Db :=
  mkDb (users db) rows (operation_logs db) (users_seq db) seq (operation_logs_seq db).

Definition add_user (u : User.t) (db : Db) : Db :=
  mkDb (users db ++ [u]) (eco_records db) (operation_logs db)
       (users_seq db + 1) (eco_records_seq db) (operation_logs_seq db).

Definition add_operation_log (entry : OperationLog.t) (db : Db) : Db :=
  mkDb (users db) (eco_records db) (operation_logs db ++ [entry])
       (users_seq db) (eco_records_seq db) (operation_logs_seq db + 1).

(** [unique=True] on [EcoRecord.date]. *)
Fixpoint unique_dates (rows : list EcoRecord.t) : bool :=
  match rows with
  | [] => true
  | r :: rows' =>
      negb (existsb (fun r' => date.eqb (EcoRecord.date r') (EcoRecord.date r)) rows')
      && unique_dates rows'
  end.

(* ------------------------------------------------------------------ *)
(** ** The world around a request *)

(** The claims of a decoded token ([payload.get] returns [None] for a
    missing one). *)
Record Payload := mkPayload {
  payload_user_id : option Z;
  payload_username : option string;
  payload_role : option string }.

(** What a handler reads from outside: the JWT library, the two clocks, and
    whether the persistence layer fails at the points where the code is
    prepared for it. *)
Record Env := mkEnv {
  jwt_decode : string -> string + Payload; (* jose.jwt.decode; inl msg: raise JWTError(msg) *)
  utcnow : datetime.t;                     (* datetime.utcnow() *)
  func_now : datetime.t;                   (* server_default=func.now() *)
  commit_fault : option exn;               (* raised by the handler's own db.commit() *)
  log_fault : option exn;                  (* raised while log_operation writes its entry *)
  query_fault : nat -> option exn          (* raised by the n-th existence query of an import *)
}.

(** The parts of [fastapi.Request] the handlers read. *)
Record Request := mkRequest {
  x_forwarded_for : option string;         (* request.headers.get("X-Forwarded-For") *)
  client_host : option string              (* request.client.host; request.client may be None *)
}.

(* ------------------------------------------------------------------ *)
(** ** Computations over the database that may raise *)

Inductive result (A : Type) : Type :=
| Ok (a : A)
| Raise (e : exn).
Arguments Ok {A} a.
Arguments Raise {A} e.

Definition M (A : Type) : Type := Db -> result A * Db.

Definition ret {A} (a : A) : M A := fun db => (Ok a, db).
Definition raise {A} (e : exn) : M A := fun db => (Raise e, db).
Definition bind {A B} (c : M A) (k : A -> M B) : M B :=
  fun db => match c db with
            | (Ok a, db') => k a db'
            | (Raise e, db') => (Raise e, db')
            end.
(** [try: c  except Exception as e: handler e]. *)
Definition try_except {A} (c : M A) (handler : exn -> M A) : M A :=
  fun db => match c db with
            | (Ok a, db') => (Ok a, db')
            | (Raise e, db') => handler e db'
            end.
Definition gets {A} (f : Db -> A) : M A := fun db => (Ok (f db), db).
Definition modify (f : Db -> Db) : M unit := fun db => (Ok tt, f db).
Definition lift {A} (r : result A) : M A := fun db => (r, db).

Declare Scope monad_scope.
Delimit Scope monad_scope with monad.
Notation "x <- c ;; k" := (bind c (fun x => k))
  (at level 61, c at next level, right associativity) : monad_scope.
Notation "c ;;; k" := (bind c (fun _ => k))
  (at level 61, right associativity) : monad_scope.
Local Open Scope monad_scope.

(** [db.rollback()]: uncommitted work lives in the handler's local session
    values, so the committed state is left as it is. *)
Definition rollback : M unit := ret tt.

(** [db.query(EcoRecord).filter(p).first()]. *)
Definition query_first (p : EcoRecord.t -> bool) : M (option EcoRecord.t) :=
  gets (fun db => find p (eco_records db)).

(** [db.commit()] of a session whose flush turns the table into [rows]:
    the injected failure is raised if there is one, the unique index on
    [date] raises [IntegrityError], and otherwise the table is replaced. *)
Definition commit (env : Env) (rows : list EcoRecord.t) (seq : Z) : M unit :=
  fun db =>
    match commit_fault env with
    | Some e => (Raise e, db)
    | None =>
        if unique_dates rows then (Ok tt, set_eco_records rows seq db)
        else (Raise (IntegrityError "Duplicate entry for key 'date'"), db)
    end.

(* ------------------------------------------------------------------ *)
(** ** schemas.py *)

Module schemas.

(** Pydantic runs the validators of a model field by field and gathers the
    [ValueError]s, each under the name of its field. *)
Definition field_errors {A} (field : string) (r : result A) : list (string * string) :=
  match r with
  | Ok _ => []
  | Raise e => [(field, str_exn e)]
  end.

Module UserRegister.
Record t := mk { username : string; password : string; confirmPassword : string }.

Definition validate_username (v : string) : result string :=
  if negb (startswith v "@") then Raise (ValueError "Username must start with @")
  else if len v <? 3 then Raise (ValueError "Username must be at least 3 characters")
  else Ok v.

Definition validate_password (v : string) : result string :=
  if len v <? 6 then Raise (ValueError "Password must be at least 6 characters")
  else Ok v.

(** [values] holds the fields validated so far: [password] is in it only
    when its own validator accepted it. *)
Definition validate_confirm_password (v : string) (values_password : option string)
  : result string :=
  match values_password with
  | Some p =>
      if negb (String.eqb v p) then Raise (ValueError "Passwords do not match")
      else Ok v
  | None => Ok v
  end.

Definition validate (raw : t) : result t :=
  let u := validate_username (username raw) in
  let p := validate_password (password raw) in
  let values_password := match p with Ok v => Some v | Raise _ => None end in
  let c := validate_confirm_password (confirmPassword raw) values_password in
  match u, p, c with
  | Ok u', Ok p', Ok c' => Ok (mk u' p' c')
  | _, _, _ =>
      Raise (RequestValidationError
               (field_errors "username" u ++ field_errors "password" p
                ++ field_errors "confirmPassword" c))
  end.
End UserRegister.

Module EcoRecordCreate.
Record t := mk {
  date : date.t;
  powerConsumption : Decimal;
  drinkingWater : Decimal;
  irrigationWater : Decimal;
  electricityPrice : Decimal }.

Definition validate_positive (v : Decimal) : result Decimal :=
  if v <? 0 then Raise (ValueError "Value must be positive") else Ok v.

Definition errors (raw : t) : list (string * string) :=
  field_errors "powerConsumption" (validate_positive (powerConsumption raw))
  ++ field_errors "drinkingWater" (validate_positive (drinkingWater raw))
  ++ field_errors "irrigationWater" (validate_positive (irrigationWater raw))
  ++ field_errors "electricityPrice" (validate_positive (electricityPrice raw)).

Definition validate (raw : t) : result t :=
  match errors raw with
  | [] => Ok raw
  | errs => Raise (RequestValidationError errs)
  end.
End EcoRecordCreate.

Module EcoRecordUpdate.
Record t := mk {
  powerConsumption : option Decimal;
  drinkingWater : option Decimal;
  irrigationWater : option Decimal;
  electricityPrice : option Decimal }.

Definition validate_positive (v : option Decimal) : result (option Decimal) :=
  match v with
  | Some x => if x <? 0 then Raise (ValueError "Value must be positive") else Ok v
  | None => Ok v
  end.

Definition errors (raw : t) : list (string * string) :=
  field_errors "powerConsumption" (validate_positive (powerConsumption raw))
  ++ field_errors "drinkingWater" (validate_positive (drinkingWater raw))
  ++ field_errors "irrigationWater" (validate_positive (irrigationWater raw))
  ++ field_errors "electricityPrice" (validate_positive (electricityPrice raw)).

Definition validate (raw : t) : result t :=
  match errors raw with
  | [] => Ok raw
  | errs => Raise (RequestValidationError errs)
  end.
End EcoRecordUpdate.

Module EcoRecordImport.
Record t := mk {
  records : list EcoRecordCreate.t;
  overwriteExisting : bool }.

Definition validate (raw : t) : result t :=
  match flat_map EcoRecordCreate.errors (records raw) with
  | [] => Ok raw
  | errs => Raise (RequestValidationError errs)
  end.
End EcoRecordImport.

Module ClearDataRequest.
Record t := mk { confirm : bool }.

Definition validate_confirm (v : bool) : result bool :=
  if negb v then Raise (ValueError "Confirm must be true to delete all data")
  else Ok v.

(** [confirm: bool] has no default: a body without it is refused before
    the validator is reached. *)
Definition validate (raw_confirm : option bool) : result t :=
  match raw_confirm with
  | None => Raise (RequestValidationError [("confirm", "Field required")])
  | Some v =>
      match validate_confirm v with
      | Ok v' => Ok (mk v')
      | Raise e => Raise (RequestValidationError [("confirm", str_exn e)])
      end
  end.
End ClearDataRequest.

Module UserLogin.
Record t := mk { username : string; password : string }.

Definition validate_username (v : string) : result string :=
  if negb (startswith v "@") then Raise (ValueError "Username must start with @")
  else if len v <? 3 then Raise (ValueError "Username must be at least 3 characters")
  else Ok v.

Definition validate_password (v : string) : result string :=
  if len v <? 6 then Raise (ValueError "Password must be at least 6 characters")
  else Ok v.

Definition validate (raw : t) : result t :=
  let u := validate_username (username raw) in
  let p := validate_password (password raw) in
  match u, p with
  | Ok u', Ok p' => Ok (mk u' p')
  | _, _ =>
      Raise (RequestValidationError
               (field_errors "username" u ++ field_errors "password" p))
  end.
End UserLogin.

End schemas.

(* ------------------------------------------------------------------ *)
(** ** config.py *)

Module config.

(** The parts of [urlparse(DATABASE_URL)] that [__init__] reads. *)
Record ParseResult := mkParseResult {
  hostname : option string;
  port : option Z;
  username : option string;
  password : option string;
  path : string }.

(** The class attributes, as read from the environment when the module is
    loaded. *)
Record ClassAttributes := mkClassAttributes {
  class_ENVIRONMENT : string;
  class_DEBUG : bool;
  class_LOG_LEVEL : string;
  class_JWT_SECRET : string;
  class_JWT_ALGORITHM : string;
  class_JWT_EXPIRE_HOURS : Z;
  class_FRONTEND_URL : string;
  class_PORT : Z;
  class_RAILWAY_ENVIRONMENT : string;
  class_RAILWAY_PROJECT_ID : string;
  class_RAILWAY_SERVICE_ID : string }.

Record Settings := mkSettings {
  ENVIRONMENT : string;
  DEBUG : bool;
  LOG_LEVEL : string;
  DATABASE_URL : string;
  MYSQL_HOST : string;
  MYSQL_PORT : Z;
  MYSQL_USER : string;
  MYSQL_PASSWORD : string;
  MYSQL_DATABASE : string;
  JWT_SECRET : string;
  JWT_ALGORITHM : string;
  JWT_EXPIRE_HOURS : Z;
  FRONTEND_URL : string;
  PORT : Z;
  RAILWAY_ENVIRONMENT : string;
  RAILWAY_PROJECT_ID : string;
  RAILWAY_SERVICE_ID : string }.

(** [x or default] for an optional [str] and an optional [int]. *)
Definition str_or (x : option string) (default : string) : string :=
  match x with
  | Some s => if truthy_str s then s else default
  | None => default
  end.

Definition int_or (x : option Z) (default : Z) : Z :=
  match x with
  | Some n => if truthy_int n then n else default
  | None => default
  end.

(** [s.lstrip('/')]. *)
Fixpoint lstrip_slash (s : string) : string :=
  match s with
  | String c s' => if Ascii.eqb c "/" then lstrip_slash s' else s
  | EmptyString => EmptyString
  end.

Definition default_JWT_SECRET : string :=
  "your-super-secret-jwt-key-change-this-in-production".

(** [Settings()]: [__init__] over the class attributes. *)
Definition init (cls : ClassAttributes) (parsed : ParseResult) : Settings :=
  let host := str_or (hostname parsed) "localhost" in
  let port := int_or (port parsed) 3306 in
  let user := str_or (username parsed) "root" in
  let password := str_or (password parsed) "" in
  let database := str_or (Some (lstrip_slash (path parsed))) "railway" in
  mkSettings (class_ENVIRONMENT cls) (class_DEBUG cls) (class_LOG_LEVEL cls)
    ("mysql+pymysql://" ++ user ++ ":" ++ password ++ "@" ++ host ++ ":" ++ str_int port
     ++ "/" ++ database ++ "?charset=utf8mb4")%string
    host port user password database
    (class_JWT_SECRET cls) (class_JWT_ALGORITHM cls) (class_JWT_EXPIRE_HOURS cls)
    (class_FRONTEND_URL cls) (class_PORT cls)
    (class_RAILWAY_ENVIRONMENT cls) (class_RAILWAY_PROJECT_ID cls)
    (class_RAILWAY_SERVICE_ID cls).

Definition get_config_info (self : Settings) : json :=
  JDict
    [ ("environment", JStr (ENVIRONMENT self));
      ("debug", JBool (DEBUG self));
      ("log_level", JStr (LOG_LEVEL self));
      ("database", JDict
         [ ("host", JStr (MYSQL_HOST self));
           ("port", JInt (MYSQL_PORT self));
           ("user", JStr (MYSQL_USER self));
           ("database", JStr (MYSQL_DATABASE self));
           ("password_set", JBool (truthy_str (MYSQL_PASSWORD self)));
           ("url_template",
            JStr ("mysql+pymysql://" ++ MYSQL_USER self ++ ":***@" ++ MYSQL_HOST self ++ ":"
                  ++ str_int (MYSQL_PORT self) ++ "/" ++ MYSQL_DATABASE self)%string) ]);
      ("jwt", JDict
         [ ("algorithm", JStr (JWT_ALGORITHM self));
           ("expire_hours", JInt (JWT_EXPIRE_HOURS self));
           ("secret_set",
            JBool (truthy_str (JWT_SECRET self)
                   && negb (String.eqb (JWT_SECRET self) default_JWT_SECRET))) ]);
      ("application", JDict
         [ ("frontend_url", JStr (FRONTEND_URL self));
           ("port", JInt (PORT self)) ]);
      ("railway", JDict
         [ ("environment", JStr (RAILWAY_ENVIRONMENT self));
           ("project_id", JStr (RAILWAY_PROJECT_ID self));
           ("service_id", JStr (RAILWAY_SERVICE_ID self));
           ("is_railway", JBool (truthy_str (RAILWAY_ENVIRONMENT self))) ]) ].

Definition validate_config (self : Settings) : list string :=
  let warnings := [] in
  let warnings :=
    if negb (truthy_str (MYSQL_PASSWORD self))
    then warnings ++ ["MYSQL_PASSWORD is not set"] else warnings in
  let warnings :=
    if negb (truthy_str (MYSQL_HOST self))
    then warnings ++ ["MYSQL_HOST is not set"] else warnings in
  let warnings :=
    if negb (truthy_str (MYSQL_DATABASE self))
    then warnings ++ ["MYSQL_DATABASE is not set"] else warnings in
  let warnings :=
    if String.eqb (JWT_SECRET self) default_JWT_SECRET
    then warnings ++ ["JWT_SECRET is using default value - change this in production"]
    else warnings in
  if String.eqb (ENVIRONMENT self) "production" then
    let warnings :=
      if DEBUG self
      then warnings ++ ["DEBUG is enabled in production environment"] else warnings in
    if String.eqb (LOG_LEVEL self) "DEBUG"
    then warnings ++ ["LOG_LEVEL is set to DEBUG in production environment"] else warnings
  else warnings.

End config.

(* ------------------------------------------------------------------ *)

(** ** auth.py *)

Module auth.

Record TokenData := mkTokenData {
  token_user_id : Z;
  token_username : string;
  token_role : string }.

Definition verify_token (env : Env) (token : string) : result TokenData :=
  match jwt_decode env token with
  | inr payload =>
      match payload_user_id payload, payload_username payload, payload_role payload with
      | Some user_id, Some username, Some role => Ok (mkTokenData user_id username role)
      | _, _, _ => Raise (HTTPException HTTP_401_UNAUTHORIZED "Invalid token")
      end
  | inl _ => Raise (HTTPException HTTP_401_UNAUTHORIZED "Invalid token")
  end.

Definition get_current_user (env : Env) (credentials : string) : M User.t :=
  try_except
    (token_data <- lift (verify_token env credentials) ;;
     user <- gets (fun db => find (fun u => User.id u =? token_user_id token_data) (users db)) ;;
     match user with
     | None => raise (HTTPException HTTP_401_UNAUTHORIZED "User not found")
     | Some u => ret u
     end)
    (fun e =>
       match e with
       | HTTPException _ _ => raise e
       | IntegrityError _ | OperationalError _ =>
           raise (HTTPException HTTP_500_INTERNAL_SERVER_ERROR "Database error retrieving user")
       | _ => raise (HTTPException HTTP_401_UNAUTHORIZED "Authentication failed")
       end).

Definition get_current_admin_user (current_user : User.t) : result User.t :=
  if negb (String.eqb (User.role current_user) "admin")
  then Raise (HTTPException HTTP_403_FORBIDDEN "Access denied. Admin only.")
  else Ok current_user.

(** The [try] block of [log_operation]: build the entry, add it, commit,
    refresh.  The write either fails as the environment says or appends the
    entry with its generated key and server-side timestamp. *)
Definition log_operation_write (env : Env) (user_id : Z) (action table_name : string)
    (record_id : option Z) (old_data new_data : option json)
    (description ip_address : option string) : M unit :=
  match log_fault env with
  | Some e => raise e
  | None =>
      modify (fun db =>
        add_operation_log
          (OperationLog.mk (operation_logs_seq db) user_id action table_name record_id
             old_data new_data description ip_address (func_now env)) db)
  end.

Definition log_operation (env : Env) (user_id : Z) (action table_name : string)
    (record_id : option Z) (old_data new_data : option json)
    (description ip_address : option string) : M unit :=
  try_except
    (log_operation_write env user_id action table_name record_id old_data new_data
       description ip_address)
    (fun e =>
       if is_SQLAlchemyError e then rollback   (* except SQLAlchemyError *)
       else rollback).                         (* except Exception *)

(** A [timedelta], in microseconds. *)
Definition timedelta := Z.
Definition timedelta_hours (h : Z) : timedelta := h * 3600000000.

(** The sum [since + delta] that becomes the [exp] claim, kept as its two
    terms. *)
Record Expiry := mkExpiry { since : datetime.t; delta : timedelta }.

(** [jwt.encode(to_encode, settings.JWT_SECRET, algorithm=...)] is the
    argument [jwt_encode]: it is handed the claims other than [exp] and the
    expiry.  A [timedelta] of zero is falsy. *)
Definition create_access_token (settings : config.Settings)
    (jwt_encode : list (string * json) -> Expiry -> string) (env : Env)
    (data : list (string * json)) (expires_delta : option timedelta) : string :=
  let to_encode := data in
  let default := mkExpiry (utcnow env) (timedelta_hours (config.JWT_EXPIRE_HOURS settings)) in
  let expire :=
    match expires_delta with
    | Some d => if truthy_int d then mkExpiry (utcnow env) d else default
    | None => default
    end in
  (* to_encode.update({"exp": expire}) *)
  let to_encode := filter (fun kv => negb (String.eqb (fst kv) "exp")) to_encode in
  jwt_encode to_encode expire.

(** [False] is [None] here. *)
Definition authenticate_user (username password : string) : M (option User.t) :=
  try_except
    (user <- gets (fun db => find (fun u => String.eqb (User.username u) username) (users db)) ;;
     match user with
     | None => ret None
     | Some u =>
         if negb (String.eqb (User.password u) password) then ret None
         else ret (Some u)
     end)
    (fun e => ret None).

End auth.

(* ------------------------------------------------------------------ *)
(** ** routers/data.py *)

Module routers_data.
Import schemas.

Definition get_client_ip (request : Request) : result string :=
  let host :=
    match client_host request with
    | Some h => Ok h
    | None => Raise (AttributeError "'NoneType' object has no attribute 'host'")
    end in
  match x_forwarded_for request with
  | Some forwarded =>
      if truthy_str forwarded then Ok (strip (split_comma_head forwarded)) else host
  | None => host
  end.

(** The efficiency is a [float] when it is a quotient and the [int] [0]
    otherwise. *)
Inductive number : Type :=
| PyInt (n : Z)
| PyFloat (x : float).

Definition json_of_number (v : number) : json :=
  match v with PyInt n => JInt n | PyFloat x => JFloat x end.

(** [round(v, ndigits)] for [ndigits >= 0]: an [int] is returned as it is. *)
Definition round (v : number) (ndigits : Z) : number :=
  match v with
  | PyInt n => PyInt n
  | PyFloat x => PyFloat (binary64.py_round x ndigits)
  end.

Definition calculate_efficiency_and_cost (record : EcoRecord.t) : number * number :=
  let total_water :=
    binary64.of_Decimal (EcoRecord.drinking_water record + EcoRecord.irrigation_water record) in
  let efficiency :=
    if binary64.gtb_zero total_water
    then PyFloat (binary64.div (binary64.of_Decimal (EcoRecord.power_consumption record))
                    total_water)
    else PyInt 0 in
  (* the product of two hundredths is a whole number of ten-thousandths *)
  let daily_cost :=
    PyFloat (binary64.round
               (EcoRecord.power_consumption record * EcoRecord.electricity_price record)
               10000) in
  (round efficiency 6, round daily_cost 2).

(** [record.creator] and [record.updater]: the user row behind a foreign key. *)
Definition lookup_user (uid : Z) (db : Db) : option User.t :=
  find (fun u => User.id u =? uid) (users db).

Definition format_record_response (record : EcoRecord.t) : M json :=
  gets (fun db =>
    let '(efficiency, daily_cost) := calculate_efficiency_and_cost record in
    let creator := lookup_user (EcoRecord.created_by record) db in
    let updater := match EcoRecord.updated_by record with
                   | Some uid => lookup_user uid db
                   | None => None
                   end in
    JDict
      [ ("id", JInt (EcoRecord.id record));
        ("date", JDate (EcoRecord.date record));
        ("powerConsumption", JFloat (binary64.of_Decimal (EcoRecord.power_consumption record)));
        ("drinkingWater", JFloat (binary64.of_Decimal (EcoRecord.drinking_water record)));
        ("irrigationWater", JFloat (binary64.of_Decimal (EcoRecord.irrigation_water record)));
        ("electricityPrice", JFloat (binary64.of_Decimal (EcoRecord.electricity_price record)));
        ("efficiency", json_of_number efficiency);
        ("dailyCost", json_of_number daily_cost);
        ("createdBy", JInt (EcoRecord.created_by record));
        ("createdByName", json_of_option (fun u => JStr (User.username u)) creator);
        ("updatedBy", json_of_option JInt (EcoRecord.updated_by record));
        ("updatedByName", json_of_option (fun u => JStr (User.username u)) updater);
        ("createdAt", JDateTime (EcoRecord.created_at record));
        ("updatedAt", JDateTime (EcoRecord.updated_at record)) ]).

(** [EcoRecord(date=..., ..., created_by=...)]: a transient object. *)
Definition new_EcoRecord (record_data : EcoRecordCreate.t) (created_by : Z) : EcoRecord.t :=
  EcoRecord.mk 0 (EcoRecordCreate.date record_data)
    (EcoRecordCreate.powerConsumption record_data)
    (EcoRecordCreate.drinkingWater record_data)
    (EcoRecordCreate.irrigationWater record_data)
    (EcoRecordCreate.electricityPrice record_data)
    created_by None datetime.unset datetime.unset.

(** The INSERTs of a flush: keys from the counter, timestamps from the
    server defaults. *)
Fixpoint flush_new (env : Env) (seq : Z) (pending : list EcoRecord.t) : list EcoRecord.t :=
  match pending with
  | [] => []
  | r :: pending' =>
      EcoRecord.mk seq (EcoRecord.date r) (EcoRecord.power_consumption r)
        (EcoRecord.drinking_water r) (EcoRecord.irrigation_water r)
        (EcoRecord.electricity_price r) (EcoRecord.created_by r) (EcoRecord.updated_by r)
        (func_now env) (func_now env)
      :: flush_new env (seq + 1) pending'
  end.

(** The data snapshot written to the audit log. *)
Definition snapshot (d : date.t) (power drinking irrigation price : Decimal) : json :=
  JDict
    [ ("date", JStr (date.isoformat d));
      ("powerConsumption", JFloat (binary64.of_Decimal power));
      ("drinkingWater", JFloat (binary64.of_Decimal drinking));
      ("irrigationWater", JFloat (binary64.of_Decimal irrigation));
      ("electricityPrice", JFloat (binary64.of_Decimal price)) ].

Definition create_data (env : Env) (record_data : EcoRecordCreate.t) (request : Request)
    (current_user : User.t) : M json :=
  try_except
    (existing_record <-
       query_first (fun r => date.eqb (EcoRecord.date r) (EcoRecordCreate.date record_data)) ;;
     match existing_record with
     | Some _ =>
         ret (JDict
           [ ("success", JBool false);
             ("error", JStr "Validation failed");
             ("message", JStr "Date already exists");
             ("details", JDict [ ("field", JStr "date"); ("code", JStr "DUPLICATE_DATE") ]) ])
     | None =>
         let new_record := new_EcoRecord record_data (User.id current_user) in
         (* db.add(new_record); db.commit(); db.refresh(new_record) *)
         rows <- gets eco_records ;;
         seq <- gets eco_records_seq ;;
         let flushed := flush_new env seq [new_record] in
         commit env (rows ++ flushed) (seq + 1) ;;;
         let new_record := hd new_record flushed in
         try_except
           (let new_data_serializable :=
              snapshot (EcoRecordCreate.date record_data)
                (EcoRecordCreate.powerConsumption record_data)
                (EcoRecordCreate.drinkingWater record_data)
                (EcoRecordCreate.irrigationWater record_data)
                (EcoRecordCreate.electricityPrice record_data) in
            ip <- lift (get_client_ip request) ;;
            auth.log_operation env (User.id current_user) "CREATE" "eco_records"
              (Some (EcoRecord.id new_record)) None (Some new_data_serializable)
              (Some ("Created water and electricity record ("
                     ++ date.isoformat (EcoRecordCreate.date record_data) ++ ")")%string)
              (Some ip))
           (fun log_error => ret tt) ;;;
         data <- format_record_response new_record ;;
         ret (JDict
           [ ("success", JBool true);
             ("message", JStr "Data record created successfully");
             ("data", data) ])
     end)
    (fun e =>
       match e with
       | IntegrityError _ =>
           rollback ;;;
           ret (JDict
             [ ("success", JBool false);
               ("error", JStr "Validation failed");
               ("message", JStr "Date already exists");
               ("details", JDict [ ("field", JStr "date"); ("code", JStr "DUPLICATE_DATE") ]) ])
       | OperationalError _ =>
           rollback ;;;
           raise (HTTPException HTTP_500_INTERNAL_SERVER_ERROR
                    ("Database error: " ++ str_exn e)%string)
       | _ =>
           rollback ;;;
           raise (HTTPException HTTP_500_INTERNAL_SERVER_ERROR
                    ("Failed to create data record: " ++ str_exn e)%string)
       end).

(** Assignment to the attributes of the object [first()] handed back: the
    first row satisfying [p] is the one that changes. *)
Fixpoint update_first (p : EcoRecord.t -> bool) (f : EcoRecord.t -> EcoRecord.t)
    (rows : list EcoRecord.t) : list EcoRecord.t :=
  match rows with
  | [] => []
  | r :: rows' => if p r then f r :: rows' else r :: update_first p f rows'
  end.

(** [db.delete(record)] for the object [first()] handed back. *)
Fixpoint remove_first (p : EcoRecord.t -> bool) (rows : list EcoRecord.t)
  : list EcoRecord.t :=
  match rows with
  | [] => []
  | r :: rows' => if p r then rows' else r :: remove_first p rows'
  end.

(** One [if record_data.X is not None:] block of [update_data]. *)
Definition assign_if_provided (key : string) (v : option Decimal)
    (set : Decimal -> EcoRecord.t -> EcoRecord.t)
    (st : EcoRecord.t * list (string * json)) : EcoRecord.t * list (string * json) :=
  match v with
  | Some x => (set x (fst st), snd st ++ [(key, JFloat (binary64.of_Decimal x))])
  | None => st
  end.

Definition update_data (env : Env) (record_id : Z) (record_data : EcoRecordUpdate.t)
    (request : Request) (current_user : User.t) : M json :=
  try_except
    (found <- query_first (fun r => EcoRecord.id r =? record_id) ;;
     match found with
     | None => raise (HTTPException HTTP_404_NOT_FOUND "Record not found")
     | Some record =>
         let old_data :=
           snapshot (EcoRecord.date record) (EcoRecord.power_consumption record)
             (EcoRecord.drinking_water record) (EcoRecord.irrigation_water record)
             (EcoRecord.electricity_price record) in
         let st := (record, []) in
         let st := assign_if_provided "powerConsumption"
                     (EcoRecordUpdate.powerConsumption record_data)
                     EcoRecord.set_power_consumption st in
         let st := assign_if_provided "drinkingWater"
                     (EcoRecordUpdate.drinkingWater record_data)
                     EcoRecord.set_drinking_water st in
         let st := assign_if_provided "irrigationWater"
                     (EcoRecordUpdate.irrigationWater record_data)
                     EcoRecord.set_irrigation_water st in
         let st := assign_if_provided "electricityPrice"
                     (EcoRecordUpdate.electricityPrice record_data)
                     EcoRecord.set_electricity_price st in
         let update_data := JDict (snd st) in
         let record := EcoRecord.set_updated_by (User.id current_user) (fst st) in
         let record := EcoRecord.set_updated_at (utcnow env) record in
         (* db.commit(); db.refresh(record) *)
         rows <- gets eco_records ;;
         seq <- gets eco_records_seq ;;
         commit env (update_first (fun r => EcoRecord.id r =? record_id) (fun _ => record) rows)
           seq ;;;
         ip <- lift (get_client_ip request) ;;
         auth.log_operation env (User.id current_user) "UPDATE" "eco_records"
           (Some (EcoRecord.id record)) (Some old_data) (Some update_data)
           (Some ("Updated water and electricity record ("
                  ++ date.isoformat (EcoRecord.date record) ++ ")")%string)
           (Some ip) ;;;
         data <- format_record_response record ;;
         ret (JDict
           [ ("success", JBool true);
             ("message", JStr "Data record updated successfully");
             ("data", data) ])
     end)
    (fun e =>
       match e with
       | HTTPException _ _ => raise e
       | _ =>
           rollback ;;;
           raise (HTTPException HTTP_500_INTERNAL_SERVER_ERROR "Failed to update data record")
       end).

Definition delete_data (env : Env) (record_id : Z) (request : Request)
    (current_user : User.t) : M json :=
  try_except
    (found <- query_first (fun r => EcoRecord.id r =? record_id) ;;
     match found with
     | None => raise (HTTPException HTTP_404_NOT_FOUND "Record not found")
     | Some record =>
         let old_data :=
           snapshot (EcoRecord.date record) (EcoRecord.power_consumption record)
             (EcoRecord.drinking_water record) (EcoRecord.irrigation_water record)
             (EcoRecord.electricity_price record) in
         (* db.delete(record); db.commit() *)
         rows <- gets eco_records ;;
         seq <- gets eco_records_seq ;;
         commit env (remove_first (fun r => EcoRecord.id r =? record_id) rows) seq ;;;
         ip <- lift (get_client_ip request) ;;
         auth.log_operation env (User.id current_user) "DELETE" "eco_records"
           (Some record_id) (Some old_data) None
           (Some ("Deleted water and electricity record ("
                  ++ date.isoformat (EcoRecord.date record) ++ ")")%string)
           (Some ip) ;;;
         ret (JDict
           [ ("success", JBool true);
             ("message", JStr "Data record deleted successfully") ])
     end)
    (fun e =>
       match e with
       | HTTPException _ _ => raise e
       | _ =>
           rollback ;;;
           raise (HTTPException HTTP_500_INTERNAL_SERVER_ERROR "Failed to delete data record")
       end).

Definition clear_all_data (env : Env) (clear_request : ClearDataRequest.t)
    (request : Request) (current_user : User.t) : M json :=
  try_except
    (count <- gets (fun db => Z.of_nat (List.length (eco_records db))) ;;
     (* db.query(EcoRecord).delete(); db.commit() *)
     seq <- gets eco_records_seq ;;
     commit env [] seq ;;;
     ip <- lift (get_client_ip request) ;;
     auth.log_operation env (User.id current_user) "DELETE" "eco_records"
       None None None
       (Some ("Cleared all data (" ++ str_int count ++ " records)")%string)
       (Some ip) ;;;
     ret (JDict
       [ ("success", JBool true);
         ("message", JStr "All data records deleted successfully");
         ("data", JDict
            [ ("deletedCount", JInt count);
              ("warning", JStr "All system data has been permanently deleted") ]) ]))
    (fun e =>
       rollback ;;;
       raise (HTTPException HTTP_500_INTERNAL_SERVER_ERROR "Failed to clear all data")).

(** The local variables of [import_data] while it loops, and the session:
    the persistent objects as this request has written to them, and the
    objects handed to [db.add], which the session (created with
    [autoflush=False]) keeps to itself until [db.commit()]. *)
Record ImportState := mkImportState {
  imported : Z;
  updated : Z;
  skipped : Z;
  errors : list string;
  session_rows : list EcoRecord.t;
  session_new : list EcoRecord.t }.

(** The [try] block of the loop body, for the [n]-th record.  The existence
    query reads the table; it hands back the session's object for the row
    it finds, and since no statement assigns [date] the row is found by
    looking the date up among those objects.  Objects only [add]ed are not
    in the table yet. *)
Definition import_record_try (env : Env) (overwriteExisting : bool) (current_user : User.t)
    (st : ImportState) (n : nat) (record_data : EcoRecordCreate.t) : result ImportState :=
  match query_fault env n with
  | Some e => Raise e
  | None =>
      let same_date r := date.eqb (EcoRecord.date r) (EcoRecordCreate.date record_data) in
      match find same_date (session_rows st) with
      | Some existing_record =>
          if overwriteExisting then
            let overwrite r :=
              EcoRecord.set_updated_at (utcnow env)
                (EcoRecord.set_updated_by (User.id current_user)
                   (EcoRecord.set_electricity_price (EcoRecordCreate.electricityPrice record_data)
                      (EcoRecord.set_irrigation_water (EcoRecordCreate.irrigationWater record_data)
                         (EcoRecord.set_drinking_water (EcoRecordCreate.drinkingWater record_data)
                            (EcoRecord.set_power_consumption
                               (EcoRecordCreate.powerConsumption record_data) r))))) in
            Ok (mkImportState (imported st) (updated st + 1) (skipped st) (errors st)
                  (update_first same_date overwrite (session_rows st)) (session_new st))
          else
            Ok (mkImportState (imported st) (updated st) (skipped st + 1) (errors st)
                  (session_rows st) (session_new st))
      | None =>
          let new_record := new_EcoRecord record_data (User.id current_user) in
          Ok (mkImportState (imported st + 1) (updated st) (skipped st) (errors st)
                (session_rows st) (session_new st ++ [new_record]))
      end
  end.

(** The loop body with its [except Exception as e]. *)
Definition import_record (env : Env) (overwriteExisting : bool) (current_user : User.t)
    (st : ImportState) (n : nat) (record_data : EcoRecordCreate.t) : ImportState :=
  match import_record_try env overwriteExisting current_user st n record_data with
  | Ok st' => st'
  | Raise e =>
      mkImportState (imported st) (updated st) (skipped st)
        (errors st ++ [("Error importing record for "
                        ++ date.isoformat (EcoRecordCreate.date record_data)
                        ++ ": " ++ str_exn e)%string])
        (session_rows st) (session_new st)
  end.

(** [for record_data in import_data.records:], from the [n]-th record on. *)
Fixpoint import_loop (env : Env) (overwriteExisting : bool) (current_user : User.t)
    (st : ImportState) (n : nat) (records : list EcoRecordCreate.t) : ImportState :=
  match records with
  | [] => st
  | record_data :: records' =>
      import_loop env overwriteExisting current_user
        (import_record env overwriteExisting current_user st n record_data) (S n) records'
  end.

Definition import_data (env : Env) (import_data : EcoRecordImport.t) (request : Request)
    (current_user : User.t) : M json :=
  try_except
    (rows <- gets eco_records ;;
     seq <- gets eco_records_seq ;;
     let st := import_loop env (EcoRecordImport.overwriteExisting import_data) current_user
                 (mkImportState 0 0 0 [] rows []) 0 (EcoRecordImport.records import_data) in
     (* db.commit(): the UPDATEs of the written rows and the INSERTs of the added ones *)
     commit env (session_rows st ++ flush_new env seq (session_new st))
       (seq + Z.of_nat (List.length (session_new st))) ;;;
     ip <- lift (get_client_ip request) ;;
     auth.log_operation env (User.id current_user) "CREATE" "eco_records"
       None None None
       (Some ("Batch imported data (imported: " ++ str_int (imported st)
              ++ ", updated: " ++ str_int (updated st)
              ++ ", skipped: " ++ str_int (skipped st) ++ ")")%string)
       (Some ip) ;;;
     ret (JDict
       [ ("success", JBool true);
         ("message", JStr "Data imported successfully");
         ("data", JDict
            [ ("imported", JInt (imported st));
              ("updated", JInt (updated st));
              ("skipped", JInt (skipped st));
              ("errors", JList (map JStr (errors st))) ]) ]))
    (fun e =>
       rollback ;;;
       raise (HTTPException HTTP_500_INTERNAL_SERVER_ERROR "Failed to import data")).

(** [s.replace(old, new)] for a non-empty [old]: every occurrence, from the
    left, without overlap.  [skip] counts the characters of a match still
    to be passed over. *)
Fixpoint replace_from (old new : string) (skip : nat) (s : string) : string :=
  match s with
  | EmptyString => EmptyString
  | String c s' =>
      match skip with
      | S k => replace_from old new k s'
      | O =>
          if startswith s old
          then (new ++ replace_from old new (String.length old - 1) s')%string
          else String c (replace_from old new 0 s')
      end
  end.

Definition replace (s old new : string) : string := replace_from old new 0 s.

(** The mapped columns of [EcoRecord]. *)
Inductive column : Type :=
| Column_id
| Column_date
| Column_power_consumption
| Column_drinking_water
| Column_irrigation_water
| Column_electricity_price
| Column_created_by
| Column_updated_by
| Column_created_at
| Column_updated_at.

(** [getattr(EcoRecord, name)] for the name of a column and for a name the
    class does not have.  The class has a few attributes besides its columns
    (the two relationships, what the declarative base adds); the pattern of
    [sortBy] keeps the route away from them and they are left out here. *)
Definition getattr_EcoRecord (name : string) : result column :=
  if String.eqb name "id" then Ok Column_id
  else if String.eqb name "date" then Ok Column_date
  else if String.eqb name "power_consumption" then Ok Column_power_consumption
  else if String.eqb name "drinking_water" then Ok Column_drinking_water
  else if String.eqb name "irrigation_water" then Ok Column_irrigation_water
  else if String.eqb name "electricity_price" then Ok Column_electricity_price
  else if String.eqb name "created_by" then Ok Column_created_by
  else if String.eqb name "updated_by" then Ok Column_updated_by
  else if String.eqb name "created_at" then Ok Column_created_at
  else if String.eqb name "updated_at" then Ok Column_updated_at
  else Raise (AttributeError
                ("type object 'EcoRecord' has no attribute '" ++ name ++ "'")%string).

(** The order of the database on the values of a column; [NULL] sorts
    before every value. *)
Definition column_leb (c : column) (a b : EcoRecord.t) : bool :=
  match c with
  | Column_id => EcoRecord.id a <=? EcoRecord.id b
  | Column_date => date.leb (EcoRecord.date a) (EcoRecord.date b)
  | Column_power_consumption =>
      EcoRecord.power_consumption a <=? EcoRecord.power_consumption b
  | Column_drinking_water => EcoRecord.drinking_water a <=? EcoRecord.drinking_water b
  | Column_irrigation_water => EcoRecord.irrigation_water a <=? EcoRecord.irrigation_water b
  | Column_electricity_price =>
      EcoRecord.electricity_price a <=? EcoRecord.electricity_price b
  | Column_created_by => EcoRecord.created_by a <=? EcoRecord.created_by b
  | Column_updated_by =>
      match EcoRecord.updated_by a, EcoRecord.updated_by b with
      | None, _ => true
      | Some _, None => false
      | Some x, Some y => x <=? y
      end
  | Column_created_at => datetime.leb (EcoRecord.created_at a) (EcoRecord.created_at b)
  | Column_updated_at => datetime.leb (EcoRecord.updated_at a) (EcoRecord.updated_at b)
  end.

Definition asc (c : column) (a b : EcoRecord.t) : bool := column_leb c a b.
Definition desc (c : column) (a b : EcoRecord.t) : bool := column_leb c b a.

(** [query.order_by(...)], as an insertion sort: a row goes in front of the
    first one that it does not come after. *)
Fixpoint insert_by (leb : EcoRecord.t -> EcoRecord.t -> bool) (r : EcoRecord.t)
    (sorted : list EcoRecord.t) : list EcoRecord.t :=
  match sorted with
  | [] => [r]
  | x :: sorted' => if leb r x then r :: x :: sorted' else x :: insert_by leb r sorted'
  end.

Definition order_by (leb : EcoRecord.t -> EcoRecord.t -> bool) (rows : list EcoRecord.t)
  : list EcoRecord.t :=
  fold_right (insert_by leb) [] rows.

(** [if startDate: ...] and [if endDate: ...]; a [date] is always truthy. *)
Definition date_filters (startDate endDate : option date.t) (rows : list EcoRecord.t)
  : list EcoRecord.t :=
  let query :=
    match startDate with
    | Some d => filter (fun r => date.leb d (EcoRecord.date r)) rows
    | None => rows
    end in
  match endDate with
  | Some d => filter (fun r => date.leb (EcoRecord.date r) d) query
  | None => query
  end.

Record DataPage := mkDataPage {
  page_records : list EcoRecord.t;
  page_total : Z;
  page_pages : Z }.

(** Counting and slicing, for [page >= 1] and a [limit] that is absent or
    [>= 1] as the route requires. *)
Definition select_page (page : Z) (limit : option Z) (query : list EcoRecord.t) : DataPage :=
  let total := Z.of_nat (List.length query) in
  let unpaged := mkDataPage query total 1 in
  match limit with
  | Some l =>
      if truthy_int l then
        let offset := (page - 1) * l in
        mkDataPage (firstn (Z.to_nat l) (skipn (Z.to_nat offset) query)) total
          ((total + l - 1) / l)
      else unpaged
  | None => unpaged
  end.

Fixpoint format_records (records : list EcoRecord.t) : M (list json) :=
  match records with
  | [] => ret []
  | record :: records' =>
      j <- format_record_response record ;;
      js <- format_records records' ;;
      ret (j :: js)
  end.

(** [min(dates)] and [max(dates)] of a list that is not empty. *)
Definition min_date (d : date.t) (ds : list date.t) : date.t :=
  fold_left (fun m x => if date.ltb x m then x else m) ds d.
Definition max_date (d : date.t) (ds : list date.t) : date.t :=
  fold_left (fun m x => if date.ltb m x then x else m) ds d.

Definition date_range (records : list EcoRecord.t) : json :=
  match map EcoRecord.date records with
  | [] => JDict []
  | d :: ds =>
      JDict [ ("start", JStr (date.isoformat (min_date d ds)));
              ("end", JStr (date.isoformat (max_date d ds))) ]
  end.

Definition get_all_data (current_user : User.t) (page : Z) (limit : option Z)
    (startDate endDate : option date.t) (sortBy sortOrder : string) : M json :=
  try_except
    (rows <- gets eco_records ;;
     let query := date_filters startDate endDate rows in
     sort_column <-
       lift (getattr_EcoRecord
               (replace
                  (replace
                     (replace (replace sortBy "powerConsumption" "power_consumption")
                        "drinkingWater" "drinking_water")
                     "irrigationWater" "irrigation_water")
                  "electricityPrice" "electricity_price")) ;;
     let query :=
       if String.eqb sortOrder "desc" then order_by (desc sort_column) query
       else order_by (asc sort_column) query in
     let p := select_page page limit query in
     formatted_records <- format_records (page_records p) ;;
     ret (JDict
       [ ("success", JBool true);
         ("data", JDict
            [ ("records", JList formatted_records);
              ("pagination", JDict
                 [ ("total", JInt (page_total p));
                   ("page", JInt page);
                   ("limit", json_of_option JInt limit);
                   ("pages", JInt (page_pages p)) ]);
              ("summary", JDict
                 [ ("totalRecords", JInt (page_total p));
                   ("dateRange", date_range (page_records p)) ]) ]) ]))
    (fun e =>
       match e with
       | IntegrityError _ | OperationalError _ =>
           raise (HTTPException HTTP_500_INTERNAL_SERVER_ERROR
                    ("Database error: " ++ str_exn e)%string)
       | _ =>
           raise (HTTPException HTTP_500_INTERNAL_SERVER_ERROR
                    ("Failed to retrieve data: " ++ str_exn e)%string)
       end).

(** [s.endswith(suffix)]. *)
Definition endswith (s suffix : string) : bool :=
  String.prefix (rev_string "" suffix) (rev_string "" s).

(** The name of the exported file; [stamp] is
    [datetime.now().strftime('%Y%m%d_%H%M%S')]. *)
Definition export_filename (stamp : string) (filename : option string) : string :=
  let generated := ("ecometrics_export_" ++ stamp ++ ".csv")%string in
  match filename with
  | None => generated
  | Some filename =>
      if negb (truthy_str filename) then generated
      else if negb (endswith filename ".csv") then (filename ++ ".csv")%string
      else filename
  end.

(** [datetime.isoformat()]. *)
Definition datetime_isoformat (t : datetime.t) : string :=
  let seconds := datetime.micros t / 1000000 in
  let fraction := datetime.micros t mod 1000000 in
  let hh := date.pad 2 (str_int (seconds / 3600)) in
  let mm := date.pad 2 (str_int (seconds / 60 mod 60)) in
  let ss := date.pad 2 (str_int (seconds mod 60)) in
  let ffffff := if fraction =? 0 then "" else ("." ++ date.pad 6 (str_int fraction))%string in
  (date.isoformat (datetime.day t) ++ "T" ++ hh ++ ":" ++ mm ++ ":" ++ ss ++ ffffff)%string.

(** What [export_data] hands back: a body, a file with its name and the
    cells of its rows before [csv.writer] turns them into text, or nothing. *)
Inductive export_response : Type :=
| JsonBody (body : json)
| CsvFile (filename : string) (rows : list (list json))
| ReturnsNone.

Definition csv_header : list json :=
  map JStr
    [ "Date"; "Power Consumption (kWh)"; "Drinking Water (L)"; "Irrigation Water (L)";
      "Electricity Price (KZT/kWh)"; "Efficiency"; "Daily Cost (KZT)"; "Created By";
      "Updated By" ].

Definition csv_row (record : EcoRecord.t) : M (list json) :=
  gets (fun db =>
    let '(efficiency, daily_cost) := calculate_efficiency_and_cost record in
    let creator := lookup_user (EcoRecord.created_by record) db in
    let updater := match EcoRecord.updated_by record with
                   | Some uid => lookup_user uid db
                   | None => None
                   end in
    [ JStr (date.isoformat (EcoRecord.date record));
      JFloat (binary64.of_Decimal (EcoRecord.power_consumption record));
      JFloat (binary64.of_Decimal (EcoRecord.drinking_water record));
      JFloat (binary64.of_Decimal (EcoRecord.irrigation_water record));
      JFloat (binary64.of_Decimal (EcoRecord.electricity_price record));
      json_of_number efficiency;
      json_of_number daily_cost;
      JStr (match creator with Some u => User.username u | None => "" end);
      JStr (match updater with Some u => User.username u | None => "" end) ]).

Fixpoint csv_rows (records : list EcoRecord.t) : M (list (list json)) :=
  match records with
  | [] => ret []
  | record :: records' =>
      row <- csv_row record ;;
      rows <- csv_rows records' ;;
      ret (row :: rows)
  end.

Definition export_data (env : Env) (stamp : string) (format : string)
    (startDate endDate : option date.t) (filename : option string)
    (current_user : User.t) : M export_response :=
  try_except
    (rows <- gets eco_records ;;
     let query := date_filters startDate endDate rows in
     let records := order_by (asc Column_date) query in
     if String.eqb format "json" then
       formatted_records <- format_records records ;;
       ret (JsonBody (JDict
         [ ("success", JBool true);
           ("data", JDict
              [ ("records", JList formatted_records);
                ("metadata", JDict
                   [ ("exportDate", JStr (datetime_isoformat (utcnow env)));
                     ("totalRecords", JInt (Z.of_nat (List.length records)));
                     ("format", JStr "json") ]) ]) ]))
     else if String.eqb format "csv" then
       rows <- csv_rows records ;;
       ret (CsvFile (export_filename stamp filename) (csv_header :: rows))
     else ret ReturnsNone)
    (fun e =>
       raise (HTTPException HTTP_500_INTERNAL_SERVER_ERROR "Failed to export data")).

End routers_data.

(* ------------------------------------------------------------------ *)
(** ** routers/auth.py *)

Module routers_auth.
Import schemas.

Definition register (env : Env) (user_data : UserRegister.t) : M json :=
  try_except
    (existing_user <-
       gets (fun db => find (fun u => String.eqb (User.username u)
                                        (UserRegister.username user_data)) (users db)) ;;
     match existing_user with
     | Some _ =>
         ret (JDict
           [ ("success", JBool false);
             ("error", JStr "Validation failed");
             ("message", JStr "Username already exists");
             ("details", JDict [ ("field", JStr "username");
                                 ("code", JStr "DUPLICATE_USERNAME") ]) ])
     | None =>
         (* db.add(new_user); db.commit(); db.refresh(new_user) *)
         new_user <-
           (fun db =>
              match commit_fault env with
              | Some e => (Raise e, db)
              | None =>
                  let u := User.mk (users_seq db) (UserRegister.username user_data)
                             (UserRegister.password user_data) "user"
                             (func_now env) (func_now env) None in
                  (* unique=True on User.username *)
                  if existsb (fun u' => String.eqb (User.username u') (User.username u))
                       (users db)
                  then (Raise (IntegrityError "Duplicate entry for key 'username'"), db)
                  else (Ok u, add_user u db)
              end) ;;
         ret (JDict
           [ ("success", JBool true);
             ("message", JStr "Registration successful");
             ("data", JDict
                [ ("id", JInt (User.id new_user));
                  ("username", JStr (User.username new_user));
                  ("role", JStr (User.role new_user));
                  ("createdAt", JDateTime (User.created_at new_user)) ]) ])
     end)
    (fun e =>
       match e with
       | IntegrityError _ =>
           rollback ;;;
           ret (JDict
             [ ("success", JBool false);
               ("error", JStr "Validation failed");
               ("message", JStr "Username already exists");
               ("details", JDict [ ("field", JStr "username");
                                   ("code", JStr "DUPLICATE_USERNAME") ]) ])
       | OperationalError _ =>
           rollback ;;;
           raise (HTTPException HTTP_500_INTERNAL_SERVER_ERROR
                    ("Database error during registration: " ++ str_exn e)%string)
       | _ =>
           rollback ;;;
           raise (HTTPException HTTP_500_INTERNAL_SERVER_ERROR
                    ("Registration failed: " ++ str_exn e)%string)
       end).

Definition set_users (us : list User.t) (db : Db) : Db :=
  mkDb us (eco_records db) (operation_logs db)
       (users_seq db) (eco_records_seq db) (operation_logs_seq db).

(** The UPDATE of the row with this primary key. *)
Fixpoint update_user (uid : Z) (f : User.t -> User.t) (us : list User.t) : list User.t :=
  match us with
  | [] => []
  | u :: us' => if User.id u =? uid then f u :: us' else u :: update_user uid f us'
  end.

Definition login (settings : config.Settings)
    (jwt_encode : list (string * json) -> auth.Expiry -> string) (env : Env)
    (user_data : UserLogin.t) (request : Request) : M json :=
  (* logger.debug(f"Login request from IP: {request.client.host}") *)
  match client_host request with
  | None => raise (AttributeError "'NoneType' object has no attribute 'host'")
  | Some _ =>
      try_except
        (user <- auth.authenticate_user (UserLogin.username user_data)
                   (UserLogin.password user_data) ;;
         match user with
         | None => raise (HTTPException HTTP_401_UNAUTHORIZED "Invalid credentials")
         | Some user =>
             (* user.last_login_at = datetime.utcnow(); db.commit(); the
                UPDATE also sets updated_at (onupdate=func.now()) *)
             user <-
               (fun db =>
                  match commit_fault env with
                  | Some e => (Raise e, db)
                  | None =>
                      let touch u :=
                        User.mk (User.id u) (User.username u) (User.password u) (User.role u)
                          (User.created_at u) (func_now env) (Some (utcnow env)) in
                      (Ok (touch user),
                       set_users (update_user (User.id user) touch (users db)) db)
                  end) ;;
             let access_token :=
               auth.create_access_token settings jwt_encode env
                 [ ("user_id", JInt (User.id user));
                   ("username", JStr (User.username user));
                   ("role", JStr (User.role user)) ]
                 None in
             ret (JDict
               [ ("success", JBool true);
                 ("data", JDict
                    [ ("token", JStr access_token);
                      ("user", JDict
                         [ ("id", JInt (User.id user));
                           ("username", JStr (User.username user));
                           ("role", JStr (User.role user));
                           ("loginTime",
                            json_of_option JDateTime (User.last_login_at user));
                           ("createdAt", JDateTime (User.created_at user)) ]) ]) ])
         end)
        (fun e =>
           match e with
           | HTTPException _ _ => raise e
           | IntegrityError _ | OperationalError _ =>
               raise (HTTPException HTTP_500_INTERNAL_SERVER_ERROR
                        ("Database error during login: " ++ str_exn e)%string)
           | _ =>
               raise (HTTPException HTTP_500_INTERNAL_SERVER_ERROR
                        ("Login failed: " ++ str_exn e)%string)
           end)
  end.

Definition logout (current_user : User.t) : M json :=
  ret (JDict [ ("success", JBool true); ("message", JStr "Logout successful") ]).

End routers_auth.

(* ------------------------------------------------------------------ *)
(** ** routers/logs.py *)

Module routers_logs.

(** [ORDER BY created_at DESC], as an insertion sort: an entry goes in
    front of the first one that is not newer than it. *)
Fixpoint insert_desc (l : OperationLog.t) (sorted : list OperationLog.t)
  : list OperationLog.t :=
  match sorted with
  | [] => [l]
  | x :: sorted' =>
      if datetime.leb (OperationLog.created_at x) (OperationLog.created_at l)
      then l :: x :: sorted'
      else x :: insert_desc l sorted'
  end.

Definition order_by_created_at_desc (logs : list OperationLog.t) : list OperationLog.t :=
  fold_right insert_desc [] logs.

(** [if arg: query = query.filter(p arg)]: the filter is added when the
    argument was given and is truthy. *)
Definition filter_if {A} (arg : option A) (truthy : A -> bool)
    (p : A -> OperationLog.t -> bool) (query : list OperationLog.t) : list OperationLog.t :=
  match arg with
  | Some a => if truthy a then filter (p a) query else query
  | None => query
  end.

(** A [date] is always truthy. *)
Definition truthy_date (d : date.t) : bool := true.

(** The query as built by the four [if] statements, ordered. *)
Definition build_query (startDate endDate : option date.t) (userId : option Z)
    (action : option string) (db : Db) : list OperationLog.t :=
  (* .join(User, OperationLog.user_id == User.id) *)
  let query :=
    filter (fun l => existsb (fun u => User.id u =? OperationLog.user_id l) (users db))
      (operation_logs db) in
  let query :=
    filter_if startDate truthy_date
      (fun d l => datetime.leb (datetime.of_date d) (OperationLog.created_at l)) query in
  let query :=
    filter_if endDate truthy_date
      (fun d l => datetime.leb (OperationLog.created_at l) (datetime.of_date d)) query in
  let query :=
    filter_if userId truthy_int (fun u l => OperationLog.user_id l =? u) query in
  let query :=
    filter_if action truthy_str (fun a l => String.eqb (OperationLog.action l) a) query in
  order_by_created_at_desc query.

Record Page := mkPage {
  logs : list OperationLog.t;
  total : Z;
  total_pages : Z;
  has_next : bool;
  has_prev : bool }.

(** Counting, slicing and the pagination arithmetic. *)
Definition paginate (page limit : Z) (query : list OperationLog.t) : Page :=
  let total := Z.of_nat (List.length query) in
  let offset := (page - 1) * limit in
  let logs := firstn (Z.to_nat limit) (skipn (Z.to_nat offset) query) in
  let total_pages := (total + limit - 1) / limit in
  mkPage logs total total_pages (page <? total_pages) (1 <? page).

Definition format_log (log : OperationLog.t) : M json :=
  user <- gets (fun db => find (fun u => User.id u =? OperationLog.user_id log) (users db)) ;;
  match user with
  | None => raise (AttributeError "'NoneType' object has no attribute 'username'")
  | Some u =>
      ret (JDict
        [ ("id", JInt (OperationLog.id log));
          ("userId", JInt (OperationLog.user_id log));
          ("username", JStr (User.username u));
          ("action", JStr (OperationLog.action log));
          ("tableName", JStr (OperationLog.table_name log));
          ("recordId", json_of_option JInt (OperationLog.record_id log));
          ("oldData", json_of_option (fun j => j) (OperationLog.old_data log));
          ("newData", json_of_option (fun j => j) (OperationLog.new_data log));
          ("description", json_of_option JStr (OperationLog.description log));
          ("ipAddress", json_of_option JStr (OperationLog.ip_address log));
          ("createdAt", JDateTime (OperationLog.created_at log)) ])
  end.

Fixpoint format_logs (logs : list OperationLog.t) : M (list json) :=
  match logs with
  | [] => ret []
  | log :: logs' =>
      j <- format_log log ;;
      js <- format_logs logs' ;;
      ret (j :: js)
  end.

Definition get_operation_logs (current_admin : User.t) (page limit : Z)
    (startDate endDate : option date.t) (userId : option Z) (action : option string)
  : M json :=
  try_except
    (query <- gets (build_query startDate endDate userId action) ;;
     let p := paginate page limit query in
     formatted_logs <- format_logs (logs p) ;;
     ret (JDict
       [ ("success", JBool true);
         ("data", JDict
            [ ("logs", JList formatted_logs);
              ("pagination", JDict
                 [ ("currentPage", JInt page);
                   ("totalPages", JInt (total_pages p));
                   ("totalCount", JInt (total p));
                   ("hasNext", JBool (has_next p));
                   ("hasPrev", JBool (has_prev p)) ]) ]) ]))
    (fun e =>
       match e with
       | IntegrityError _ | OperationalError _ =>
           raise (HTTPException HTTP_500_INTERNAL_SERVER_ERROR
                    ("Database error: " ++ str_exn e)%string)
       | _ =>
           raise (HTTPException HTTP_500_INTERNAL_SERVER_ERROR
                    ("Failed to retrieve operation logs: " ++ str_exn e)%string)
       end).

End routers_logs.

(* ------------------------------------------------------------------ *)
(** ** main.py: the routes with their dependencies, and the status codes *)

Module main.
Import schemas.

(** The status line of a response: [200] for a returned body, the status
    of an [HTTPException] ([http_exception_handler]), [500] for any other
    exception ([general_exception_handler]).  [main.py] installs no handler
    for request validation errors, which leaves the framework's own, and
    that one answers [422].  Behind [get_db] below, what a route raises is a
    plain exception. *)
Definition status_code {A} (r : result A) : Z :=
  match r with
  | Ok _ => 200
  | Raise (HTTPException status _) => status
  | Raise (RequestValidationError _) => 422
  | Raise _ => 500
  end.

(** [get_db] of database.py, the dependency every route has: the session is
    opened, and whatever the rest of the request raises while it is open
    (another dependency, the validation of the body or of the query, the
    handler) arrives at its [yield], where the [except] clauses roll back and
    raise a plain [Exception] in its place.  The connection is taken to
    work. *)
Definition get_db {A} (request : M A) : M A :=
  try_except request
    (fun e =>
       if is_SQLAlchemyError e then
         rollback ;;;
         raise (Exception ("Database session error: " ++ str_exn e)%string)
       else
         rollback ;;;
         raise (Exception ("Unexpected database session error: " ++ str_exn e)%string)).

(** [POST /api/auth/register]. *)
Definition post_auth_register (env : Env) (raw : UserRegister.t) : M json :=
  get_db
    (user_data <- lift (UserRegister.validate raw) ;;
     routers_auth.register env user_data).

(** [POST /api/data]. *)
Definition post_data (env : Env) (credentials : string) (raw : EcoRecordCreate.t)
    (request : Request) : M json :=
  get_db
    (current_user <- auth.get_current_user env credentials ;;
     record_data <- lift (EcoRecordCreate.validate raw) ;;
     routers_data.create_data env record_data request current_user).

(** [PUT /api/data/{record_id}]. *)
Definition put_data (env : Env) (credentials : string) (record_id : Z)
    (raw : EcoRecordUpdate.t) (request : Request) : M json :=
  get_db
    (current_user <- auth.get_current_user env credentials ;;
     record_data <- lift (EcoRecordUpdate.validate raw) ;;
     routers_data.update_data env record_id record_data request current_user).

(** [DELETE /api/data/{record_id}]. *)
Definition delete_data_record (env : Env) (credentials : string) (record_id : Z)
    (request : Request) : M json :=
  get_db
    (current_user <- auth.get_current_user env credentials ;;
     routers_data.delete_data env record_id request current_user).

(** [DELETE /api/data]; [raw_confirm] is the [confirm] member of the body,
    if it has one. *)
Definition delete_data (env : Env) (credentials : string) (raw_confirm : option bool)
    (request : Request) : M json :=
  get_db
    (current_user <- auth.get_current_user env credentials ;;
     clear_request <- lift (ClearDataRequest.validate raw_confirm) ;;
     routers_data.clear_all_data env clear_request request current_user).

(** [POST /api/data/import]. *)
Definition post_data_import (env : Env) (credentials : string) (raw : EcoRecordImport.t)
    (request : Request) : M json :=
  get_db
    (current_user <- auth.get_current_user env credentials ;;
     import_data <- lift (EcoRecordImport.validate raw) ;;
     routers_data.import_data env import_data request current_user).

(** The [Query(...)] constraints of [GET /api/logs]. *)
Definition validate_logs_query (page limit : Z) (action : option string) : result unit :=
  let errs :=
    (if page <? 1 then [("page", "Input should be greater than or equal to 1")] else [])
    ++ (if limit <? 1 then [("limit", "Input should be greater than or equal to 1")] else [])
    ++ (if 100 <? limit then [("limit", "Input should be less than or equal to 100")] else [])
    ++ match action with
       | Some a =>
           if String.eqb a "CREATE" || String.eqb a "UPDATE" || String.eqb a "DELETE"
           then [] else [("action", "String should match pattern")]
       | None => []
       end in
  match errs with
  | [] => Ok tt
  | _ => Raise (RequestValidationError errs)
  end.

(** [GET /api/logs]. *)
Definition get_logs (env : Env) (credentials : string) (page limit : Z)
    (startDate endDate : option date.t) (userId : option Z) (action : option string)
  : M json :=
  get_db
    (current_user <- auth.get_current_user env credentials ;;
     current_admin <- lift (auth.get_current_admin_user current_user) ;;
     lift (validate_logs_query page limit action) ;;;
     routers_logs.get_operation_logs current_admin page limit startDate endDate userId action).

(** [POST /api/auth/login]. *)
Definition post_auth_login (settings : config.Settings)
    (jwt_encode : list (string * json) -> auth.Expiry -> string) (env : Env)
    (raw : UserLogin.t) (request : Request) : M json :=
  get_db
    (user_data <- lift (UserLogin.validate raw) ;;
     routers_auth.login settings jwt_encode env user_data request).

(** [POST /api/auth/logout]. *)
Definition post_auth_logout (env : Env) (credentials : string) : M json :=
  get_db
    (current_user <- auth.get_current_user env credentials ;;
     routers_auth.logout current_user).

End main.

(* ------------------------------------------------------------------ *)
(** ** What a client reads in a body, and the states the tables may be in *)

(** A structured validation failure: [success] is false, [error] is
    ["Validation failed"], and [details] names the field and the code. *)
Definition is_validation_failure (field code : string) (body : json) : Prop :=
  json_get "success" body = Some (JBool false)
  /\ json_get "error" body = Some (JStr "Validation failed")
  /\ exists details,
       json_get "details" body = Some details
       /\ json_get "field" details = Some (JStr field)
       /\ json_get "code" details = Some (JStr code).

(** [body["data"][key]]. *)
Definition data_member (key : string) (body : json) : option json :=
  match json_get "data" body with
  | Some data => json_get key data
  | None => None
  end.


(** A create request without a negative measure. *)
Definition valid_create (rd : schemas.EcoRecordCreate.t) : Prop :=
  0 <= schemas.EcoRecordCreate.powerConsumption rd
  /\ 0 <= schemas.EcoRecordCreate.drinkingWater rd
  /\ 0 <= schemas.EcoRecordCreate.irrigationWater rd
  /\ 0 <= schemas.EcoRecordCreate.electricityPrice rd.

(** An update request whose provided measures are not negative. *)
Definition valid_field (v : option Decimal) : Prop :=
  match v with Some x => 0 <= x | None => True end.

Definition valid_update (rd : schemas.EcoRecordUpdate.t) : Prop :=
  valid_field (schemas.EcoRecordUpdate.powerConsumption rd)
  /\ valid_field (schemas.EcoRecordUpdate.drinkingWater rd)
  /\ valid_field (schemas.EcoRecordUpdate.irrigationWater rd)
  /\ valid_field (schemas.EcoRecordUpdate.electricityPrice rd).

(** The four counters of an import add up to [n]. *)
Definition accounted (st : routers_data.ImportState) : Z :=
  routers_data.imported st + routers_data.updated st + routers_data.skipped st
  + Z.of_nat (List.length (routers_data.errors st)).

(** Newest first: no entry is followed by a newer one. *)
Definition newest_first (a b : OperationLog.t) : Prop :=
  datetime.leb (OperationLog.created_at b) (OperationLog.created_at a) = true.

(** A run answered with a structured validation failure: a returned body
    (status 200) with success false and a field/code pair. *)
Definition returned_as_validation_failure (r : result json * Db) : Prop :=
  exists body field code,
    fst r = Ok body
    /\ is_validation_failure field code body
    /\ main.status_code (fst r) = 200.

(** A registration breaking one of the four rules of [UserRegister]. *)
Definition breaks_a_registration_rule (raw : schemas.UserRegister.t) : Prop :=
  startswith (schemas.UserRegister.username raw) "@" = false
  \/ len (schemas.UserRegister.username raw) < 3
  \/ len (schemas.UserRegister.password raw) < 6
  \/ schemas.UserRegister.confirmPassword raw <> schemas.UserRegister.password raw.






(** A hardware double read as a mantissa and an exponent, to compare the
    arithmetic of [binary64] with the processor's. *)
Definition of_hardware (f : PrimFloat.float) : option binary64.t :=
  match FloatOps.Prim2SF f with
  | SpecFloat.S754_zero _ => Some binary64.zero
  | SpecFloat.S754_finite false m e => Some (binary64.mk (Zpos m) e)
  | SpecFloat.S754_finite true m e => Some (binary64.mk (Zneg m) e)
  | _ => None
  end.

(** The hardware double of a small integer (exact below [2^53]). *)
Definition hardware_of_Z (n : Z) : PrimFloat.float := PrimFloat.of_uint63 (Uint63.of_Z n).

(** What a record route may do to the users and to the audit log on behalf
    of [u]: nothing to the users; to the log, nothing, or one entry at its
    end, keyed by the counter, naming [u] and [eco_records], and then only
    together with a success body. *)
Definition audit_discipline (u : User.t) (db : Db) (run : result json * Db) : Prop :=
  users (snd run) = users db
  /\ users_seq (snd run) = users_seq db
  /\ (operation_logs (snd run) = operation_logs db
      \/ exists entry body,
           operation_logs (snd run) = operation_logs db ++ [entry]
           /\ OperationLog.id entry = operation_logs_seq db
           /\ OperationLog.user_id entry = User.id u
           /\ OperationLog.table_name entry = "eco_records"
           /\ fst run = Ok body
           /\ json_get "success" body = Some (JBool true)).

(** The primary key of [eco_records]: no id twice, every id handed out by
    the counter already. *)
Definition primary_keys (db : Db) : Prop :=
  NoDup (map EcoRecord.id (eco_records db))
  /\ Forall (fun i => i < eco_records_seq db) (map EcoRecord.id (eco_records db)).

(** The text holds a comma. *)
Fixpoint has_comma (s : string) : bool :=
  match s with
  | String c s' => Ascii.eqb c "," || has_comma s'
  | EmptyString => false
  end.

(** A column that an overwrite does not assign. *)
Definition kept_by_overwrite {B} (key : EcoRecord.t -> B) : Prop :=
  forall power drinking irrigation price by_user at_time r,
    key (EcoRecord.set_updated_at at_time
           (EcoRecord.set_updated_by by_user
              (EcoRecord.set_electricity_price price
                 (EcoRecord.set_irrigation_water irrigation
                    (EcoRecord.set_drinking_water drinking
                       (EcoRecord.set_power_consumption power r))))))
    = key r.

(** The alternatives of the pattern the route puts on [sortBy]. *)
Definition admitted_sort_keys : list string :=
  [ "date"; "powerConsumption"; "drinkingWater"; "irrigationWater"; "electricityPrice" ].

(** The column an admitted key stands for. *)
Definition column_of_key (sortBy : string) : routers_data.column :=
  if String.eqb sortBy "powerConsumption" then routers_data.Column_power_consumption
  else if String.eqb sortBy "drinkingWater" then routers_data.Column_drinking_water
  else if String.eqb sortBy "irrigationWater" then routers_data.Column_irrigation_water
  else if String.eqb sortBy "electricityPrice" then routers_data.Column_electricity_price
  else routers_data.Column_date.

(** Every row is in order with every later one. *)
Definition sorted_by (leb : EcoRecord.t -> EcoRecord.t -> bool) (rows : list EcoRecord.t)
  : Prop :=
  StronglySorted (fun a b => leb a b = true) rows.

(** The day of a row lies within the bounds that were given. *)
Definition in_range (startDate endDate : option date.t) (r : EcoRecord.t) : Prop :=
  (forall d, startDate = Some d -> date.leb d (EcoRecord.date r) = true)
  /\ (forall d, endDate = Some d -> date.leb (EcoRecord.date r) d = true).

(** The same settings with other secrets: the password of the database,
    the connection URL that embeds it, and the key of the tokens. *)
Definition with_secrets (password url secret : string) (s : config.Settings)
  : config.Settings :=
  config.mkSettings (config.ENVIRONMENT s) (config.DEBUG s) (config.LOG_LEVEL s) url
    (config.MYSQL_HOST s) (config.MYSQL_PORT s) (config.MYSQL_USER s) password
    (config.MYSQL_DATABASE s) secret (config.JWT_ALGORITHM s) (config.JWT_EXPIRE_HOURS s)
    (config.FRONTEND_URL s) (config.PORT s) (config.RAILWAY_ENVIRONMENT s)
    (config.RAILWAY_PROJECT_ID s) (config.RAILWAY_SERVICE_ID s).

(** What [login] leaves alone in a row of [users]. *)
Definition account (u : User.t) : Z * string * string * string * datetime.t :=
  (User.id u, User.username u, User.password u, User.role u, User.created_at u).

(** A row for the date exists. *)
Definition has_date (d : date.t) (rows : list EcoRecord.t) : bool :=
  existsb (fun r => date.eqb (EcoRecord.date r) d) rows.

(** The four measures of a row are not negative. *)
Definition non_negative (r : EcoRecord.t) : Prop :=
  0 <= EcoRecord.power_consumption r /\ 0 <= EcoRecord.drinking_water r
  /\ 0 <= EcoRecord.irrigation_water r /\ 0 <= EcoRecord.electricity_price r.

(** The invariant of [eco_records]: one row per date at most, no negative measure. *)
Definition eco_records_invariant (db : Db) : Prop :=
  unique_dates (eco_records db) = true /\ Forall non_negative (eco_records db).

(** The same environment with another fate for the audit write. *)
Definition with_log_fault (fault : option exn) (env : Env) : Env :=
  mkEnv (jwt_decode env) (utcnow env) (func_now env) (commit_fault env) fault (query_fault env).

(** What a client and the business tables see of a run: the body returned or
    the exception raised, the records and the users. *)
Definition same_business {A} (r1 r2 : result A * Db) : Prop :=
  fst r1 = fst r2
  /\ eco_records (snd r1) = eco_records (snd r2)
  /\ users (snd r1) = users (snd r2).

(* ------------------------------------------------------------------ *)
(** ** Sample data for concrete runs *)

Module sample.
Definition jan (d : Z) : date.t := date.mk 2024 1 d.
Definition noon (d : Z) : datetime.t := datetime.mk (jan d) 43200000000.

Definition alice : User.t := User.mk 1 "@alice" "secret1" "user" (noon 1) (noon 1) None.
Definition root : User.t := User.mk 2 "@root" "secret2" "admin" (noon 1) (noon 1) None.

Definition decode (token : string) : string + Payload :=
  if String.eqb token "alice-token"
  then inr (mkPayload (Some 1) (Some "@alice") (Some "user"))
  else if String.eqb token "root-token"
  then inr (mkPayload (Some 2) (Some "@root") (Some "admin"))
  else inl "Signature verification failed".

(** Nothing fails. *)
Definition env : Env := mkEnv decode (noon 5) (noon 5) None None (fun _ => None).
(** The handler's commit runs into a concurrent insert of the same key. *)
Definition env_race : Env :=
  mkEnv decode (noon 5) (noon 5) (Some (IntegrityError "Duplicate entry")) None (fun _ => None).
(** The audit write fails. *)
Definition env_log_down : Env :=
  mkEnv decode (noon 5) (noon 5) None (Some (OperationalError "Lost connection"))
    (fun _ => None).

Definition request : Request := mkRequest None (Some "10.0.0.7").

Definition row1 : EcoRecord.t :=
  EcoRecord.mk 1 (jan 1) 10000 3000 2000 2500 1 None (noon 1) (noon 1).
Definition row2 : EcoRecord.t :=
  EcoRecord.mk 2 (jan 2) 12000 0 0 2500 1 None (noon 2) (noon 2).


Definition log1 : OperationLog.t :=
  OperationLog.mk 1 1 "CREATE" "eco_records" (Some 1) None None None None (noon 1).
Definition log2 : OperationLog.t :=
  OperationLog.mk 2 2 "DELETE" "eco_records" None None None None None (noon 2).

Definition empty : Db := mkDb [alice; root] [] [] 3 1 1.
Definition db : Db := mkDb [alice; root] [row1; row2] [log1; log2] 3 3 3.

Definition create_jan1 : schemas.EcoRecordCreate.t :=
  schemas.EcoRecordCreate.mk (jan 1) 500 100 100 2500.
Definition create_jan3 : schemas.EcoRecordCreate.t :=
  schemas.EcoRecordCreate.mk (jan 3) 500 100 100 2500.
Definition create_jan3_again : schemas.EcoRecordCreate.t :=
  schemas.EcoRecordCreate.mk (jan 3) 700 200 0 2500.

(** Two readings for one day that has no record yet. *)
Definition batch_same_day : schemas.EcoRecordImport.t :=
  schemas.EcoRecordImport.mk [create_jan3; create_jan3_again] false.

Definition bob_without_sigil : schemas.UserRegister.t :=
  schemas.UserRegister.mk "bob" "secret1" "secret1".
Definition create_jan4 : schemas.EcoRecordCreate.t :=
  schemas.EcoRecordCreate.mk (jan 4) 900 300 50 2600.

(** Readings for two days that have no record yet. *)
Definition batch_fresh : schemas.EcoRecordImport.t :=
  schemas.EcoRecordImport.mk [create_jan3; create_jan4] false.

(** A reading for a day that has a record and one for a day that has none,
    to be written over what is there. *)
Definition batch_overwrite : schemas.EcoRecordImport.t :=
  schemas.EcoRecordImport.mk [create_jan1; create_jan3] true.

(** An entry stamped at midnight sharp, at the start of January 2nd. *)
Definition log_midnight : OperationLog.t :=
  OperationLog.mk 3 1 "UPDATE" "eco_records" (Some 1) None None None None
    (datetime.mk (jan 2) 0).
Definition db_midnight : Db :=
  mkDb [alice; root] [row1; row2] [log1; log2; log_midnight] 3 3 4.

Definition settings : config.Settings :=
  config.init
    (config.mkClassAttributes "development" false "INFO" "not-the-default-key" "HS256" 24
       "http://localhost:5173" 3000 "" "" "")
    (config.mkParseResult (Some "db.example.org") (Some 3306) (Some "eco") (Some "pw")
       "/ecometrics").

(** A stand-in for [jwt.encode]: the token spells out the subject. *)
Definition encode (claims : list (string * json)) (expire : auth.Expiry) : string :=
  match json_get "username" (JDict claims) with
  | Some (JStr name) => ("token-of-" ++ name)%string
  | _ => "token"
  end.

Definition carol : schemas.UserRegister.t :=
  schemas.UserRegister.mk "@carol" "secret3" "secret3".

(** A forged token: alice's id with the role of an admin. *)
Definition decode_forged (token : string) : string + Payload :=
  if String.eqb token "alice-token"
  then inr (mkPayload (Some 1) (Some "@root") (Some "admin"))
  else decode token.
Definition env_forged : Env := mkEnv decode_forged (noon 5) (noon 5) None None (fun _ => None).

End sample.

(* ------------------------------------------------------------------ *)
(** * Properties *)

Ltac unfold_monad :=
  cbv beta iota delta [try_except bind ret raise gets modify lift rollback query_first] in *.

Ltac simpl_env :=
  cbn [commit_fault log_fault func_now utcnow jwt_decode query_fault with_log_fault] in *.

Ltac simpl_db :=
  cbn [fst snd users eco_records operation_logs users_seq eco_records_seq operation_logs_seq
       set_eco_records add_operation_log add_user routers_data.lookup_user] in *.

Ltac business := unfold same_business; simpl_db; repeat split.

(** Case analysis on the unique index check of the commit in the goal. *)
Ltac commit_check H :=
  match goal with
  | |- context [if unique_dates ?rows then _ else _] => destruct (unique_dates rows) eqn:H
  end.

Lemma find_existsb {A} (p : A -> bool) (l : list A) :
  existsb p l = true -> exists x, find p l = Some x /\ In x l /\ p x = true.
Proof.
  induction l as [| a l IH]; simpl; [discriminate |].
  destruct (p a) eqn:Hp; simpl.
  - intros _. exists a. auto.
  - intros H. destruct (IH H) as (x & Hx & Hin & Hpx). exists x. auto.
Qed.

Lemma find_not_existsb {A} (p : A -> bool) (l : list A) :
  existsb p l = false -> find p l = None.
Proof.
  induction l as [| a l IH]; simpl; [reflexivity |].
  destruct (p a); simpl; [discriminate | exact IH].
Qed.

(** ** The session around a request *)

(** What a request returns, [get_db] lets through. *)
Lemma get_db_returns {A} (request : M A) db a db' :
  request db = (Ok a, db') -> main.get_db request db = (Ok a, db').
Proof. intros H. unfold main.get_db. unfold_monad. rewrite H. reflexivity. Qed.

Lemma get_db_returned {A} (request : M A) db a db' :
  main.get_db request db = (Ok a, db') -> request db = (Ok a, db').
Proof.
  unfold main.get_db. unfold_monad.
  destruct (request db) as [[a0 | e] db0]; [trivial |].
  destruct (is_SQLAlchemyError e); discriminate.
Qed.

(** What a request raises, [get_db] replaces by a plain exception, which
    the general handler of main.py answers with status 500. *)
Lemma get_db_raises {A} (request : M A) db e db' :
  request db = (Raise e, db') ->
  exists msg,
    main.get_db request db = (Raise (Exception msg), db')
    /\ main.status_code (fst (main.get_db request db)) = 500.
Proof.
  intros H. unfold main.get_db. unfold_monad. rewrite H.
  destruct (is_SQLAlchemyError e); eexists; split; reflexivity.
Qed.

(** The state after a request is the state the work inside the session
    left. *)
Lemma get_db_state {A} (request : M A) db :
  snd (main.get_db request db) = snd (request db).
Proof.
  unfold main.get_db. unfold_monad.
  destruct (request db) as [[a | e] db']; [reflexivity |].
  destruct (is_SQLAlchemyError e); reflexivity.
Qed.

(** The work of a route inside the session, in the goal. *)
Ltac inside_get_db k :=
  match goal with
  | |- context [main.get_db ?request ?db] => k request db
  end.

(** ** Duplicate dates on create *)

(** C1. A create request for a date that already has a record returns the
    structured validation failure (success false, error "Validation failed",
    field "date", code "DUPLICATE_DATE") and leaves the tables alone; a
    request whose existence check finds nothing but whose commit raises the
    integrity error returns the very same body. *)
Theorem create_data_duplicate_date_same_body :
  forall env1 rd1 rq1 u1 db1 env2 rd2 rq2 u2 db2 msg,
    has_date (schemas.EcoRecordCreate.date rd1) (eco_records db1) = true ->
    has_date (schemas.EcoRecordCreate.date rd2) (eco_records db2) = false ->
    commit_fault env2 = Some (IntegrityError msg) ->
    exists body,
      routers_data.create_data env1 rd1 rq1 u1 db1 = (Ok body, db1)
      /\ routers_data.create_data env2 rd2 rq2 u2 db2 = (Ok body, db2)
      /\ is_validation_failure "date" "DUPLICATE_DATE" body.
Proof.
  intros env1 rd1 rq1 u1 db1 env2 rd2 rq2 u2 db2 msg H1 H2 Hfault.
  destruct (find_existsb _ _ H1) as (r & Hfind & _).
  apply find_not_existsb in H2.
  eexists. split; [| split].
  - unfold routers_data.create_data. unfold_monad. rewrite Hfind. reflexivity.
  - unfold routers_data.create_data, commit. unfold_monad.
    rewrite H2, Hfault. reflexivity.
  - repeat split. eexists. repeat split.
Qed.

Lemma create_data_duplicate_date_same_body_witness :
  exists body,
    routers_data.create_data sample.env sample.create_jan1 sample.request sample.alice sample.db
      = (Ok body, sample.db)
    /\ routers_data.create_data sample.env_race sample.create_jan3 sample.request sample.alice
         sample.db = (Ok body, sample.db)
    /\ is_validation_failure "date" "DUPLICATE_DATE" body.
Proof.
  apply (create_data_duplicate_date_same_body sample.env sample.create_jan1 sample.request
           sample.alice sample.db sample.env_race sample.create_jan3 sample.request
           sample.alice sample.db "Duplicate entry"); reflexivity.
Defined.

(** ** The audit write cannot fail the business operation *)

Lemma log_operation_run env user_id action table_name record_id old_data new_data
    description ip db :
  auth.log_operation env user_id action table_name record_id old_data new_data description ip db
  = (Ok tt,
     match log_fault env with
     | Some _ => db
     | None =>
         add_operation_log
           (OperationLog.mk (operation_logs_seq db) user_id action table_name record_id
              old_data new_data description ip (func_now env)) db
     end).
Proof.
  unfold auth.log_operation, auth.log_operation_write. unfold_monad.
  destruct (log_fault env) as [e |]; [destruct (is_SQLAlchemyError e) |]; reflexivity.
Qed.

Lemma log_operation_business env user_id action table_name record_id old_data new_data
    description ip db :
  exists db',
    auth.log_operation env user_id action table_name record_id old_data new_data description ip db
    = (Ok tt, db')
    /\ eco_records db' = eco_records db /\ users db' = users db
    /\ eco_records_seq db' = eco_records_seq db.
Proof.
  rewrite log_operation_run. eexists. split; [reflexivity |].
  destruct (log_fault env); auto.
Qed.


Lemma date_eqb_eq a b : date.eqb a b = true <-> a = b.
Proof.
  unfold date.eqb. destruct a as [y m d], b as [y' m' d']; simpl.
  rewrite !andb_true_iff, !Z.eqb_eq. split.
  - intros [[-> ->] ->]. reflexivity.
  - intros H. injection H as -> -> ->. auto.
Qed.

Lemma date_eqb_refl a : date.eqb a a = true.
Proof. apply date_eqb_eq. reflexivity. Qed.

Lemma date_eqb_sym a b : date.eqb a b = date.eqb b a.
Proof.
  destruct (date.eqb a b) eqn:E.
  - apply date_eqb_eq in E. subst. symmetry. apply date_eqb_refl.
  - destruct (date.eqb b a) eqn:E'; [| reflexivity].
    apply date_eqb_eq in E'. subst. rewrite date_eqb_refl in E. discriminate.
Qed.

Lemma has_date_app d rows rows' :
  has_date d (rows ++ rows') = has_date d rows || has_date d rows'.
Proof. unfold has_date. apply existsb_app. Qed.

(** Appending a row for a date the table does not have keeps the dates unique. *)
Lemma unique_dates_snoc rows r :
  unique_dates rows = true ->
  has_date (EcoRecord.date r) rows = false ->
  unique_dates (rows ++ [r]) = true.
Proof.
  induction rows as [| x rows IH]; simpl; [reflexivity |].
  rewrite !andb_true_iff, !negb_true_iff, orb_false_iff.
  intros [Hx Hu] [Hxr Hr]. split; [| auto].
  rewrite existsb_app, Hx. simpl. rewrite orb_false_r.
  rewrite date_eqb_sym. exact Hxr.
Qed.

Lemma create_data_same_business env f1 f2 rd rq u db :
  same_business (routers_data.create_data (with_log_fault f1 env) rd rq u db)
                (routers_data.create_data (with_log_fault f2 env) rd rq u db).
Proof.
  unfold routers_data.create_data, commit, routers_data.format_record_response. unfold_monad.
  simpl_env.
  destruct (find _ (eco_records db)) as [r |]; [business |].
  destruct (commit_fault env) as [e |]; [destruct e; business |].
  cbn [routers_data.flush_new]. simpl_env.
  destruct (unique_dates _); [| business].
  destruct (routers_data.get_client_ip rq) as [ip | e].
  - rewrite !log_operation_run. simpl_env. destruct f1, f2; business.
  - business.
Qed.

Lemma update_data_same_business env f1 f2 rid rd rq u db :
  same_business (routers_data.update_data (with_log_fault f1 env) rid rd rq u db)
                (routers_data.update_data (with_log_fault f2 env) rid rd rq u db).
Proof.
  unfold routers_data.update_data, commit, routers_data.format_record_response. unfold_monad.
  simpl_env.
  destruct (find _ (eco_records db)) as [r |]; [| business].
  destruct (commit_fault env) as [e |]; [destruct e; business |].
  destruct (unique_dates _); [| business].
  destruct (routers_data.get_client_ip rq) as [ip | e].
  - rewrite !log_operation_run. simpl_env. destruct f1, f2; business.
  - destruct e; business.
Qed.

Lemma delete_data_same_business env f1 f2 rid rq u db :
  same_business (routers_data.delete_data (with_log_fault f1 env) rid rq u db)
                (routers_data.delete_data (with_log_fault f2 env) rid rq u db).
Proof.
  unfold routers_data.delete_data, commit. unfold_monad. simpl_env.
  destruct (find _ (eco_records db)) as [r |]; [| business].
  destruct (commit_fault env) as [e |]; [destruct e; business |].
  destruct (unique_dates _); [| business].
  destruct (routers_data.get_client_ip rq) as [ip | e].
  - rewrite !log_operation_run. simpl_env. destruct f1, f2; business.
  - destruct e; business.
Qed.

Lemma clear_all_data_same_business env f1 f2 cr rq u db :
  same_business (routers_data.clear_all_data (with_log_fault f1 env) cr rq u db)
                (routers_data.clear_all_data (with_log_fault f2 env) cr rq u db).
Proof.
  unfold routers_data.clear_all_data, commit. unfold_monad. simpl_env.
  destruct (commit_fault env) as [e |]; [business |].
  cbn [unique_dates].
  destruct (routers_data.get_client_ip rq) as [ip | e].
  - rewrite !log_operation_run. simpl_env. destruct f1, f2; business.
  - business.
Qed.

Lemma import_loop_log_fault env f overwrite u st n records :
  routers_data.import_loop (with_log_fault f env) overwrite u st n records
  = routers_data.import_loop env overwrite u st n records.
Proof.
  revert st n. induction records as [| r records IH]; intros st n; simpl; [reflexivity |].
  rewrite IH. reflexivity.
Qed.

Lemma flush_new_log_fault env f seq pending :
  routers_data.flush_new (with_log_fault f env) seq pending
  = routers_data.flush_new env seq pending.
Proof.
  revert seq. induction pending as [| r pending IH]; intros seq; simpl; [reflexivity |].
  rewrite IH. reflexivity.
Qed.

Lemma import_data_same_business env f1 f2 imp rq u db :
  same_business (routers_data.import_data (with_log_fault f1 env) imp rq u db)
                (routers_data.import_data (with_log_fault f2 env) imp rq u db).
Proof.
  unfold routers_data.import_data, commit. unfold_monad.
  rewrite !import_loop_log_fault, !flush_new_log_fault. simpl_env.
  destruct (commit_fault env) as [e |]; [business |].
  destruct (unique_dates _); [| business].
  destruct (routers_data.get_client_ip rq) as [ip | e].
  - rewrite !log_operation_run. simpl_env. destruct f1, f2; business.
  - business.
Qed.

(** C7. Whatever happens to the audit write, [log_operation] returns
    normally and touches neither the records nor the users; create, update,
    delete, clear-all and import return the same body (or raise the same
    error) and leave the same records whether the audit write succeeds or
    fails; and a creation whose commit went through answers success true
    even though its audit write failed, with no audit entry written. *)
Theorem audit_failure_never_reaches_the_caller :
  forall env f1 f2,
    (forall user_id action table_name record_id old_data new_data description ip db,
        exists db',
          auth.log_operation (with_log_fault f1 env) user_id action table_name record_id
            old_data new_data description ip db = (Ok tt, db')
          /\ eco_records db' = eco_records db /\ users db' = users db)
    /\ (forall rd rq u db,
           same_business (routers_data.create_data (with_log_fault f1 env) rd rq u db)
                         (routers_data.create_data (with_log_fault f2 env) rd rq u db))
    /\ (forall rid rd rq u db,
           same_business (routers_data.update_data (with_log_fault f1 env) rid rd rq u db)
                         (routers_data.update_data (with_log_fault f2 env) rid rd rq u db))
    /\ (forall rid rq u db,
           same_business (routers_data.delete_data (with_log_fault f1 env) rid rq u db)
                         (routers_data.delete_data (with_log_fault f2 env) rid rq u db))
    /\ (forall cr rq u db,
           same_business (routers_data.clear_all_data (with_log_fault f1 env) cr rq u db)
                         (routers_data.clear_all_data (with_log_fault f2 env) cr rq u db))
    /\ (forall imp rq u db,
           same_business (routers_data.import_data (with_log_fault f1 env) imp rq u db)
                         (routers_data.import_data (with_log_fault f2 env) imp rq u db))
    /\ (forall rd rq u db e,
           has_date (schemas.EcoRecordCreate.date rd) (eco_records db) = false ->
           unique_dates (eco_records db) = true ->
           commit_fault env = None ->
           exists body db',
             routers_data.create_data (with_log_fault (Some e) env) rd rq u db = (Ok body, db')
             /\ json_get "success" body = Some (JBool true)
             /\ has_date (schemas.EcoRecordCreate.date rd) (eco_records db') = true
             /\ operation_logs db' = operation_logs db).
Proof.
  intros env f1 f2. repeat apply conj.
  - intros. destruct (log_operation_business (with_log_fault f1 env) user_id action table_name
                        record_id old_data new_data description ip db) as (db' & H & Hr & Hu & _).
    exists db'. auto.
  - intros. apply create_data_same_business.
  - intros. apply update_data_same_business.
  - intros. apply delete_data_same_business.
  - intros. apply clear_all_data_same_business.
  - intros. apply import_data_same_business.
  - intros rd rq u db e Hfresh Huniq Hcommit.
    unfold routers_data.create_data, commit, routers_data.format_record_response. unfold_monad.
    simpl_env. rewrite (find_not_existsb _ _ Hfresh), Hcommit.
    cbn [routers_data.flush_new]. simpl_env.
    rewrite unique_dates_snoc by assumption.
    destruct (routers_data.get_client_ip rq) as [ip | e'].
    + rewrite log_operation_run. simpl_env.
      do 2 eexists. split; [reflexivity |]. simpl_db.
      rewrite has_date_app. simpl. rewrite date_eqb_refl, orb_true_r. auto.
    + do 2 eexists. split; [reflexivity |]. simpl_db.
      rewrite has_date_app. simpl. rewrite date_eqb_refl, orb_true_r. auto.
Qed.

Lemma audit_failure_never_reaches_the_caller_witness :
  exists body db',
    routers_data.create_data sample.env_log_down sample.create_jan3 sample.request sample.alice
      sample.db = (Ok body, db')
    /\ json_get "success" body = Some (JBool true)
    /\ has_date (sample.jan 3) (eco_records db') = true
    /\ operation_logs db' = operation_logs sample.db.
Proof.
  apply (proj2 (proj2 (proj2 (proj2 (proj2 (proj2
           (audit_failure_never_reaches_the_caller sample.env None None))))))
           sample.create_jan3 sample.request sample.alice sample.db
           (OperationalError "Lost connection")); reflexivity.
Defined.

(** ** Authentication and the clear-all route *)

Lemma get_current_user_state env credentials db :
  snd (auth.get_current_user env credentials db) = db.
Proof.
  unfold auth.get_current_user, auth.verify_token. unfold_monad.
  destruct (jwt_decode env credentials) as [e | payload].
  - reflexivity.
  - destruct (payload_user_id payload), (payload_username payload), (payload_role payload);
      try reflexivity.
    destruct (find _ (users db)); reflexivity.
Qed.

Lemma get_current_user_cases env credentials db :
  (exists u, auth.get_current_user env credentials db = (Ok u, db))
  \/ (exists e, auth.get_current_user env credentials db = (Raise e, db)).
Proof.
  pose proof (get_current_user_state env credentials db) as H.
  destruct (auth.get_current_user env credentials db) as [[u | e] db']; simpl in H; subst;
    [left | right]; eexists; reflexivity.
Qed.

Lemma get_current_user_raises env credentials db e db' :
  auth.get_current_user env credentials db = (Raise e, db') ->
  exists status detail, e = HTTPException status detail /\ (status = 401 \/ status = 500).
Proof.
  unfold auth.get_current_user, auth.verify_token. unfold_monad.
  destruct (jwt_decode env credentials) as [e' | payload]; simpl.
  - intros H; inversion H; subst. do 2 eexists; split; try reflexivity; auto.
  - destruct (payload_user_id payload), (payload_username payload), (payload_role payload);
      simpl;
      try (intros H0; inversion H0; subst; do 2 eexists; split; try reflexivity; auto; fail).
    destruct (find _ (users db)); simpl; intros H0; inversion H0; subst.
    do 2 eexists; split; try reflexivity; auto.
Qed.

(** C6. Clear-all without a confirmation, or with a false one, is refused
    before the handler runs and the tables stay as they are.  With the flag
    true and nothing failing, every record is deleted, the body reports as
    deletedCount the number of records there were, and exactly one audit
    entry is appended, a DELETE entry of the caller with no record id. *)
Theorem clear_all_needs_confirmation :
  forall env credentials rq db,
    (forall raw_confirm,
        raw_confirm = None \/ raw_confirm = Some false ->
        exists e, main.delete_data env credentials raw_confirm rq db = (Raise e, db)
                  /\ main.status_code (fst (main.delete_data env credentials raw_confirm rq db))
                     <> 200)
    /\ (forall u ip,
           auth.get_current_user env credentials db = (Ok u, db) ->
           commit_fault env = None ->
           log_fault env = None ->
           routers_data.get_client_ip rq = Ok ip ->
           exists body db' entry,
             main.delete_data env credentials (Some true) rq db = (Ok body, db')
             /\ eco_records db' = []
             /\ json_get "success" body = Some (JBool true)
             /\ data_member "deletedCount" body
                = Some (JInt (Z.of_nat (List.length (eco_records db))))
             /\ operation_logs db' = operation_logs db ++ [entry]
             /\ OperationLog.record_id entry = None
             /\ OperationLog.action entry = "DELETE"
             /\ OperationLog.user_id entry = User.id u).
Proof.
  intros env credentials rq db. split.
  - intros raw_confirm Hraw. unfold main.delete_data.
    inside_get_db ltac:(fun request db =>
      assert (Hinner : exists e, request db = (Raise e, db))).
    { unfold_monad.
      destruct (get_current_user_cases env credentials db) as [[u Hu] | [e He]].
      - rewrite Hu. destruct Hraw as [-> | ->]; simpl; eexists; reflexivity.
      - rewrite He. exists e. reflexivity. }
    destruct Hinner as [e He]. destruct (get_db_raises _ _ _ _ He) as (msg & Hrun & Hstatus).
    exists (Exception msg). split; [exact Hrun |]. rewrite Hstatus. discriminate.
  - intros u ip Hu Hcommit Hlog Hip. unfold main.delete_data, main.get_db. unfold_monad.
    rewrite Hu. simpl schemas.ClearDataRequest.validate. cbv beta iota.
    unfold routers_data.clear_all_data, commit. unfold_monad.
    rewrite Hcommit. cbn [unique_dates]. rewrite Hip. cbv beta iota.
    rewrite log_operation_run, Hlog.
    do 3 eexists. split; [reflexivity |]. simpl_db. repeat split.
Qed.

Lemma clear_all_needs_confirmation_witness :
  exists body db' entry,
    main.delete_data sample.env "alice-token" (Some true) sample.request sample.db = (Ok body, db')
    /\ eco_records db' = []
    /\ json_get "success" body = Some (JBool true)
    /\ data_member "deletedCount" body = Some (JInt 2)
    /\ operation_logs db' = operation_logs sample.db ++ [entry]
    /\ OperationLog.record_id entry = None
    /\ OperationLog.action entry = "DELETE"
    /\ OperationLog.user_id entry = 1.
Proof.
  apply (proj2 (clear_all_needs_confirmation sample.env "alice-token" sample.request sample.db)
           sample.alice "10.0.0.7"); reflexivity.
Defined.

Lemma import_loop_role env overwrite r1 r2 u st n records :
  routers_data.import_loop env overwrite (User.with_role r1 u) st n records
  = routers_data.import_loop env overwrite (User.with_role r2 u) st n records.
Proof.
  revert st n. induction records as [| r records IH]; intros st n; simpl; [reflexivity |].
  rewrite IH. reflexivity.
Qed.

(** C10. The record mutations read nothing of the caller but the id: with
    the role changed, and all else equal, clear-all, create, update, delete
    and import return the same result and leave the same state.  So any
    caller the token check lets through, whatever the role, clears the
    table with a confirmed request: the answer is a success body, never a
    403. *)
Theorem record_mutations_are_not_gated_on_role :
  forall env r1 r2 u rq db,
    (forall cr, routers_data.clear_all_data env cr rq (User.with_role r1 u) db
                = routers_data.clear_all_data env cr rq (User.with_role r2 u) db)
    /\ (forall rd, routers_data.create_data env rd rq (User.with_role r1 u) db
                   = routers_data.create_data env rd rq (User.with_role r2 u) db)
    /\ (forall rid rd, routers_data.update_data env rid rd rq (User.with_role r1 u) db
                       = routers_data.update_data env rid rd rq (User.with_role r2 u) db)
    /\ (forall rid, routers_data.delete_data env rid rq (User.with_role r1 u) db
                    = routers_data.delete_data env rid rq (User.with_role r2 u) db)
    /\ (forall imp, routers_data.import_data env imp rq (User.with_role r1 u) db
                    = routers_data.import_data env imp rq (User.with_role r2 u) db)
    /\ (forall credentials ip,
           auth.get_current_user env credentials db = (Ok (User.with_role r1 u), db) ->
           commit_fault env = None ->
           routers_data.get_client_ip rq = Ok ip ->
           exists body db',
             main.delete_data env credentials (Some true) rq db = (Ok body, db')
             /\ main.status_code (fst (main.delete_data env credentials (Some true) rq db)) = 200
             /\ json_get "success" body = Some (JBool true)
             /\ eco_records db' = []).
Proof.
  intros env r1 r2 u rq db. repeat apply conj.
  - intros cr. reflexivity.
  - intros rd. reflexivity.
  - intros rid rd. reflexivity.
  - intros rid. reflexivity.
  - intros imp. unfold routers_data.import_data. unfold_monad.
    rewrite (import_loop_role env _ r1 r2). reflexivity.
  - intros credentials ip Hu Hcommit Hip. unfold main.delete_data, main.get_db. unfold_monad.
    rewrite Hu. simpl schemas.ClearDataRequest.validate. cbv beta iota.
    unfold routers_data.clear_all_data, commit. unfold_monad.
    rewrite Hcommit. cbn [unique_dates]. rewrite Hip. cbv beta iota.
    rewrite log_operation_run.
    do 2 eexists. split; [reflexivity |]. simpl_db.
    destruct (log_fault env); repeat split.
Qed.

Lemma record_mutations_are_not_gated_on_role_witness :
  exists body db',
    main.delete_data sample.env "alice-token" (Some true) sample.request sample.db = (Ok body, db')
    /\ main.status_code
         (fst (main.delete_data sample.env "alice-token" (Some true) sample.request sample.db))
       = 200
    /\ json_get "success" body = Some (JBool true)
    /\ eco_records db' = [].
Proof.
  apply (proj2 (proj2 (proj2 (proj2 (proj2
           (record_mutations_are_not_gated_on_role sample.env "user" "admin" sample.alice
              sample.request sample.db)))))
           "alice-token" "10.0.0.7"); reflexivity.
Defined.

(** ** Rows written in place *)



Lemma update_first_Forall (P : EcoRecord.t -> Prop) p f rows :
  Forall P rows ->
  (forall r, find p rows = Some r -> P (f r)) ->
  Forall P (routers_data.update_first p f rows).
Proof.
  induction rows as [| x rows IH]; simpl; [constructor |].
  intros HF. inversion HF as [| ? ? Hx Hrows]; subst.
  destruct (p x) eqn:Hp; intros H; constructor; auto.
Qed.

Lemma find_some_In {A} (p : A -> bool) l x : find p l = Some x -> In x l /\ p x = true.
Proof. apply find_some. Qed.



(** ** The invariant of the records table *)

Lemma create_errors_nil rd :
  schemas.EcoRecordCreate.errors rd = [] <-> valid_create rd.
Proof.
  unfold schemas.EcoRecordCreate.errors, schemas.EcoRecordCreate.validate_positive, valid_create.
  destruct rd as [d p dw iw e]; simpl.
  destruct (Z.ltb_spec p 0), (Z.ltb_spec dw 0), (Z.ltb_spec iw 0), (Z.ltb_spec e 0); simpl;
    split; intros Hgoal; try discriminate; try lia; reflexivity.
Qed.

Lemma create_validate_cases raw :
  (valid_create raw /\ schemas.EcoRecordCreate.validate raw = Ok raw)
  \/ (~ valid_create raw
      /\ exists errs, schemas.EcoRecordCreate.validate raw = Raise (RequestValidationError errs)).
Proof.
  unfold schemas.EcoRecordCreate.validate.
  destruct (schemas.EcoRecordCreate.errors raw) as [| err errs] eqn:E.
  - left. split; [apply create_errors_nil; exact E | reflexivity].
  - right. split; [| eexists; reflexivity].
    intros H. apply create_errors_nil in H. congruence.
Qed.

Lemma update_errors_nil rd :
  schemas.EcoRecordUpdate.errors rd = [] <-> valid_update rd.
Proof.
  unfold schemas.EcoRecordUpdate.errors, schemas.EcoRecordUpdate.validate_positive, valid_update,
    valid_field.
  destruct rd as [[p |] [dw |] [iw |] [e |]]; simpl;
    repeat match goal with
           | |- context [?x <? 0] => destruct (Z.ltb_spec x 0)
           end; simpl; split; intros Hgoal; try discriminate; try lia; try reflexivity;
    tauto.
Qed.

Lemma update_validate_cases raw :
  (valid_update raw /\ schemas.EcoRecordUpdate.validate raw = Ok raw)
  \/ (~ valid_update raw
      /\ exists errs, schemas.EcoRecordUpdate.validate raw = Raise (RequestValidationError errs)).
Proof.
  unfold schemas.EcoRecordUpdate.validate.
  destruct (schemas.EcoRecordUpdate.errors raw) as [| err errs] eqn:E.
  - left. split; [apply update_errors_nil; exact E | reflexivity].
  - right. split; [| eexists; reflexivity].
    intros H. apply update_errors_nil in H. congruence.
Qed.

Lemma flat_map_nil {A B} (f : A -> list B) l :
  flat_map f l = [] <-> Forall (fun x => f x = []) l.
Proof.
  induction l as [| x l IH]; simpl.
  - split; constructor.
  - split.
    + intros H. apply app_eq_nil in H. destruct H as [Hx Hl]. constructor; [| apply IH]; auto.
    + intros H. inversion H; subst. rewrite H2. simpl. apply IH. assumption.
Qed.

Lemma import_validate_cases raw :
  (Forall valid_create (schemas.EcoRecordImport.records raw)
   /\ schemas.EcoRecordImport.validate raw = Ok raw)
  \/ (~ Forall valid_create (schemas.EcoRecordImport.records raw)
      /\ exists errs, schemas.EcoRecordImport.validate raw = Raise (RequestValidationError errs)).
Proof.
  unfold schemas.EcoRecordImport.validate.
  destruct (flat_map _ _) as [| err errs] eqn:E.
  - left. split; [| reflexivity]. apply flat_map_nil in E.
    eapply Forall_impl; [| exact E]. intros rd. apply create_errors_nil.
  - right. split; [| eexists; reflexivity].
    intros H. assert (E' : flat_map schemas.EcoRecordCreate.errors
                             (schemas.EcoRecordImport.records raw) = []).
    { apply flat_map_nil. eapply Forall_impl; [| exact H]. intros rd. apply create_errors_nil. }
    congruence.
Qed.

Lemma remove_first_Forall (P : EcoRecord.t -> Prop) p rows :
  Forall P rows -> Forall P (routers_data.remove_first p rows).
Proof.
  induction rows as [| x rows IH]; simpl; [constructor |].
  intros HF. inversion HF; subst. destruct (p x); [assumption | constructor; auto].
Qed.

Lemma flush_new_Forall env seq pending :
  Forall non_negative pending -> Forall non_negative (routers_data.flush_new env seq pending).
Proof.
  revert seq. induction pending as [| r pending IH]; intros seq HF; simpl; [constructor |].
  inversion HF; subst. constructor; [assumption | apply IH; assumption].
Qed.

Lemma log_operation_invariant env user_id action table_name record_id old_data new_data
    description ip db :
  eco_records_invariant db ->
  eco_records_invariant
    (snd (auth.log_operation env user_id action table_name record_id old_data new_data
            description ip db)).
Proof.
  rewrite log_operation_run. destruct (log_fault env); auto.
Qed.

Lemma create_data_invariant env rd rq u db :
  valid_create rd -> eco_records_invariant db ->
  eco_records_invariant (snd (routers_data.create_data env rd rq u db)).
Proof.
  intros Hvalid [Huniq Hnn].
  unfold routers_data.create_data, commit, routers_data.format_record_response. unfold_monad.
  destruct (find _ (eco_records db)) as [r |]; [split; assumption |].
  destruct (commit_fault env) as [e |]; [destruct e; split; assumption |].
  cbn [routers_data.flush_new hd].
  commit_check Hu; [| split; assumption].
  assert (Hinv : eco_records_invariant
            (set_eco_records
               (eco_records db
                ++ [EcoRecord.mk (eco_records_seq db)
                      (EcoRecord.date (routers_data.new_EcoRecord rd (User.id u)))
                      (EcoRecord.power_consumption (routers_data.new_EcoRecord rd (User.id u)))
                      (EcoRecord.drinking_water (routers_data.new_EcoRecord rd (User.id u)))
                      (EcoRecord.irrigation_water (routers_data.new_EcoRecord rd (User.id u)))
                      (EcoRecord.electricity_price (routers_data.new_EcoRecord rd (User.id u)))
                      (EcoRecord.created_by (routers_data.new_EcoRecord rd (User.id u)))
                      (EcoRecord.updated_by (routers_data.new_EcoRecord rd (User.id u)))
                      (func_now env) (func_now env)])
               (eco_records_seq db + 1) db)).
  { split; simpl_db; [exact Hu |].
    apply Forall_app. split; [assumption |]. constructor; [| constructor]. exact Hvalid. }
  destruct (routers_data.get_client_ip rq) as [ip | e].
  - rewrite log_operation_run. destruct (log_fault env); exact Hinv.
  - exact Hinv.
Qed.

Lemma assigned_non_negative rd record :
  valid_update rd -> non_negative record ->
  non_negative
    (fst (routers_data.assign_if_provided "electricityPrice"
            (schemas.EcoRecordUpdate.electricityPrice rd) EcoRecord.set_electricity_price
            (routers_data.assign_if_provided "irrigationWater"
               (schemas.EcoRecordUpdate.irrigationWater rd) EcoRecord.set_irrigation_water
               (routers_data.assign_if_provided "drinkingWater"
                  (schemas.EcoRecordUpdate.drinkingWater rd) EcoRecord.set_drinking_water
                  (routers_data.assign_if_provided "powerConsumption"
                     (schemas.EcoRecordUpdate.powerConsumption rd)
                     EcoRecord.set_power_consumption (record, [])))))).
Proof.
  unfold valid_update, valid_field, non_negative, routers_data.assign_if_provided.
  destruct rd as [[a |] [b |] [c |] [d |]]; simpl; intuition.
Qed.

Lemma update_data_invariant env rid rd rq u db :
  valid_update rd -> eco_records_invariant db ->
  eco_records_invariant (snd (routers_data.update_data env rid rd rq u db)).
Proof.
  intros Hvalid [Huniq Hnn].
  unfold routers_data.update_data, commit, routers_data.format_record_response. unfold_monad.
  destruct (find _ (eco_records db)) as [record |] eqn:Hfind; [| split; assumption].
  destruct (commit_fault env) as [e |]; [destruct e; split; assumption |].
  commit_check Hu; [| split; assumption].
  match type of Hu with
  | unique_dates ?rows' = true =>
      assert (Hinv : eco_records_invariant (set_eco_records rows' (eco_records_seq db) db))
  end.
  { split; simpl_db; [exact Hu |].
    apply update_first_Forall; [assumption |]. intros r _.
    apply find_some_In in Hfind. destruct Hfind as [Hin _].
    pose proof (proj1 (Forall_forall _ _) Hnn _ Hin) as Hrec.
    pose proof (assigned_non_negative rd record Hvalid Hrec) as H. exact H. }
  destruct (routers_data.get_client_ip rq) as [ip | e].
  - rewrite log_operation_run. destruct (log_fault env); exact Hinv.
  - destruct e; exact Hinv.
Qed.

Lemma delete_data_invariant env rid rq u db :
  eco_records_invariant db ->
  eco_records_invariant (snd (routers_data.delete_data env rid rq u db)).
Proof.
  intros [Huniq Hnn].
  unfold routers_data.delete_data, commit. unfold_monad.
  destruct (find _ (eco_records db)) as [record |] eqn:Hfind; [| split; assumption].
  destruct (commit_fault env) as [e |]; [destruct e; split; assumption |].
  commit_check Hu; [| split; assumption].
  match type of Hu with
  | unique_dates ?rows' = true =>
      assert (Hinv : eco_records_invariant (set_eco_records rows' (eco_records_seq db) db))
        by (split; simpl_db; [exact Hu | apply remove_first_Forall; assumption])
  end.
  destruct (routers_data.get_client_ip rq) as [ip | e].
  - rewrite log_operation_run. destruct (log_fault env); exact Hinv.
  - destruct e; exact Hinv.
Qed.

Lemma clear_all_data_invariant env cr rq u db :
  eco_records_invariant db ->
  eco_records_invariant (snd (routers_data.clear_all_data env cr rq u db)).
Proof.
  intros Hinv.
  unfold routers_data.clear_all_data, commit. unfold_monad.
  destruct (commit_fault env) as [e |]; [exact Hinv |].
  cbn [unique_dates].
  assert (Hinv' : eco_records_invariant (set_eco_records [] (eco_records_seq db) db))
    by (split; simpl_db; [reflexivity | constructor]).
  destruct (routers_data.get_client_ip rq) as [ip | e].
  - rewrite log_operation_run. destruct (log_fault env); exact Hinv'.
  - exact Hinv'.
Qed.

Lemma import_record_non_negative env overwrite u st n rd :
  valid_create rd ->
  Forall non_negative (routers_data.session_rows st) ->
  Forall non_negative (routers_data.session_new st) ->
  Forall non_negative
    (routers_data.session_rows (routers_data.import_record env overwrite u st n rd))
  /\ Forall non_negative
       (routers_data.session_new (routers_data.import_record env overwrite u st n rd)).
Proof.
  intros Hvalid Hrows Hnew.
  unfold routers_data.import_record, routers_data.import_record_try.
  destruct (query_fault env n); [split; assumption |].
  destruct (find _ (routers_data.session_rows st)) as [existing |].
  - destruct overwrite; simpl; [| split; assumption].
    split; [| assumption]. apply update_first_Forall; [assumption |].
    intros r _. exact Hvalid.
  - simpl. split; [assumption |]. apply Forall_app. split; [assumption |].
    constructor; [exact Hvalid | constructor].
Qed.

Lemma import_loop_non_negative env overwrite u records :
  Forall valid_create records ->
  forall st n,
    Forall non_negative (routers_data.session_rows st) ->
    Forall non_negative (routers_data.session_new st) ->
    Forall non_negative
      (routers_data.session_rows (routers_data.import_loop env overwrite u st n records))
    /\ Forall non_negative
         (routers_data.session_new (routers_data.import_loop env overwrite u st n records)).
Proof.
  induction 1 as [| rd records Hrd Hrecords IH]; intros st n Hrows Hnew; simpl.
  - split; assumption.
  - destruct (import_record_non_negative env overwrite u st n rd Hrd Hrows Hnew) as [H1 H2].
    apply IH; assumption.
Qed.

Lemma import_data_invariant env imp rq u db :
  Forall valid_create (schemas.EcoRecordImport.records imp) ->
  eco_records_invariant db ->
  eco_records_invariant (snd (routers_data.import_data env imp rq u db)).
Proof.
  intros Hvalid [Huniq Hnn].
  unfold routers_data.import_data, commit. unfold_monad.
  destruct (commit_fault env) as [e |]; [split; assumption |].
  commit_check Hu; [| split; assumption].
  match type of Hu with
  | unique_dates ?rows' = true =>
      assert (Hinv : forall seq, eco_records_invariant (set_eco_records rows' seq db))
  end.
  { intros seq. split; simpl_db; [exact Hu |].
    destruct (import_loop_non_negative env (schemas.EcoRecordImport.overwriteExisting imp) u
                _ Hvalid (routers_data.mkImportState 0 0 0 [] (eco_records db) []) 0%nat)
      as [H1 H2]; simpl; [assumption | constructor |].
    apply Forall_app. split; [assumption | apply flush_new_Forall; assumption]. }
  destruct (routers_data.get_client_ip rq) as [ip | e].
  - rewrite log_operation_run. destruct (log_fault env); apply Hinv.
  - apply Hinv.
Qed.

Ltac authenticate env credentials db u :=
  let Hu := fresh "Hu" in
  let e := fresh "e" in
  destruct (get_current_user_cases env credentials db) as [[u Hu] | [e Hu]];
  rewrite Hu; cbv beta iota.

(** C4. Starting from a table with at most one record per date and no
    negative measure, each route that writes records (create, update, batch
    import, and also delete and clear-all) ends in such a table, whatever the
    request and whatever fails on the way; and a create, update or import
    request carrying a negative measure is refused with the whole database
    left exactly as it was. *)
Theorem mutations_preserve_the_records_invariant :
  forall env credentials rq db,
    eco_records_invariant db ->
    (forall raw, eco_records_invariant (snd (main.post_data env credentials raw rq db)))
    /\ (forall rid raw,
           eco_records_invariant (snd (main.put_data env credentials rid raw rq db)))
    /\ (forall raw, eco_records_invariant (snd (main.post_data_import env credentials raw rq db)))
    /\ (forall rid, eco_records_invariant (snd (main.delete_data_record env credentials rid rq db)))
    /\ (forall raw_confirm,
           eco_records_invariant (snd (main.delete_data env credentials raw_confirm rq db)))
    /\ (forall raw,
           ~ valid_create raw ->
           exists e, main.post_data env credentials raw rq db = (Raise e, db))
    /\ (forall rid raw,
           ~ valid_update raw ->
           exists e, main.put_data env credentials rid raw rq db = (Raise e, db))
    /\ (forall raw,
           ~ Forall valid_create (schemas.EcoRecordImport.records raw) ->
           exists e, main.post_data_import env credentials raw rq db = (Raise e, db)).
Proof.
  intros env credentials rq db Hinv. repeat apply conj.
  - intros raw. unfold main.post_data. rewrite get_db_state. unfold_monad.
    authenticate env credentials db u; [| exact Hinv].
    destruct (create_validate_cases raw) as [[Hv ->] | [_ [errs ->]]]; [| exact Hinv].
    apply create_data_invariant; assumption.
  - intros rid raw. unfold main.put_data. rewrite get_db_state. unfold_monad.
    authenticate env credentials db u; [| exact Hinv].
    destruct (update_validate_cases raw) as [[Hv ->] | [_ [errs ->]]]; [| exact Hinv].
    apply update_data_invariant; assumption.
  - intros raw. unfold main.post_data_import. rewrite get_db_state. unfold_monad.
    authenticate env credentials db u; [| exact Hinv].
    destruct (import_validate_cases raw) as [[Hv ->] | [_ [errs ->]]]; [| exact Hinv].
    apply import_data_invariant; assumption.
  - intros rid. unfold main.delete_data_record. rewrite get_db_state. unfold_monad.
    authenticate env credentials db u; [| exact Hinv].
    apply delete_data_invariant; assumption.
  - intros raw_confirm. unfold main.delete_data. rewrite get_db_state. unfold_monad.
    authenticate env credentials db u; [| exact Hinv].
    destruct (schemas.ClearDataRequest.validate raw_confirm) as [cr | e]; [| exact Hinv].
    apply clear_all_data_invariant; assumption.
  - intros raw Hneg. unfold main.post_data.
    inside_get_db ltac:(fun request db =>
      assert (Hinner : exists e, request db = (Raise e, db))).
    { unfold_monad. authenticate env credentials db u; [| eexists; reflexivity].
      destruct (create_validate_cases raw) as [[Hv _] | [_ [errs ->]]]; [contradiction |].
      eexists; reflexivity. }
    destruct Hinner as [e He]. destruct (get_db_raises _ _ _ _ He) as (msg & Hrun & _).
    eexists. exact Hrun.
  - intros rid raw Hneg. unfold main.put_data.
    inside_get_db ltac:(fun request db =>
      assert (Hinner : exists e, request db = (Raise e, db))).
    { unfold_monad. authenticate env credentials db u; [| eexists; reflexivity].
      destruct (update_validate_cases raw) as [[Hv _] | [_ [errs ->]]]; [contradiction |].
      eexists; reflexivity. }
    destruct Hinner as [e He]. destruct (get_db_raises _ _ _ _ He) as (msg & Hrun & _).
    eexists. exact Hrun.
  - intros raw Hneg. unfold main.post_data_import.
    inside_get_db ltac:(fun request db =>
      assert (Hinner : exists e, request db = (Raise e, db))).
    { unfold_monad. authenticate env credentials db u; [| eexists; reflexivity].
      destruct (import_validate_cases raw) as [[Hv _] | [_ [errs ->]]]; [contradiction |].
      eexists; reflexivity. }
    destruct Hinner as [e He]. destruct (get_db_raises _ _ _ _ He) as (msg & Hrun & _).
    eexists. exact Hrun.
Qed.

Lemma mutations_preserve_the_records_invariant_witness :
  eco_records_invariant
    (snd (main.post_data sample.env "alice-token" sample.create_jan3 sample.request sample.db))
  /\ exists e,
       main.post_data sample.env "alice-token"
         (schemas.EcoRecordCreate.mk (sample.jan 3) 500 (-1) 100 2500) sample.request sample.db
       = (Raise e, sample.db).
Proof.
  assert (Hinv : eco_records_invariant sample.db)
    by (split; [reflexivity | repeat constructor; unfold non_negative; simpl; lia]).
  pose proof (mutations_preserve_the_records_invariant sample.env "alice-token" sample.request
                sample.db Hinv) as H.
  split.
  - apply (proj1 H).
  - apply (proj1 (proj2 (proj2 (proj2 (proj2 (proj2 H)))))).
    unfold valid_create. simpl. lia.
Defined.

(** ** Batch import *)

(** What the loop body does with one record, case by case. *)
Lemma import_record_cases env overwrite u st n rd :
  let same_date r := date.eqb (EcoRecord.date r) (schemas.EcoRecordCreate.date rd) in
  let st' := routers_data.import_record env overwrite u st n rd in
  match query_fault env n with
  | Some e =>
      (* a failure: one more error, nothing else *)
      exists msg, routers_data.errors st' = routers_data.errors st ++ [msg]
      /\ routers_data.imported st' = routers_data.imported st
      /\ routers_data.updated st' = routers_data.updated st
      /\ routers_data.skipped st' = routers_data.skipped st
      /\ routers_data.session_rows st' = routers_data.session_rows st
      /\ routers_data.session_new st' = routers_data.session_new st
  | None =>
      routers_data.errors st' = routers_data.errors st
      /\ if has_date (schemas.EcoRecordCreate.date rd) (routers_data.session_rows st)
         then
           routers_data.imported st' = routers_data.imported st
           /\ routers_data.session_new st' = routers_data.session_new st
           /\ if overwrite
              then routers_data.updated st' = routers_data.updated st + 1
                   /\ routers_data.skipped st' = routers_data.skipped st
                   /\ exists f,
                        routers_data.session_rows st'
                        = routers_data.update_first same_date f (routers_data.session_rows st)
                        /\ forall r,
                             EcoRecord.power_consumption (f r)
                             = schemas.EcoRecordCreate.powerConsumption rd
                             /\ EcoRecord.drinking_water (f r)
                                = schemas.EcoRecordCreate.drinkingWater rd
                             /\ EcoRecord.irrigation_water (f r)
                                = schemas.EcoRecordCreate.irrigationWater rd
                             /\ EcoRecord.electricity_price (f r)
                                = schemas.EcoRecordCreate.electricityPrice rd
                             /\ EcoRecord.date (f r) = EcoRecord.date r
              else routers_data.updated st' = routers_data.updated st
                   /\ routers_data.skipped st' = routers_data.skipped st + 1
                   /\ routers_data.session_rows st' = routers_data.session_rows st
         else
           routers_data.imported st' = routers_data.imported st + 1
           /\ routers_data.updated st' = routers_data.updated st
           /\ routers_data.skipped st' = routers_data.skipped st
           /\ routers_data.session_rows st' = routers_data.session_rows st
           /\ routers_data.session_new st'
              = routers_data.session_new st ++ [routers_data.new_EcoRecord rd (User.id u)]
  end.
Proof.
  intros same_date st'. subst st'.
  unfold routers_data.import_record, routers_data.import_record_try.
  destruct (query_fault env n) as [e |].
  - simpl. eexists. repeat split.
  - unfold has_date.
    destruct (existsb _ (routers_data.session_rows st)) eqn:Hex.
    + destruct (find_existsb _ _ Hex) as (r & -> & _).
      destruct overwrite; simpl; repeat split.
      eexists. split; [reflexivity |]. intros r0. repeat split.
    + rewrite (find_not_existsb _ _ Hex). simpl. repeat split.
Qed.

(** Every record moves exactly one of the four counters by one. *)
Lemma import_record_accounted env overwrite u st n rd :
  accounted (routers_data.import_record env overwrite u st n rd) = accounted st + 1.
Proof.
  unfold accounted, routers_data.import_record, routers_data.import_record_try.
  destruct (query_fault env n) as [e |].
  - simpl. rewrite length_app. simpl. lia.
  - destruct (find _ (routers_data.session_rows st)); [destruct overwrite |]; simpl; lia.
Qed.

Lemma import_loop_accounted env overwrite u records :
  forall st n,
    accounted (routers_data.import_loop env overwrite u st n records)
    = accounted st + Z.of_nat (List.length records).
Proof.
  induction records as [| rd records IH]; intros st n.
  - simpl. lia.
  - cbn [routers_data.import_loop List.length]. rewrite IH, import_record_accounted. lia.
Qed.

(** The loop goes on after a failure: a batch is processed as its first
    part and then, from the state reached, its second part. *)
Lemma import_loop_app env overwrite u records records' :
  forall st n,
    routers_data.import_loop env overwrite u st n (records ++ records')
    = routers_data.import_loop env overwrite u
        (routers_data.import_loop env overwrite u st n records)
        (n + List.length records)%nat records'.
Proof.
  induction records as [| rd records IH]; intros st n; simpl.
  - rewrite Nat.add_0_r. reflexivity.
  - rewrite IH. f_equal. lia.
Qed.

(** X12. An import that completes reports counters and errors that account
    for every input record: imported, updated and skipped and the number of
    error messages add up to the number of records in the batch. *)
Lemma import_data_completed_accounts_for_all env imp rq u db body db' :
  routers_data.import_data env imp rq u db = (Ok body, db') ->
  exists imported updated skipped errors,
    data_member "imported" body = Some (JInt imported)
    /\ data_member "updated" body = Some (JInt updated)
    /\ data_member "skipped" body = Some (JInt skipped)
    /\ data_member "errors" body = Some (JList errors)
    /\ imported + updated + skipped + Z.of_nat (List.length errors)
       = Z.of_nat (List.length (schemas.EcoRecordImport.records imp)).
Proof.
  unfold routers_data.import_data, commit. unfold_monad.
  destruct (commit_fault env) as [e |]; [discriminate |].
  commit_check Hu; [| discriminate].
  destruct (routers_data.get_client_ip rq) as [ip | e]; [| discriminate].
  rewrite log_operation_run. cbv beta iota. intros H. injection H as <- _.
  do 4 eexists. repeat (split; [reflexivity |]).
  rewrite length_map.
  pose proof (import_loop_accounted env (schemas.EcoRecordImport.overwriteExisting imp) u
                (schemas.EcoRecordImport.records imp)
                (routers_data.mkImportState 0 0 0 [] (eco_records db) []) 0%nat) as Hacc.
  unfold accounted in Hacc. simpl in Hacc. lia.
Qed.

(** C3. A batch holding two readings for one day that has no record yet:
    the existence check of the second does not see the first, which is only
    pending in a session that does not flush before queries, so both are
    added and counted as imported; the commit then violates the unique index
    on the date, outside the per-record handler, and the handler ends the
    whole import by raising a 500 with nothing inserted, no counters and no
    error list.  The route answers with status 500: the session dependency
    replaces the handler's exception by a plain one. *)
Theorem import_data_same_day_twice_fails_whole_batch :
  routers_data.import_loop sample.env false sample.alice
    (routers_data.mkImportState 0 0 0 [] (eco_records sample.db) []) 0
    (schemas.EcoRecordImport.records sample.batch_same_day)
  = routers_data.mkImportState 2 0 0 [] (eco_records sample.db)
      [ routers_data.new_EcoRecord sample.create_jan3 1;
        routers_data.new_EcoRecord sample.create_jan3_again 1 ]
  /\ schemas.EcoRecordImport.validate sample.batch_same_day = Ok sample.batch_same_day
  /\ routers_data.import_data sample.env sample.batch_same_day sample.request sample.alice
       sample.db
     = (Raise (HTTPException 500 "Failed to import data"), sample.db)
  /\ (exists msg,
        main.post_data_import sample.env "alice-token" sample.batch_same_day sample.request
          sample.db
        = (Raise (Exception msg), sample.db))
  /\ main.status_code
       (fst (main.post_data_import sample.env "alice-token" sample.batch_same_day
               sample.request sample.db))
     = 500.
Proof.
  split; [reflexivity |]. split; [reflexivity |]. split; [reflexivity |].
  split; [eexists; reflexivity | reflexivity].
Qed.

(** ** The audit trail *)

Lemma datetime_leb_spec a b :
  datetime.leb a b = true
  <-> (let da := datetime.day a in
       let db := datetime.day b in
       date.year da < date.year db
       \/ (date.year da = date.year db
           /\ (date.month da < date.month db
               \/ (date.month da = date.month db
                   /\ (date.day da < date.day db
                       \/ (date.day da = date.day db
                           /\ datetime.micros a <= datetime.micros b)))))).
Proof.
  unfold datetime.leb, datetime.ltb, datetime.eqb, date.ltb, date.eqb.
  destruct a as [[y m d] s], b as [[y' m' d'] s']; simpl.
  rewrite !orb_true_iff, !andb_true_iff, !orb_true_iff, !andb_true_iff,
    !Z.ltb_lt, !Z.eqb_eq.
  lia.
Qed.

Lemma datetime_leb_total a b : datetime.leb a b = false -> datetime.leb b a = true.
Proof.
  intros Hab. destruct (datetime.leb b a) eqn:Hba; [reflexivity |].
  apply not_true_iff_false in Hab, Hba.
  rewrite datetime_leb_spec in Hab, Hba. simpl in Hab, Hba. lia.
Qed.

Lemma datetime_leb_trans a b c :
  datetime.leb a b = true -> datetime.leb b c = true -> datetime.leb a c = true.
Proof.
  rewrite !datetime_leb_spec. simpl. lia.
Qed.

(** A filter by a day keeps entries stamped that day or later (earlier). *)
Lemma datetime_leb_of_date_l d t :
  datetime.leb (datetime.of_date d) t = true -> date.leb d (datetime.day t) = true.
Proof.
  unfold datetime.leb, datetime.ltb, datetime.eqb, datetime.of_date, date.leb. simpl.
  destruct (date.ltb d (datetime.day t)); [reflexivity |].
  destruct (date.eqb d (datetime.day t)); [reflexivity | discriminate].
Qed.

Lemma datetime_leb_of_date_r d t :
  datetime.leb t (datetime.of_date d) = true -> date.leb (datetime.day t) d = true.
Proof.
  unfold datetime.leb, datetime.ltb, datetime.eqb, datetime.of_date, date.leb. simpl.
  destruct (date.ltb (datetime.day t) d); [reflexivity |].
  destruct (date.eqb (datetime.day t) d); [reflexivity | discriminate].
Qed.

Lemma insert_desc_In x l z :
  In z (routers_logs.insert_desc x l) <-> z = x \/ In z l.
Proof.
  induction l as [| y l IH]; simpl.
  - intuition.
  - destruct (datetime.leb _ _); simpl; [intuition |]. rewrite IH. intuition.
Qed.

Lemma insert_desc_sorted x l :
  StronglySorted newest_first l -> StronglySorted newest_first (routers_logs.insert_desc x l).
Proof.
  induction 1 as [| y l Hl IH Hy]; simpl.
  - constructor; constructor.
  - destruct (datetime.leb (OperationLog.created_at y) (OperationLog.created_at x)) eqn:Hyx.
    + constructor; [constructor; assumption |].
      constructor; [exact Hyx |].
      eapply Forall_impl; [| exact Hy]. intros z Hz. unfold newest_first in *.
      eapply datetime_leb_trans; eassumption.
    + constructor; [exact IH |].
      apply Forall_forall. intros z Hz. apply insert_desc_In in Hz. destruct Hz as [-> | Hz].
      * apply datetime_leb_total. exact Hyx.
      * exact (proj1 (Forall_forall _ _) Hy z Hz).
Qed.

Lemma order_by_created_at_desc_In l z :
  In z (routers_logs.order_by_created_at_desc l) <-> In z l.
Proof.
  induction l as [| x l IH]; simpl; [tauto |].
  rewrite insert_desc_In, IH. intuition.
Qed.

Lemma order_by_created_at_desc_sorted l :
  StronglySorted newest_first (routers_logs.order_by_created_at_desc l).
Proof.
  induction l as [| x l IH]; simpl; [constructor | apply insert_desc_sorted; exact IH].
Qed.

Lemma StronglySorted_skipn {A} (R : A -> A -> Prop) n l :
  StronglySorted R l -> StronglySorted R (skipn n l).
Proof.
  revert l. induction n as [| n IH]; intros l H; simpl; [exact H |].
  destruct l as [| x l]; [constructor |]. inversion H; subst. apply IH. assumption.
Qed.

Lemma In_firstn_skipn {A} n m (l : list A) z : In z (firstn n (skipn m l)) -> In z l.
Proof.
  intros H.
  rewrite <- (firstn_skipn m l). apply in_or_app. right.
  rewrite <- (firstn_skipn n (skipn m l)). apply in_or_app. left. exact H.
Qed.

Lemma StronglySorted_firstn {A} (R : A -> A -> Prop) n l :
  StronglySorted R l -> StronglySorted R (firstn n l).
Proof.
  revert l. induction n as [| n IH]; intros l H; simpl; [constructor |].
  destruct l as [| x l]; [constructor |]. inversion H as [| ? ? Hl Hx]; subst.
  constructor; [apply IH; assumption |].
  apply Forall_forall. intros z Hz. apply (proj1 (Forall_forall _ _) Hx).
  apply (In_firstn_skipn n 0). exact Hz.
Qed.

Lemma filter_if_In {A} (arg : option A) truthy p query l :
  In l (routers_logs.filter_if arg truthy p query) ->
  In l query /\ forall a, arg = Some a -> truthy a = true -> p a l = true.
Proof.
  unfold routers_logs.filter_if. destruct arg as [a |].
  - destruct (truthy a) eqn:Ht.
    + intros H. apply filter_In in H. destruct H as [Hin Hp]. split; [exact Hin |].
      intros a' Ha' _. injection Ha' as <-. exact Hp.
    + intros H. split; [exact H |]. intros a' Ha' Ht'. injection Ha' as <-. congruence.
  - intros H. split; [exact H |]. intros a' Ha'. discriminate.
Qed.

(** X13. What the admin's page of the audit trail is guaranteed to be: entries
    of the table, within the date range asked for, of the action asked for,
    and of the user asked for unless the user id asked for is 0; newest
    first; with hasNext and hasPrev computed from the page number. *)
Lemma get_operation_logs_page startDate endDate userId action page limit db :
  let p := routers_logs.paginate page limit
             (routers_logs.build_query startDate endDate userId action db) in
  StronglySorted newest_first (routers_logs.logs p)
  /\ (routers_logs.has_next p = true <-> page < routers_logs.total_pages p)
  /\ (routers_logs.has_prev p = true <-> page > 1)
  /\ forall l, In l (routers_logs.logs p) ->
       In l (operation_logs db)
       /\ (forall d, startDate = Some d ->
                     datetime.leb (datetime.of_date d) (OperationLog.created_at l) = true
                     /\ date.leb d (datetime.day (OperationLog.created_at l)) = true)
       /\ (forall d, endDate = Some d ->
                     datetime.leb (OperationLog.created_at l) (datetime.of_date d) = true
                     /\ date.leb (datetime.day (OperationLog.created_at l)) d = true)
       /\ (forall uid, userId = Some uid -> uid <> 0 -> OperationLog.user_id l = uid)
       /\ (forall a, action = Some a -> a <> "" -> OperationLog.action l = a).
Proof.
  intros p. subst p. unfold routers_logs.paginate.
  cbn [routers_logs.logs routers_logs.has_next routers_logs.has_prev routers_logs.total_pages].
  split; [| split; [| split]].
  - apply StronglySorted_firstn, StronglySorted_skipn.
    unfold routers_logs.build_query. apply order_by_created_at_desc_sorted.
  - apply Z.ltb_lt.
  - rewrite Z.ltb_lt. lia.
  - intros l Hl. apply In_firstn_skipn in Hl.
    unfold routers_logs.build_query in Hl.
    apply (proj1 (order_by_created_at_desc_In _ _)) in Hl.
    apply filter_if_In in Hl. destruct Hl as [Hl Haction].
    apply filter_if_In in Hl. destruct Hl as [Hl Huser].
    apply filter_if_In in Hl. destruct Hl as [Hl Hend].
    apply filter_if_In in Hl. destruct Hl as [Hl Hstart].
    apply filter_In in Hl. destruct Hl as [Hin _].
    split; [exact Hin |]. repeat apply conj.
    + intros d Hd. specialize (Hstart d Hd eq_refl). split; [exact Hstart |].
      apply datetime_leb_of_date_l. exact Hstart.
    + intros d Hd. specialize (Hend d Hd eq_refl). split; [exact Hend |].
      apply datetime_leb_of_date_r. exact Hend.
    + intros uid Hu Hne. apply Z.eqb_eq. apply (Huser uid Hu).
      unfold truthy_int. destruct (Z.eqb_spec uid 0); [contradiction | reflexivity].
    + intros a Ha Hne. apply String.eqb_eq. apply (Haction a Ha).
      unfold truthy_str. destruct (String.eqb_spec a ""); [contradiction | reflexivity].
Qed.

(** X20. A caller who authenticates but is not an admin does not get the
    audit trail.  The admin check raises 403 before the query parameters are
    looked at; the session dependency replaces that exception by a plain one,
    so the route answers with status 500, and the database is as it was. *)
Lemma get_logs_non_admin_refused env credentials page limit startDate endDate userId action
    db u :
  auth.get_current_user env credentials db = (Ok u, db) ->
  User.role u <> "admin" ->
  auth.get_current_admin_user u = Raise (HTTPException 403 "Access denied. Admin only.")
  /\ (exists msg,
        main.get_logs env credentials page limit startDate endDate userId action db
        = (Raise (Exception msg), db))
  /\ main.status_code
       (fst (main.get_logs env credentials page limit startDate endDate userId action db))
     = 500.
Proof.
  intros Hu Hrole.
  assert (Hadmin : auth.get_current_admin_user u
                   = Raise (HTTPException 403 "Access denied. Admin only.")).
  { unfold auth.get_current_admin_user.
    destruct (String.eqb_spec (User.role u) "admin"); [contradiction | reflexivity]. }
  split; [exact Hadmin |]. unfold main.get_logs.
  inside_get_db ltac:(fun request db =>
    assert (Hinner : request db
                     = (Raise (HTTPException 403 "Access denied. Admin only."), db))).
  { unfold_monad. rewrite Hu. cbv beta iota. rewrite Hadmin. reflexivity. }
  destruct (get_db_raises _ _ _ _ Hinner) as (msg & Hrun & Hstatus).
  split; [exists msg; exact Hrun | exact Hstatus].
Qed.

(** C8. An admin asks for the entries of user id 0.  The test [if userId:]
    takes 0 for "no filter": the query is the unfiltered one, and the page
    returned holds the entries of users 2 and 1 (newest first), none of which
    belongs to user 0. *)
Theorem get_logs_user_id_zero_is_not_filtered :
  (forall startDate endDate action db,
      routers_logs.build_query startDate endDate (Some 0) action db
      = routers_logs.build_query startDate endDate None action db)
  /\ routers_logs.logs
       (routers_logs.paginate 1 20 (routers_logs.build_query None None (Some 0) None sample.db))
     = [sample.log2; sample.log1]
  /\ Forall (fun l => OperationLog.user_id l <> 0)
       (routers_logs.logs
          (routers_logs.paginate 1 20
             (routers_logs.build_query None None (Some 0) None sample.db)))
  /\ exists entries pagination,
       main.get_logs sample.env "root-token" 1 20 None None (Some 0) None sample.db
       = (Ok (JDict [ ("success", JBool true);
                      ("data", JDict [ ("logs", JList entries);
                                       ("pagination", pagination) ]) ]),
          sample.db)
       /\ map (json_get "userId") entries = [Some (JInt 2); Some (JInt 1)].
Proof.
  split; [reflexivity |].
  split; [reflexivity |].
  split; [repeat constructor; discriminate |].
  do 2 eexists. split; reflexivity.
Qed.

(** ** Validation failures *)

Lemma register_validate_cases raw :
  (breaks_a_registration_rule raw
   /\ exists err errs,
        schemas.UserRegister.validate raw = Raise (RequestValidationError (err :: errs)))
  \/ (~ breaks_a_registration_rule raw /\ schemas.UserRegister.validate raw = Ok raw).
Proof.
  unfold breaks_a_registration_rule, schemas.UserRegister.validate,
    schemas.UserRegister.validate_username, schemas.UserRegister.validate_password,
    schemas.UserRegister.validate_confirm_password.
  destruct raw as [u p c]; simpl.
  destruct (startswith u "@") eqn:Hs; simpl.
  - destruct (Z.ltb_spec (len u) 3); simpl.
    + left. split; [auto |].
      destruct (Z.ltb_spec (len p) 6); simpl; [do 2 eexists; reflexivity |].
      destruct (String.eqb_spec c p); simpl; do 2 eexists; reflexivity.
    + destruct (Z.ltb_spec (len p) 6); simpl.
      * left. split; [auto |]. do 2 eexists; reflexivity.
      * destruct (String.eqb_spec c p); simpl.
        -- right. subst c. split; [| reflexivity].
           intros [Hd | [Hd | [Hd | Hd]]]; try discriminate; try lia. congruence.
        -- left. split; [auto |]. do 2 eexists; reflexivity.
  - left. split; [auto |].
    destruct (Z.ltb_spec (len p) 6); simpl; [do 2 eexists; reflexivity |].
    destruct (String.eqb_spec c p); simpl; do 2 eexists; reflexivity.
Qed.

(** C9, as the claim states it, fails: a registration whose username lacks
    the sigil is not answered with a success-false body under status 200. *)
Lemma registration_without_sigil_is_not_a_failure_body :
  ~ returned_as_validation_failure
      (main.post_auth_register sample.env sample.bob_without_sigil sample.db).
Proof.
  intros (body & field & code & Hbody & _). simpl in Hbody. discriminate.
Qed.

(** C9, amended. Duplicate usernames and duplicate dates are answered with
    a success-false body carrying a field/code pair, status 200.  A
    registration whose username lacks the sigil or is shorter than 3
    characters, whose password is shorter than 6 characters, or whose
    passwords differ never reaches the handler: the schema validators raise
    a request validation error, nothing is written, the session dependency
    replaces the error by a plain exception, and the answer is a server
    error (status 500), not such a body. *)
Theorem validation_failures_by_kind :
  forall env db,
    (forall raw,
        breaks_a_registration_rule raw ->
        (exists errs,
            schemas.UserRegister.validate raw = Raise (RequestValidationError errs)
            /\ errs <> [])
        /\ (exists msg,
              main.post_auth_register env raw db = (Raise (Exception msg), db))
        /\ main.status_code (fst (main.post_auth_register env raw db)) = 500
        /\ ~ returned_as_validation_failure (main.post_auth_register env raw db))
    /\ (forall raw,
           ~ breaks_a_registration_rule raw ->
           existsb (fun u => String.eqb (User.username u) (schemas.UserRegister.username raw))
             (users db) = true ->
           exists body,
             main.post_auth_register env raw db = (Ok body, db)
             /\ is_validation_failure "username" "DUPLICATE_USERNAME" body
             /\ returned_as_validation_failure (main.post_auth_register env raw db))
    /\ (forall credentials raw rq u,
           auth.get_current_user env credentials db = (Ok u, db) ->
           valid_create raw ->
           has_date (schemas.EcoRecordCreate.date raw) (eco_records db) = true ->
           exists body,
             main.post_data env credentials raw rq db = (Ok body, db)
             /\ is_validation_failure "date" "DUPLICATE_DATE" body
             /\ returned_as_validation_failure (main.post_data env credentials raw rq db)).
Proof.
  intros env db. repeat apply conj.
  - intros raw Hbreak.
    destruct (register_validate_cases raw) as [[_ (err & errs & Hraise)] | [Hok _]];
      [| contradiction].
    split; [exists (err :: errs); split; [exact Hraise | discriminate] |].
    unfold main.post_auth_register.
    inside_get_db ltac:(fun request db =>
      assert (Hinner : request db = (Raise (RequestValidationError (err :: errs)), db))).
    { unfold_monad. rewrite Hraise. reflexivity. }
    destruct (get_db_raises _ _ _ _ Hinner) as (msg & Hrun & Hstatus).
    split; [exists msg; exact Hrun |]. split; [exact Hstatus |].
    intros (body & field & code & Hbody & _). rewrite Hrun in Hbody. discriminate.
  - intros raw Hok Hexists. unfold main.post_auth_register, main.get_db. unfold_monad.
    destruct (register_validate_cases raw) as [[Hbreak _] | [_ ->]]; [contradiction |].
    cbv beta iota. unfold routers_auth.register. unfold_monad.
    destruct (find_existsb _ _ Hexists) as (u & -> & _). cbv beta iota.
    assert (Hf : is_validation_failure "username" "DUPLICATE_USERNAME"
                   (JDict [ ("success", JBool false);
                            ("error", JStr "Validation failed");
                            ("message", JStr "Username already exists");
                            ("details", JDict [ ("field", JStr "username");
                                                ("code", JStr "DUPLICATE_USERNAME") ]) ]))
      by (repeat split; eexists; repeat split).
    eexists. split; [reflexivity |]. split; [exact Hf |].
    do 3 eexists. split; [reflexivity |]. split; [exact Hf | reflexivity].
  - intros credentials raw rq u Hu Hvalid Hdate. unfold main.post_data, main.get_db. unfold_monad.
    rewrite Hu. cbv beta iota.
    destruct (create_validate_cases raw) as [[_ ->] | [Hbad _]]; [| contradiction].
    cbv beta iota. unfold routers_data.create_data. unfold_monad.
    destruct (find_existsb _ _ Hdate) as (r & -> & _). cbv beta iota.
    assert (Hf : is_validation_failure "date" "DUPLICATE_DATE"
                   (JDict [ ("success", JBool false);
                            ("error", JStr "Validation failed");
                            ("message", JStr "Date already exists");
                            ("details", JDict [ ("field", JStr "date");
                                                ("code", JStr "DUPLICATE_DATE") ]) ]))
      by (repeat split; eexists; repeat split).
    eexists. split; [reflexivity |]. split; [exact Hf |].
    do 3 eexists. split; [reflexivity |]. split; [exact Hf | reflexivity].
Qed.

Lemma validation_failures_by_kind_witness :
  ((exists errs,
       schemas.UserRegister.validate sample.bob_without_sigil
       = Raise (RequestValidationError errs)
       /\ errs <> [])
   /\ (exists msg,
         main.post_auth_register sample.env sample.bob_without_sigil sample.db
         = (Raise (Exception msg), sample.db))
   /\ main.status_code
        (fst (main.post_auth_register sample.env sample.bob_without_sigil sample.db)) = 500
   /\ ~ returned_as_validation_failure
          (main.post_auth_register sample.env sample.bob_without_sigil sample.db))
  /\ (exists body,
        main.post_auth_register sample.env
          (schemas.UserRegister.mk "@alice" "secret9" "secret9") sample.db = (Ok body, sample.db)
        /\ is_validation_failure "username" "DUPLICATE_USERNAME" body
        /\ returned_as_validation_failure
             (main.post_auth_register sample.env
                (schemas.UserRegister.mk "@alice" "secret9" "secret9") sample.db)).
Proof.
  pose proof (validation_failures_by_kind sample.env sample.db) as (H1 & H2 & _).
  split.
  - apply H1. left. reflexivity.
  - apply H2; [| reflexivity].
    intros [Hd | [Hd | [Hd | Hd]]]; try discriminate; try (vm_compute in Hd; discriminate).
    apply Hd. reflexivity.
Defined.

(** ** Derived metrics and binary floating point *)












Local Open Scope Q_scope.




Local Close Scope Q_scope.








(** The worked example of the specification: 100 kWh, 30 + 20 L of water, at
    25 per kWh give the doubles 2.0 and 2500.0. *)
Example derived_metrics_of_the_specification_example :
  routers_data.calculate_efficiency_and_cost sample.row1
  = (routers_data.PyFloat (binary64.mk (2 ^ 52) (-51)),
     routers_data.PyFloat (binary64.mk (2500 * 2 ^ 41) (-41))).
Proof. vm_compute. reflexivity. Qed.

(** The model of the conversions and of the division against the hardware:
    a hundredth, the largest value of a column, and a quotient of two
    measures are the doubles the processor computes. *)
Example of_Decimal_agrees_with_hardware :
  of_hardware (PrimFloat.div (hardware_of_Z 1) (hardware_of_Z 100))
  = Some (binary64.of_Decimal 1)
  /\ of_hardware (PrimFloat.div (hardware_of_Z 9999999999) (hardware_of_Z 100))
     = Some (binary64.of_Decimal 9999999999).
Proof. split; vm_compute; reflexivity. Qed.

Example div_agrees_with_hardware :
  of_hardware
    (PrimFloat.div (PrimFloat.div (hardware_of_Z 2307094124) (hardware_of_Z 100))
       (PrimFloat.div (hardware_of_Z 17) (hardware_of_Z 100)))
  = Some (binary64.div (binary64.of_Decimal 2307094124) (binary64.of_Decimal 17)).
Proof. vm_compute. reflexivity. Qed.

(* ------------------------------------------------------------------ *)
(** * Further properties of the handlers *)

(** ** Records that do not exist, records that are deleted *)

(** X1. An update or a delete of an id the table does not hold.  The
    handler raises 404 "Record not found", passing it on as it is and not
    wrapping it into a 500 of its own, and leaves the whole database, audit
    log included, as it was.  The client does not get the 404: the session
    dependency replaces the exception by a plain one, and the two routes,
    called with a token that authenticates and, for the update, a body that
    passes its validation, answer with status 500, the database unchanged. *)
Theorem unknown_record_id_raises_404_answered_500 :
  forall env record_id rd rq u db,
    existsb (fun r => EcoRecord.id r =? record_id) (eco_records db) = false ->
    routers_data.update_data env record_id rd rq u db
    = (Raise (HTTPException 404 "Record not found"), db)
    /\ routers_data.delete_data env record_id rq u db
       = (Raise (HTTPException 404 "Record not found"), db)
    /\ forall credentials,
         auth.get_current_user env credentials db = (Ok u, db) ->
         (forall raw,
             schemas.EcoRecordUpdate.validate raw = Ok rd ->
             (exists msg,
                 main.put_data env credentials record_id raw rq db
                 = (Raise (Exception msg), db))
             /\ main.status_code (fst (main.put_data env credentials record_id raw rq db))
                = 500)
         /\ (exists msg,
               main.delete_data_record env credentials record_id rq db
               = (Raise (Exception msg), db))
         /\ main.status_code (fst (main.delete_data_record env credentials record_id rq db))
            = 500.
Proof.
  intros env record_id rd rq u db H. apply find_not_existsb in H.
  assert (Hupdate : routers_data.update_data env record_id rd rq u db
                    = (Raise (HTTPException 404 "Record not found"), db))
    by (unfold routers_data.update_data; unfold_monad; rewrite H; reflexivity).
  assert (Hdelete : routers_data.delete_data env record_id rq u db
                    = (Raise (HTTPException 404 "Record not found"), db))
    by (unfold routers_data.delete_data; unfold_monad; rewrite H; reflexivity).
  split; [exact Hupdate |]. split; [exact Hdelete |].
  intros credentials Hu. split.
  - intros raw Hraw. unfold main.put_data.
    inside_get_db ltac:(fun request db =>
      assert (Hinner : request db = (Raise (HTTPException 404 "Record not found"), db))).
    { unfold_monad. rewrite Hu. cbv beta iota. rewrite Hraw. cbv beta iota.
      exact Hupdate. }
    destruct (get_db_raises _ _ _ _ Hinner) as (msg & Hrun & Hstatus).
    split; [exists msg; exact Hrun | exact Hstatus].
  - unfold main.delete_data_record.
    inside_get_db ltac:(fun request db =>
      assert (Hinner : request db = (Raise (HTTPException 404 "Record not found"), db))).
    { unfold_monad. rewrite Hu. cbv beta iota. exact Hdelete. }
    destruct (get_db_raises _ _ _ _ Hinner) as (msg & Hrun & Hstatus).
    split; [exists msg; exact Hrun | exact Hstatus].
Qed.

Lemma unknown_record_id_raises_404_answered_500_witness :
  routers_data.update_data sample.env 9 (schemas.EcoRecordUpdate.mk (Some 1) None None None)
    sample.request sample.alice sample.db
  = (Raise (HTTPException 404 "Record not found"), sample.db)
  /\ routers_data.delete_data sample.env 9 sample.request sample.alice sample.db
     = (Raise (HTTPException 404 "Record not found"), sample.db)
  /\ main.status_code
       (fst (main.put_data sample.env "alice-token" 9
               (schemas.EcoRecordUpdate.mk (Some 1) None None None) sample.request sample.db))
     = 500
  /\ main.status_code
       (fst (main.delete_data_record sample.env "alice-token" 9 sample.request sample.db))
     = 500.
Proof.
  destruct (unknown_record_id_raises_404_answered_500 sample.env 9
              (schemas.EcoRecordUpdate.mk (Some 1) None None None)
              sample.request sample.alice sample.db eq_refl) as (Hupdate & Hdelete & Hroutes).
  split; [exact Hupdate |]. split; [exact Hdelete |].
  destruct (Hroutes "alice-token" eq_refl) as (Hput & _ & Hstatus).
  split; [| exact Hstatus].
  exact (proj2 (Hput (schemas.EcoRecordUpdate.mk (Some 1) None None None) eq_refl)).
Defined.

Lemma remove_first_dates p rows r :
  unique_dates rows = true ->
  find p rows = Some r ->
  unique_dates (routers_data.remove_first p rows) = true
  /\ has_date (EcoRecord.date r) (routers_data.remove_first p rows) = false.
Proof.
  induction rows as [| x rows IH]; simpl; [discriminate |].
  rewrite andb_true_iff, negb_true_iff. intros [Hx Hu].
  destruct (p x) eqn:Hp.
  - intros Hr. injection Hr as <-. split; [exact Hu |]. exact Hx.
  - intros Hr. destruct (IH Hu Hr) as [IH1 IH2]. simpl. split.
    + rewrite andb_true_iff, negb_true_iff. split; [| exact IH1].
      clear - Hx. induction rows as [| y rows IH]; simpl in *; [reflexivity |].
      apply orb_false_iff in Hx. destruct Hx as [Hy Hx].
      destruct (p y); [exact Hx |]. simpl. rewrite Hy. simpl. apply IH. exact Hx.
    + unfold has_date in *. simpl. rewrite IH2, orb_false_r.
      apply find_some in Hr. destruct Hr as [Hin _].
      destruct (date.eqb (EcoRecord.date x) (EcoRecord.date r)) eqn:E; [| reflexivity].
      apply date_eqb_eq in E.
      assert (Hex : existsb (fun r' => date.eqb (EcoRecord.date r') (EcoRecord.date x)) rows
                    = true).
      { apply existsb_exists. exists r. split; [exact Hin |]. rewrite E. apply date_eqb_refl. }
      congruence.
Qed.

Lemma remove_first_length p rows r :
  find p rows = Some r ->
  S (List.length (routers_data.remove_first p rows)) = List.length rows.
Proof.
  induction rows as [| x rows IH]; simpl; [discriminate |].
  destruct (p x); [reflexivity |]. intros H. simpl. rewrite (IH H). reflexivity.
Qed.



(** ** Creating records *)

(** A create for a free date, with the commit going through, answers with
    the success body and leaves the table one row longer. *)
Lemma create_data_fresh_rows env rd rq u db :
  has_date (schemas.EcoRecordCreate.date rd) (eco_records db) = false ->
  unique_dates (eco_records db) = true ->
  commit_fault env = None ->
  exists data db',
    routers_data.create_data env rd rq u db
    = (Ok (JDict [ ("success", JBool true);
                   ("message", JStr "Data record created successfully");
                   ("data", data) ]), db')
    /\ eco_records db'
       = eco_records db
         ++ routers_data.flush_new env (eco_records_seq db)
              [routers_data.new_EcoRecord rd (User.id u)].
Proof.
  intros Hfresh Huniq Hcommit.
  unfold routers_data.create_data, commit, routers_data.format_record_response. unfold_monad.
  rewrite (find_not_existsb _ _ Hfresh), Hcommit.
  cbn [routers_data.flush_new hd routers_data.new_EcoRecord EcoRecord.date
       EcoRecord.power_consumption EcoRecord.drinking_water EcoRecord.irrigation_water
       EcoRecord.electricity_price EcoRecord.created_by EcoRecord.updated_by EcoRecord.id].
  rewrite unique_dates_snoc by assumption.
  destruct (routers_data.get_client_ip rq) as [ip | e].
  - rewrite log_operation_run.
    destruct (log_fault env); do 2 eexists; (split; [reflexivity |]); reflexivity.
  - do 2 eexists. split; reflexivity.
Qed.

(** X3. A create for a date without a record, when the commit goes through,
    appends exactly one row: the request's date and four measures, the next
    id of the sequence, the caller as creator, no updater, the server time
    as both timestamps; the sequence advances by one, the users are left
    alone, and the answer is a success body.  The audit log gets one CREATE
    entry for the new id, or nothing when the client address is unknown or
    the audit write fails. *)
Theorem create_data_appends_the_record :
  forall env rd rq u db,
    has_date (schemas.EcoRecordCreate.date rd) (eco_records db) = false ->
    unique_dates (eco_records db) = true ->
    commit_fault env = None ->
    exists data db',
      routers_data.create_data env rd rq u db
      = (Ok (JDict [ ("success", JBool true);
                     ("message", JStr "Data record created successfully");
                     ("data", data) ]), db')
      /\ eco_records db'
         = eco_records db
           ++ [ EcoRecord.mk (eco_records_seq db) (schemas.EcoRecordCreate.date rd)
                  (schemas.EcoRecordCreate.powerConsumption rd)
                  (schemas.EcoRecordCreate.drinkingWater rd)
                  (schemas.EcoRecordCreate.irrigationWater rd)
                  (schemas.EcoRecordCreate.electricityPrice rd)
                  (User.id u) None (func_now env) (func_now env) ]
      /\ eco_records_seq db' = eco_records_seq db + 1
      /\ users db' = users db
      /\ json_get "id" data = Some (JInt (eco_records_seq db))
      /\ match routers_data.get_client_ip rq, log_fault env with
         | Ok ip, None =>
             exists entry,
               operation_logs db' = operation_logs db ++ [entry]
               /\ OperationLog.action entry = "CREATE"
               /\ OperationLog.user_id entry = User.id u
               /\ OperationLog.record_id entry = Some (eco_records_seq db)
               /\ OperationLog.ip_address entry = Some ip
         | _, _ => operation_logs db' = operation_logs db
         end.
Proof.
  intros env rd rq u db Hfresh Huniq Hcommit.
  unfold routers_data.create_data, commit, routers_data.format_record_response. unfold_monad.
  rewrite (find_not_existsb _ _ Hfresh), Hcommit.
  cbn [routers_data.flush_new hd routers_data.new_EcoRecord EcoRecord.date
       EcoRecord.power_consumption EcoRecord.drinking_water EcoRecord.irrigation_water
       EcoRecord.electricity_price EcoRecord.created_by EcoRecord.updated_by EcoRecord.id].
  rewrite unique_dates_snoc by assumption.
  destruct (routers_data.get_client_ip rq) as [ip | e].
  - rewrite log_operation_run.
    destruct (log_fault env) eqn:Hlog; simpl_db.
    + do 2 eexists. split; [reflexivity |]. simpl_db.
      repeat (split; [reflexivity |]). reflexivity.
    + do 2 eexists. split; [reflexivity |]. simpl_db.
      repeat (split; [reflexivity |]). eexists. repeat split.
  - do 2 eexists. split; [reflexivity |]. simpl_db.
    repeat (split; [reflexivity |]). reflexivity.
Qed.

Lemma create_data_appends_the_record_witness :
  exists data db',
    routers_data.create_data sample.env sample.create_jan3 sample.request sample.alice sample.db
    = (Ok (JDict [ ("success", JBool true);
                   ("message", JStr "Data record created successfully");
                   ("data", data) ]), db')
    /\ eco_records db'
       = [ sample.row1; sample.row2;
           EcoRecord.mk 3 (sample.jan 3) 500 100 100 2500 1 None (sample.noon 5) (sample.noon 5) ]
    /\ eco_records_seq db' = 4.
Proof.
  destruct (create_data_appends_the_record sample.env sample.create_jan3 sample.request
              sample.alice sample.db eq_refl eq_refl eq_refl)
    as (data & db' & H1 & H2 & H3 & _).
  exists data, db'. repeat split; assumption.
Defined.

(** X4. Two creates for one date: once the first has gone through, a
    second create for that date, by anyone and with any measures, is answered
    with the DUPLICATE_DATE failure and changes nothing. *)
Theorem second_create_for_a_date_is_refused :
  forall env rd rq u db env' rd' rq' u',
    has_date (schemas.EcoRecordCreate.date rd) (eco_records db) = false ->
    unique_dates (eco_records db) = true ->
    commit_fault env = None ->
    schemas.EcoRecordCreate.date rd' = schemas.EcoRecordCreate.date rd ->
    let db1 := snd (routers_data.create_data env rd rq u db) in
    exists body,
      routers_data.create_data env' rd' rq' u' db1 = (Ok body, db1)
      /\ is_validation_failure "date" "DUPLICATE_DATE" body.
Proof.
  intros env rd rq u db env' rd' rq' u' Hfresh Huniq Hcommit Hdate db1.
  destruct (create_data_fresh_rows env rd rq u db Hfresh Huniq Hcommit)
    as (data & db' & Hrun & Hrows).
  subst db1. rewrite Hrun. cbn [snd].
  assert (Hhas : has_date (schemas.EcoRecordCreate.date rd') (eco_records db') = true).
  { rewrite Hrows, has_date_app, Hdate. simpl. rewrite date_eqb_refl. apply orb_true_r. }
  destruct (find_existsb _ _ Hhas) as (r & Hfind & _).
  unfold routers_data.create_data. unfold_monad. rewrite Hfind.
  eexists. split; [reflexivity |]. repeat split. eexists. repeat split.
Qed.

Lemma second_create_for_a_date_is_refused_witness :
  let db1 := snd (routers_data.create_data sample.env sample.create_jan3 sample.request
                    sample.alice sample.db) in
  exists body,
    routers_data.create_data sample.env_log_down sample.create_jan3_again sample.request
      sample.root db1 = (Ok body, db1)
    /\ is_validation_failure "date" "DUPLICATE_DATE" body.
Proof.
  apply (second_create_for_a_date_is_refused sample.env sample.create_jan3 sample.request
           sample.alice sample.db sample.env_log_down sample.create_jan3_again sample.request
           sample.root); reflexivity.
Defined.

(** X5. Deleting a record and then creating one for the same date succeeds:
    the deletion leaves nothing behind that blocks the date.  This holds
    whatever becomes of the audit writes and even if the deletion answered
    500 because the client address could not be read after its commit. *)
Theorem create_after_delete_succeeds :
  forall env record_id rq u db record env' rd rq' u',
    find (fun r => EcoRecord.id r =? record_id) (eco_records db) = Some record ->
    unique_dates (eco_records db) = true ->
    commit_fault env = None ->
    commit_fault env' = None ->
    schemas.EcoRecordCreate.date rd = EcoRecord.date record ->
    let db1 := snd (routers_data.delete_data env record_id rq u db) in
    exists data db2,
      routers_data.create_data env' rd rq' u' db1
      = (Ok (JDict [ ("success", JBool true);
                     ("message", JStr "Data record created successfully");
                     ("data", data) ]), db2)
      /\ has_date (EcoRecord.date record) (eco_records db2) = true
      /\ List.length (eco_records db2) = List.length (eco_records db).
Proof.
  intros env record_id rq u db record env' rd rq' u' Hfind Huniq Hcommit Hcommit' Hdate db1.
  destruct (remove_first_dates _ _ _ Huniq Hfind) as [Hu' Hfree].
  assert (Hrows : eco_records db1
                  = routers_data.remove_first (fun r => EcoRecord.id r =? record_id)
                      (eco_records db)).
  { subst db1. unfold routers_data.delete_data, commit. unfold_monad.
    rewrite Hfind, Hcommit. cbv beta iota. rewrite Hu'.
    destruct (routers_data.get_client_ip rq) as [ip | e].
    - rewrite log_operation_run. destruct (log_fault env); reflexivity.
    - destruct e; reflexivity. }
  clearbody db1.
  destruct (create_data_fresh_rows env' rd rq' u' db1) as (data & db2 & Hrun & Hr2).
  - rewrite Hrows, Hdate. exact Hfree.
  - rewrite Hrows. exact Hu'.
  - exact Hcommit'.
  - exists data, db2. split; [exact Hrun |]. rewrite Hr2, Hrows. split.
    + rewrite has_date_app. simpl. rewrite Hdate, date_eqb_refl. apply orb_true_r.
    + rewrite length_app. simpl. rewrite <- (remove_first_length _ _ _ Hfind). lia.
Qed.

Lemma create_after_delete_succeeds_witness :
  let db1 := snd (routers_data.delete_data sample.env 1 sample.request sample.alice sample.db) in
  exists data db2,
    routers_data.create_data sample.env sample.create_jan1 sample.request sample.root db1
    = (Ok (JDict [ ("success", JBool true);
                   ("message", JStr "Data record created successfully");
                   ("data", data) ]), db2)
    /\ has_date (sample.jan 1) (eco_records db2) = true
    /\ List.length (eco_records db2) = 2%nat.
Proof.
  apply (create_after_delete_succeeds sample.env 1 sample.request sample.alice sample.db
           sample.row1 sample.env sample.create_jan1 sample.request sample.root); reflexivity.
Defined.

(** ** The audit log and the users under the record routes *)

Ltac run_route :=
  repeat match goal with
         | |- context [find ?p (eco_records ?db)] => destruct (find p (eco_records db))
         | |- context [commit_fault ?env] => destruct (commit_fault env) as [[] |]
         | |- context [if unique_dates ?rows then _ else _] => destruct (unique_dates rows)
         | |- context [routers_data.get_client_ip ?rq] =>
             destruct (routers_data.get_client_ip rq) as [? | []]
         | |- context [auth.log_operation] => rewrite log_operation_run
         | |- context [log_fault ?env] => destruct (log_fault env)
         end.

Ltac discipline :=
  unfold audit_discipline; simpl_db;
  split; [reflexivity |]; split; [reflexivity |];
  first [ left; reflexivity | right; do 2 eexists; repeat split; reflexivity ].

(** X6. None of the five record routes touches the users, and each leaves
    the audit log as it was or with one more entry at its end.  An entry
    gets the counter's key, names the caller and the table, and is only ever
    written for an operation that is then answered with a success body: no
    failed operation is on record. *)
Theorem record_routes_audit_discipline :
  forall env rq u db,
    (forall rd, audit_discipline u db (routers_data.create_data env rd rq u db))
    /\ (forall rid rd, audit_discipline u db (routers_data.update_data env rid rd rq u db))
    /\ (forall rid, audit_discipline u db (routers_data.delete_data env rid rq u db))
    /\ (forall cr, audit_discipline u db (routers_data.clear_all_data env cr rq u db))
    /\ (forall imp, audit_discipline u db (routers_data.import_data env imp rq u db)).
Proof.
  intros env rq u db. repeat apply conj; intros.
  - unfold routers_data.create_data, commit, routers_data.format_record_response.
    unfold_monad. run_route; discipline.
  - unfold routers_data.update_data, commit, routers_data.format_record_response.
    unfold_monad. run_route; discipline.
  - unfold routers_data.delete_data, commit. unfold_monad. run_route; discipline.
  - unfold routers_data.clear_all_data, commit. unfold_monad. run_route; discipline.
  - unfold routers_data.import_data, commit. unfold_monad. run_route; discipline.
Qed.

(** ** The primary key of the records *)

Lemma update_first_ids p f rows :
  (forall r, In r rows -> p r = true -> EcoRecord.id (f r) = EcoRecord.id r) ->
  map EcoRecord.id (routers_data.update_first p f rows) = map EcoRecord.id rows.
Proof.
  induction rows as [| x rows IH]; simpl; [reflexivity |]. intros H.
  destruct (p x) eqn:Hp; simpl.
  - rewrite (H x (or_introl eq_refl) Hp). reflexivity.
  - rewrite IH; [reflexivity |]. intros r Hr. apply H. right. exact Hr.
Qed.

Lemma remove_first_ids_incl p rows i :
  In i (map EcoRecord.id (routers_data.remove_first p rows)) -> In i (map EcoRecord.id rows).
Proof.
  induction rows as [| x rows IH]; simpl; [tauto |].
  destruct (p x); simpl; tauto.
Qed.

Lemma remove_first_ids_NoDup p rows :
  NoDup (map EcoRecord.id rows) -> NoDup (map EcoRecord.id (routers_data.remove_first p rows)).
Proof.
  induction rows as [| x rows IH]; simpl; [trivial |].
  intros H. inversion H as [| ? ? Hnotin Hrest]; subst.
  destruct (p x); simpl; [assumption |].
  constructor; [| apply IH; assumption].
  intros Hin. apply Hnotin. apply (remove_first_ids_incl p). exact Hin.
Qed.

Lemma flush_new_ids env seq pending i :
  In i (map EcoRecord.id (routers_data.flush_new env seq pending)) ->
  seq <= i < seq + Z.of_nat (List.length pending).
Proof.
  revert seq. induction pending as [| r pending IH]; intros seq; simpl; [tauto |].
  intros [<- | Hin]; [lia |]. apply IH in Hin. lia.
Qed.

Lemma flush_new_ids_NoDup env seq pending :
  NoDup (map EcoRecord.id (routers_data.flush_new env seq pending)).
Proof.
  revert seq. induction pending as [| r pending IH]; intros seq; simpl; constructor.
  - intros Hin. apply flush_new_ids in Hin. lia.
  - apply IH.
Qed.

(** The keys after a commit that keeps the rows' keys, or a part of them,
    and inserts the pending rows. *)
Lemma primary_keys_commit env db kept pending :
  primary_keys db ->
  NoDup (map EcoRecord.id kept) ->
  (forall i, In i (map EcoRecord.id kept) -> In i (map EcoRecord.id (eco_records db))) ->
  forall db',
    users db' = users db ->
    eco_records db'
    = kept ++ routers_data.flush_new env (eco_records_seq db) pending ->
    eco_records_seq db' = eco_records_seq db + Z.of_nat (List.length pending) ->
    primary_keys db'.
Proof.
  intros [Hnd Hlt] Hkept Hincl db' _ Hrows Hseq. unfold primary_keys.
  rewrite Hrows, Hseq, map_app. split.
  - apply NoDup_app; [assumption | apply flush_new_ids_NoDup |].
    intros i Hi Hnew. apply flush_new_ids in Hnew.
    apply Hincl in Hi. pose proof (proj1 (Forall_forall _ _) Hlt i Hi). simpl in *. lia.
  - apply Forall_app. split; apply Forall_forall; intros i Hi.
    + apply Hincl in Hi. pose proof (proj1 (Forall_forall _ _) Hlt i Hi). simpl in *. lia.
    + apply flush_new_ids in Hi. lia.
Qed.

Lemma import_record_ids env overwrite u st n rd :
  map EcoRecord.id (routers_data.session_rows (routers_data.import_record env overwrite u st n rd))
  = map EcoRecord.id (routers_data.session_rows st).
Proof.
  unfold routers_data.import_record, routers_data.import_record_try.
  destruct (query_fault env n); [reflexivity |].
  destruct (find _ (routers_data.session_rows st)); [| reflexivity].
  destruct overwrite; [| reflexivity].
  cbn [routers_data.session_rows]. apply update_first_ids. reflexivity.
Qed.

Lemma import_loop_ids env overwrite u records :
  forall st n,
    map EcoRecord.id
      (routers_data.session_rows (routers_data.import_loop env overwrite u st n records))
    = map EcoRecord.id (routers_data.session_rows st).
Proof.
  induction records as [| rd records IH]; intros st n; simpl; [reflexivity |].
  rewrite IH. apply import_record_ids.
Qed.

Lemma primary_keys_unchanged db db' :
  primary_keys db ->
  eco_records db' = eco_records db -> eco_records_seq db' = eco_records_seq db ->
  primary_keys db'.
Proof. unfold primary_keys. intros H -> ->. exact H. Qed.

Ltac keys_unchanged H :=
  simpl_db; first [ exact H | apply (primary_keys_unchanged _ _ H); reflexivity ].

(** X7. Ids are a key.  If no two records share an id and every id is
    below the counter, this is so again after any of the five record routes,
    whatever the request and however the run ends: a create or an import
    takes its ids from the counter and moves the counter past them, an
    update or an overwriting import keeps the id of the row it writes, a
    delete only removes. *)
Theorem record_routes_keep_ids_a_key :
  forall env rq u db,
    primary_keys db ->
    (forall rd, primary_keys (snd (routers_data.create_data env rd rq u db)))
    /\ (forall rid rd, primary_keys (snd (routers_data.update_data env rid rd rq u db)))
    /\ (forall rid, primary_keys (snd (routers_data.delete_data env rid rq u db)))
    /\ (forall cr, primary_keys (snd (routers_data.clear_all_data env cr rq u db)))
    /\ (forall imp, primary_keys (snd (routers_data.import_data env imp rq u db))).
Proof.
  intros env rq u db Hkeys. repeat apply conj; intros.
  - assert (Hnew : forall db',
              users db' = users db ->
              eco_records db'
              = eco_records db
                ++ routers_data.flush_new env (eco_records_seq db)
                     [routers_data.new_EcoRecord rd (User.id u)] ->
              eco_records_seq db' = eco_records_seq db + 1 -> primary_keys db').
    { intros db' Hu Hr Hs.
      apply (primary_keys_commit env db (eco_records db)
               [routers_data.new_EcoRecord rd (User.id u)] Hkeys (proj1 Hkeys)
               (fun i H => H) db' Hu Hr).
      rewrite Hs. reflexivity. }
    unfold routers_data.create_data, commit, routers_data.format_record_response.
    unfold_monad. run_route;
      first [ keys_unchanged Hkeys | apply Hnew; reflexivity ].
  - unfold routers_data.update_data, commit, routers_data.format_record_response.
    unfold_monad.
    destruct (find _ (eco_records db)) as [record |] eqn:Hfind; [| exact Hkeys].
    apply find_some_In in Hfind. destruct Hfind as [_ Hid]. apply Z.eqb_eq in Hid.
    match goal with
    | |- context [routers_data.update_first ?p ?f (eco_records db)] =>
        assert (Hids : map EcoRecord.id (routers_data.update_first p f (eco_records db))
                       = map EcoRecord.id (eco_records db))
    end.
    { apply update_first_ids. intros r _ Hr. apply Z.eqb_eq in Hr.
      rewrite Hr, <- Hid.
      destruct (schemas.EcoRecordUpdate.powerConsumption rd),
               (schemas.EcoRecordUpdate.drinkingWater rd),
               (schemas.EcoRecordUpdate.irrigationWater rd),
               (schemas.EcoRecordUpdate.electricityPrice rd); reflexivity. }
    assert (Hnew : forall db',
              map EcoRecord.id (eco_records db') = map EcoRecord.id (eco_records db) ->
              eco_records_seq db' = eco_records_seq db -> primary_keys db').
    { unfold primary_keys. intros db' -> ->. exact Hkeys. }
    run_route; first [ keys_unchanged Hkeys | apply Hnew; [exact Hids | reflexivity] ].
  - assert (Hnew : forall db' p,
              eco_records db' = routers_data.remove_first p (eco_records db) ->
              eco_records_seq db' = eco_records_seq db -> primary_keys db').
    { unfold primary_keys. intros db' p -> ->. destruct Hkeys as [Hnd Hlt]. split.
      - apply remove_first_ids_NoDup. exact Hnd.
      - apply Forall_forall. intros i Hi. apply remove_first_ids_incl in Hi.
        exact (proj1 (Forall_forall _ _) Hlt i Hi). }
    unfold routers_data.delete_data, commit. unfold_monad.
    run_route; first [ keys_unchanged Hkeys | eapply Hnew; reflexivity ].
  - assert (Hnew : forall db',
              eco_records db' = [] -> eco_records_seq db' = eco_records_seq db ->
              primary_keys db').
    { unfold primary_keys. intros db' -> _. split; constructor. }
    unfold routers_data.clear_all_data, commit. unfold_monad.
    run_route; first [ keys_unchanged Hkeys | apply Hnew; reflexivity ].
  - set (st := routers_data.import_loop env (schemas.EcoRecordImport.overwriteExisting imp) u
                 (routers_data.mkImportState 0 0 0 [] (eco_records db) []) 0
                 (schemas.EcoRecordImport.records imp)).
    assert (Hids : map EcoRecord.id (routers_data.session_rows st)
                   = map EcoRecord.id (eco_records db)).
    { subst st. rewrite import_loop_ids. reflexivity. }
    assert (Hnew : forall db',
              users db' = users db ->
              eco_records db'
              = routers_data.session_rows st
                ++ routers_data.flush_new env (eco_records_seq db) (routers_data.session_new st) ->
              eco_records_seq db'
              = eco_records_seq db + Z.of_nat (List.length (routers_data.session_new st)) ->
              primary_keys db').
    { apply (primary_keys_commit env db _ _ Hkeys).
      - rewrite Hids. exact (proj1 Hkeys).
      - intros i. rewrite Hids. trivial. }
    unfold routers_data.import_data, commit. unfold_monad. fold st.
    run_route; first [ keys_unchanged Hkeys | apply Hnew; reflexivity ].
Qed.

Lemma record_routes_keep_ids_a_key_witness :
  primary_keys sample.db
  /\ primary_keys
       (snd (routers_data.create_data sample.env sample.create_jan3 sample.request
               sample.alice sample.db))
  /\ primary_keys
       (snd (routers_data.import_data sample.env sample.batch_same_day sample.request
               sample.alice sample.db)).
Proof.
  assert (H : primary_keys sample.db).
  { split; simpl.
    - repeat constructor; simpl; intuition discriminate.
    - repeat constructor. }
  split; [exact H |].
  destruct (record_routes_keep_ids_a_key sample.env sample.request sample.alice sample.db H)
    as (Hc & _ & _ & _ & Hi).
  split; [apply Hc | apply Hi].
Defined.

(** ** The client address *)

Lemma get_client_ip_raises rq e :
  routers_data.get_client_ip rq = Raise e ->
  e = AttributeError "'NoneType' object has no attribute 'host'"
  /\ client_host rq = None
  /\ (x_forwarded_for rq = None \/ x_forwarded_for rq = Some "").
Proof.
  unfold routers_data.get_client_ip, truthy_str.
  destruct (x_forwarded_for rq) as [f |]; destruct (client_host rq) as [h |];
    try destruct (String.eqb_spec f ""); subst; simpl; intros H;
    try discriminate; injection H as <-; auto.
Qed.

Ltac run_route_twice :=
  repeat match goal with
         | |- context [find ?p (eco_records ?db)] => destruct (find p (eco_records db))
         | |- context [commit_fault ?env] => destruct (commit_fault env) as [[] |]
         | |- context [if unique_dates ?rows then _ else _] => destruct (unique_dates rows)
         | |- context [auth.log_operation] => rewrite log_operation_run
         | |- context [log_fault ?env] => destruct (log_fault env)
         end.

(** X8. A request whose client address cannot be read (no forwarding
    header, no peer), compared with the same request sent from a known
    address.  A create is answered alike and leaves the same records, only
    without an audit entry.  For the other four routes the address is read
    after the commit and outside any inner handler: where the request from
    the known address succeeds, the other one is answered 500, and yet the
    records are changed in the same way; the change is on no audit entry. *)
Theorem unreadable_client_address_fails_after_the_commit :
  forall env rq rq' u db e ip,
    routers_data.get_client_ip rq = Raise e ->
    routers_data.get_client_ip rq' = Ok ip ->
    let late (run run' : result json * Db) (detail : string) :=
      forall body, fst run' = Ok body ->
        fst run = Raise (HTTPException 500 detail)
        /\ eco_records (snd run) = eco_records (snd run')
        /\ eco_records_seq (snd run) = eco_records_seq (snd run')
        /\ operation_logs (snd run) = operation_logs db in
    (forall rd,
       fst (routers_data.create_data env rd rq u db)
       = fst (routers_data.create_data env rd rq' u db)
       /\ eco_records (snd (routers_data.create_data env rd rq u db))
          = eco_records (snd (routers_data.create_data env rd rq' u db))
       /\ operation_logs (snd (routers_data.create_data env rd rq u db)) = operation_logs db)
    /\ (forall rid rd,
          late (routers_data.update_data env rid rd rq u db)
               (routers_data.update_data env rid rd rq' u db) "Failed to update data record")
    /\ (forall rid,
          late (routers_data.delete_data env rid rq u db)
               (routers_data.delete_data env rid rq' u db) "Failed to delete data record")
    /\ (forall cr,
          late (routers_data.clear_all_data env cr rq u db)
               (routers_data.clear_all_data env cr rq' u db) "Failed to clear all data")
    /\ (forall imp,
          late (routers_data.import_data env imp rq u db)
               (routers_data.import_data env imp rq' u db) "Failed to import data").
Proof.
  intros env rq rq' u db e ip Hrq Hrq' late.
  destruct (get_client_ip_raises rq e Hrq) as (-> & _ & _). subst late. cbv beta.
  repeat apply conj.
  - intros rd. unfold routers_data.create_data, commit, routers_data.format_record_response.
    unfold_monad. rewrite Hrq, Hrq'. run_route_twice; repeat split.
  - intros rid rd.
    unfold routers_data.update_data, commit, routers_data.format_record_response.
    unfold_monad. rewrite Hrq, Hrq'. run_route_twice; simpl; intros body Hbody;
      try discriminate; repeat split.
  - intros rid. unfold routers_data.delete_data, commit.
    unfold_monad. rewrite Hrq, Hrq'. run_route_twice; simpl; intros body Hbody;
      try discriminate; repeat split.
  - intros cr. unfold routers_data.clear_all_data, commit.
    unfold_monad. rewrite Hrq, Hrq'. run_route_twice; simpl; intros body Hbody;
      try discriminate; repeat split.
  - intros imp. unfold routers_data.import_data, commit.
    unfold_monad. rewrite Hrq, Hrq'. run_route_twice; simpl; intros body Hbody;
      try discriminate; repeat split.
Qed.

Lemma unreadable_client_address_fails_after_the_commit_witness :
  routers_data.delete_data sample.env 1 (mkRequest None None) sample.alice sample.db
  = (Raise (HTTPException 500 "Failed to delete data record"),
     mkDb [sample.alice; sample.root] [sample.row2] [sample.log1; sample.log2] 3 3 3)
  /\ fst (routers_data.delete_data sample.env 1 sample.request sample.alice sample.db)
     = Ok (JDict [ ("success", JBool true);
                   ("message", JStr "Data record deleted successfully") ])
  /\ eco_records
       (snd (routers_data.delete_data sample.env 1 (mkRequest None None) sample.alice sample.db))
     = eco_records
         (snd (routers_data.delete_data sample.env 1 sample.request sample.alice sample.db)).
Proof.
  split; [reflexivity |]. split; [reflexivity |].
  destruct (unreadable_client_address_fails_after_the_commit sample.env (mkRequest None None)
              sample.request sample.alice sample.db _ _ eq_refl eq_refl)
    as (_ & _ & Hdelete & _).
  destruct (Hdelete 1 _ eq_refl) as (_ & Hrows & _). exact Hrows.
Defined.

Lemma split_comma_head_no_comma s : has_comma (split_comma_head s) = false.
Proof.
  induction s as [| c s IH]; simpl; [reflexivity |].
  destruct (Ascii.eqb c ",") eqn:Hc; simpl; [reflexivity |]. rewrite Hc. exact IH.
Qed.

Lemma split_comma_head_first entry rest :
  has_comma entry = false ->
  split_comma_head (entry ++ String "," rest)%string = entry.
Proof.
  induction entry as [| c entry IH]; simpl; [reflexivity |].
  destruct (Ascii.eqb c ","); simpl; [discriminate |]. intros H. rewrite IH; trivial.
Qed.

Lemma lstrip_no_comma s : has_comma s = false -> has_comma (lstrip s) = false.
Proof.
  induction s as [| c s IH]; simpl; [trivial |].
  destruct (Ascii.eqb c ",") eqn:Hc; simpl; [discriminate |].
  intros H. destruct (is_space c); [auto | simpl; rewrite Hc; exact H].
Qed.

Lemma rev_string_no_comma s :
  forall acc, has_comma acc = false -> has_comma s = false ->
              has_comma (rev_string acc s) = false.
Proof.
  induction s as [| c s IH]; simpl; [trivial |]. intros acc Hacc H.
  apply orb_false_iff in H. destruct H as [Hc Hs].
  apply IH; [simpl; rewrite Hc; exact Hacc | exact Hs].
Qed.

Lemma strip_no_comma s : has_comma s = false -> has_comma (strip s) = false.
Proof.
  intros H. unfold strip.
  apply rev_string_no_comma; [reflexivity |]. apply lstrip_no_comma.
  apply rev_string_no_comma; [reflexivity |]. apply lstrip_no_comma. exact H.
Qed.

(** X9. A forwarding header that is not empty decides the address alone:
    the address is the header's first comma-separated entry with the blanks
    around it removed, it holds no comma, the peer of the connection is not
    looked at (the same address comes out for any peer and for none), and
    reading it cannot fail. *)
Theorem forwarded_header_decides_the_client_address :
  forall forwarded host host',
    forwarded <> "" ->
    exists ip,
      routers_data.get_client_ip (mkRequest (Some forwarded) host) = Ok ip
      /\ routers_data.get_client_ip (mkRequest (Some forwarded) host') = Ok ip
      /\ has_comma ip = false
      /\ (has_comma forwarded = false -> ip = strip forwarded)
      /\ (forall entry rest,
            forwarded = (entry ++ String "," rest)%string -> has_comma entry = false ->
            ip = strip entry).
Proof.
  intros forwarded host host' Hne.
  assert (Ht : truthy_str forwarded = true).
  { unfold truthy_str. destruct (String.eqb_spec forwarded ""); [contradiction | reflexivity]. }
  exists (strip (split_comma_head forwarded)).
  unfold routers_data.get_client_ip. cbn [x_forwarded_for client_host]. rewrite Ht.
  split; [destruct host; reflexivity |]. split; [destruct host'; reflexivity |].
  split; [apply strip_no_comma, split_comma_head_no_comma |]. split.
  - intros H. f_equal. clear Hne Ht. induction forwarded as [| c s IH]; simpl in *; trivial.
    destruct (Ascii.eqb c ","); simpl in *; [discriminate |]. rewrite IH; trivial.
  - intros entry rest -> Hentry. rewrite split_comma_head_first; trivial.
Qed.

Lemma forwarded_header_decides_the_client_address_witness :
  exists ip,
    routers_data.get_client_ip (mkRequest (Some " 203.0.113.9 , 10.0.0.1") (Some "10.0.0.7"))
    = Ok ip
    /\ routers_data.get_client_ip (mkRequest (Some " 203.0.113.9 , 10.0.0.1") None) = Ok ip
    /\ ip = "203.0.113.9".
Proof.
  destruct (forwarded_header_decides_the_client_address " 203.0.113.9 , 10.0.0.1"
              (Some "10.0.0.7") None) as (ip & H1 & H2 & _ & _ & H3); [discriminate |].
  exists ip. split; [exact H1 |]. split; [exact H2 |].
  exact (H3 " 203.0.113.9 " " 10.0.0.1" eq_refl eq_refl).
Defined.

(** ** What an import does to the table *)

Lemma update_first_map {B} (key : EcoRecord.t -> B) p f rows :
  (forall r, key (f r) = key r) ->
  map key (routers_data.update_first p f rows) = map key rows.
Proof.
  intros H. induction rows as [| x rows IH]; simpl; [reflexivity |].
  destruct (p x); simpl; [rewrite H | rewrite IH]; reflexivity.
Qed.

Lemma import_record_rows {B} (key : EcoRecord.t -> B) env overwrite u st n rd :
  kept_by_overwrite key ->
  let st' := routers_data.import_record env overwrite u st n rd in
  map key (routers_data.session_rows st') = map key (routers_data.session_rows st)
  /\ (overwrite = false -> routers_data.session_rows st' = routers_data.session_rows st)
  /\ exists pending,
       routers_data.session_new st' = routers_data.session_new st ++ pending
       /\ Forall (fun r => r = routers_data.new_EcoRecord rd (User.id u)) pending.
Proof.
  intros Hkey st'. subst st'.
  unfold routers_data.import_record, routers_data.import_record_try.
  assert (Hnil : forall l : list EcoRecord.t,
            exists pending, l = l ++ pending
              /\ Forall (fun r => r = routers_data.new_EcoRecord rd (User.id u)) pending).
  { intros l. exists []. rewrite app_nil_r. split; [reflexivity | constructor]. }
  destruct (query_fault env n); [simpl; auto |].
  destruct (find _ (routers_data.session_rows st)).
  - destruct overwrite; simpl; [| auto].
    split; [apply update_first_map; intros r; apply Hkey |]. split; [discriminate | auto].
  - simpl. split; [reflexivity |]. split; [reflexivity |].
    eexists. split; [reflexivity |]. repeat constructor.
Qed.

Lemma import_loop_rows {B} (key : EcoRecord.t -> B) env overwrite u records :
  kept_by_overwrite key ->
  forall st n,
    let st' := routers_data.import_loop env overwrite u st n records in
    map key (routers_data.session_rows st') = map key (routers_data.session_rows st)
    /\ (overwrite = false -> routers_data.session_rows st' = routers_data.session_rows st)
    /\ exists pending,
         routers_data.session_new st' = routers_data.session_new st ++ pending
         /\ Forall (fun r => exists rd, In rd records
                                        /\ r = routers_data.new_EcoRecord rd (User.id u))
              pending.
Proof.
  intros Hkey. induction records as [| rd records IH]; intros st n; simpl.
  - split; [reflexivity |]. split; [reflexivity |].
    exists []. rewrite app_nil_r. split; [reflexivity | constructor].
  - destruct (import_record_rows key env overwrite u st n rd Hkey) as (H1 & H2 & p1 & H3 & H4).
    destruct (IH (routers_data.import_record env overwrite u st n rd) (S n))
      as (K1 & K2 & p2 & K3 & K4).
    split; [rewrite K1; exact H1 |].
    split; [intros Ho; rewrite (K2 Ho); exact (H2 Ho) |].
    exists (p1 ++ p2). split; [rewrite K3, H3, app_assoc; reflexivity |].
    apply Forall_app. split.
    + eapply Forall_impl; [| exact H4]. intros r ->. exists rd. auto.
    + eapply Forall_impl; [| exact K4]. intros r (rd' & Hin & ->). exists rd'. auto.
Qed.

Lemma flush_new_map {B} (key : EcoRecord.t -> B) env seq pending :
  (forall r i t t', key (EcoRecord.mk i (EcoRecord.date r) (EcoRecord.power_consumption r)
                           (EcoRecord.drinking_water r) (EcoRecord.irrigation_water r)
                           (EcoRecord.electricity_price r) (EcoRecord.created_by r)
                           (EcoRecord.updated_by r) t t') = key r) ->
  map key (routers_data.flush_new env seq pending) = map key pending.
Proof.
  intros H. revert seq. induction pending as [| r pending IH]; intros seq; simpl;
    [reflexivity |]. rewrite H, IH. reflexivity.
Qed.

(** X10. An import never removes a record and never moves one to another
    day, whatever the batch and however the run ends: the table afterwards
    is the rows that were there, in their order and with their id, date,
    creator and creation time, followed by the rows inserted.  Without
    [overwriteExisting] the rows that were there are left exactly as they
    were.  Every row inserted is made from a record of the batch and is
    created by the caller. *)
Theorem import_data_keeps_the_existing_rows :
  forall env imp rq u db,
    exists kept pending,
      eco_records (snd (routers_data.import_data env imp rq u db))
      = kept ++ routers_data.flush_new env (eco_records_seq db) pending
      /\ map EcoRecord.id kept = map EcoRecord.id (eco_records db)
      /\ map EcoRecord.date kept = map EcoRecord.date (eco_records db)
      /\ map EcoRecord.created_by kept = map EcoRecord.created_by (eco_records db)
      /\ map EcoRecord.created_at kept = map EcoRecord.created_at (eco_records db)
      /\ (schemas.EcoRecordImport.overwriteExisting imp = false -> kept = eco_records db)
      /\ Forall (fun r => exists rd, In rd (schemas.EcoRecordImport.records imp)
                                     /\ r = routers_data.new_EcoRecord rd (User.id u))
           pending.
Proof.
  intros env imp rq u db.
  set (st := routers_data.import_loop env (schemas.EcoRecordImport.overwriteExisting imp) u
               (routers_data.mkImportState 0 0 0 [] (eco_records db) []) 0
               (schemas.EcoRecordImport.records imp)).
  assert (Hnone : exists kept pending,
            eco_records db = kept ++ routers_data.flush_new env (eco_records_seq db) pending
            /\ map EcoRecord.id kept = map EcoRecord.id (eco_records db)
            /\ map EcoRecord.date kept = map EcoRecord.date (eco_records db)
            /\ map EcoRecord.created_by kept = map EcoRecord.created_by (eco_records db)
            /\ map EcoRecord.created_at kept = map EcoRecord.created_at (eco_records db)
            /\ (schemas.EcoRecordImport.overwriteExisting imp = false -> kept = eco_records db)
            /\ Forall (fun r => exists rd, In rd (schemas.EcoRecordImport.records imp)
                                           /\ r = routers_data.new_EcoRecord rd (User.id u))
                 pending).
  { exists (eco_records db), []. simpl. rewrite app_nil_r. repeat split; constructor. }
  assert (Hdone : exists kept pending,
            routers_data.session_rows st
            ++ routers_data.flush_new env (eco_records_seq db) (routers_data.session_new st)
            = kept ++ routers_data.flush_new env (eco_records_seq db) pending
            /\ map EcoRecord.id kept = map EcoRecord.id (eco_records db)
            /\ map EcoRecord.date kept = map EcoRecord.date (eco_records db)
            /\ map EcoRecord.created_by kept = map EcoRecord.created_by (eco_records db)
            /\ map EcoRecord.created_at kept = map EcoRecord.created_at (eco_records db)
            /\ (schemas.EcoRecordImport.overwriteExisting imp = false -> kept = eco_records db)
            /\ Forall (fun r => exists rd, In rd (schemas.EcoRecordImport.records imp)
                                           /\ r = routers_data.new_EcoRecord rd (User.id u))
                 pending).
  { exists (routers_data.session_rows st), (routers_data.session_new st).
    split; [reflexivity |]. subst st.
    split; [apply (import_loop_rows EcoRecord.id); intros ? ? ? ? ? ? ?; reflexivity |].
    split; [apply (import_loop_rows EcoRecord.date); intros ? ? ? ? ? ? ?; reflexivity |].
    split; [apply (import_loop_rows EcoRecord.created_by); intros ? ? ? ? ? ? ?; reflexivity |].
    split; [apply (import_loop_rows EcoRecord.created_at); intros ? ? ? ? ? ? ?; reflexivity |].
    destruct (import_loop_rows EcoRecord.id env
                (schemas.EcoRecordImport.overwriteExisting imp) u
                (schemas.EcoRecordImport.records imp)
                (fun _ _ _ _ _ _ _ => eq_refl)
                (routers_data.mkImportState 0 0 0 [] (eco_records db) []) 0%nat)
      as (_ & Hkeep & pending & Hnew & Hall).
    split; [exact Hkeep |]. simpl in Hnew. rewrite Hnew. exact Hall. }
  unfold routers_data.import_data, commit. unfold_monad. fold st.
  run_route; simpl_db; first [ exact Hnone | exact Hdone ].
Qed.

(** ** A batch of new days *)

Lemma import_loop_fresh env overwrite u records :
  (forall n, query_fault env n = None) ->
  forall st n,
    (forall rd, In rd records ->
                has_date (schemas.EcoRecordCreate.date rd) (routers_data.session_rows st)
                = false) ->
    routers_data.import_loop env overwrite u st n records
    = routers_data.mkImportState
        (routers_data.imported st + Z.of_nat (List.length records))
        (routers_data.updated st) (routers_data.skipped st) (routers_data.errors st)
        (routers_data.session_rows st)
        (routers_data.session_new st
         ++ map (fun rd => routers_data.new_EcoRecord rd (User.id u)) records).
Proof.
  intros Hq. induction records as [| rd records IH]; intros st n Hfresh.
  - simpl. rewrite Z.add_0_r, app_nil_r. destruct st; reflexivity.
  - cbn [routers_data.import_loop].
    assert (Hstep : routers_data.import_record env overwrite u st n rd
                    = routers_data.mkImportState (routers_data.imported st + 1)
                        (routers_data.updated st) (routers_data.skipped st)
                        (routers_data.errors st) (routers_data.session_rows st)
                        (routers_data.session_new st
                         ++ [routers_data.new_EcoRecord rd (User.id u)])).
    { unfold routers_data.import_record, routers_data.import_record_try.
      rewrite Hq. rewrite (find_not_existsb _ _ (Hfresh rd (or_introl eq_refl))).
      reflexivity. }
    rewrite Hstep, IH.
    + cbn [routers_data.imported routers_data.updated routers_data.skipped
           routers_data.errors routers_data.session_rows routers_data.session_new
           map List.length].
      rewrite <- app_assoc. f_equal. lia.
    + intros rd' Hin. apply Hfresh. right. exact Hin.
Qed.

Lemma unique_dates_NoDup rows :
  NoDup (map EcoRecord.date rows) -> unique_dates rows = true.
Proof.
  induction rows as [| r rows IH]; simpl; [trivial |].
  intros H. inversion H as [| ? ? Hnotin Hrest]; subst.
  rewrite (IH Hrest), andb_true_r. apply negb_true_iff.
  destruct (existsb _ rows) eqn:Hex; [| reflexivity].
  apply existsb_exists in Hex. destruct Hex as (r' & Hin & Heq).
  apply date_eqb_eq in Heq. exfalso. apply Hnotin. rewrite <- Heq. apply in_map. exact Hin.
Qed.

Lemma unique_dates_app rows rows' :
  unique_dates rows = true -> unique_dates rows' = true ->
  (forall r', In r' rows' -> has_date (EcoRecord.date r') rows = false) ->
  unique_dates (rows ++ rows') = true.
Proof.
  induction rows as [| r rows IH]; simpl; [trivial |].
  intros Hu Hu' Hfresh. apply andb_true_iff in Hu. destruct Hu as [Hr Hu].
  apply andb_true_iff. split.
  - rewrite existsb_app. apply negb_true_iff in Hr. rewrite Hr. simpl.
    apply negb_true_iff. destruct (existsb _ rows') eqn:Hex; [| reflexivity].
    apply existsb_exists in Hex. destruct Hex as (r' & Hin & Heq).
    specialize (Hfresh r' Hin). unfold has_date in Hfresh. simpl in Hfresh.
    rewrite date_eqb_sym, Heq in Hfresh. discriminate.
  - apply IH; trivial. intros r' Hin. specialize (Hfresh r' Hin).
    unfold has_date in *. simpl in Hfresh. apply orb_false_iff in Hfresh. tauto.
Qed.

(** X11. A batch of readings for days that are pairwise different and have
    no record yet, with the persistence layer working and the client address
    known, is imported as a whole: every reading is counted as imported,
    none as updated or skipped, there is no error, and the table is the rows
    that were there followed by one row per reading, in the order of the
    batch, with ids from the counter on. *)
Theorem import_data_of_new_days_inserts_them_all :
  forall env imp rq u db ip,
    unique_dates (eco_records db) = true ->
    NoDup (map schemas.EcoRecordCreate.date (schemas.EcoRecordImport.records imp)) ->
    (forall rd, In rd (schemas.EcoRecordImport.records imp) ->
                has_date (schemas.EcoRecordCreate.date rd) (eco_records db) = false) ->
    (forall n, query_fault env n = None) ->
    commit_fault env = None ->
    routers_data.get_client_ip rq = Ok ip ->
    exists db',
      routers_data.import_data env imp rq u db
      = (Ok (JDict
           [ ("success", JBool true);
             ("message", JStr "Data imported successfully");
             ("data", JDict
                [ ("imported",
                   JInt (Z.of_nat (List.length (schemas.EcoRecordImport.records imp))));
                  ("updated", JInt 0);
                  ("skipped", JInt 0);
                  ("errors", JList []) ]) ]), db')
      /\ eco_records db'
         = eco_records db
           ++ routers_data.flush_new env (eco_records_seq db)
                (map (fun rd => routers_data.new_EcoRecord rd (User.id u))
                   (schemas.EcoRecordImport.records imp))
      /\ eco_records_seq db'
         = eco_records_seq db
           + Z.of_nat (List.length (schemas.EcoRecordImport.records imp)).
Proof.
  intros env imp rq u db ip Huniq Hnodup Hfresh Hq Hcommit Hip.
  unfold routers_data.import_data, commit. unfold_monad.
  rewrite (import_loop_fresh env _ u _ Hq) by exact Hfresh.
  cbn [routers_data.imported routers_data.updated routers_data.skipped routers_data.errors
       routers_data.session_rows routers_data.session_new app map].
  rewrite Hcommit, unique_dates_app.
  - rewrite Hip. cbv beta iota. rewrite log_operation_run.
    eexists. split; [reflexivity |].
    destruct (log_fault env); simpl_db; rewrite length_map; split; reflexivity.
  - exact Huniq.
  - apply unique_dates_NoDup. rewrite flush_new_map by reflexivity.
    rewrite map_map. exact Hnodup.
  - intros r' Hin.
    assert (Hd : In (EcoRecord.date r')
                   (map EcoRecord.date
                      (routers_data.flush_new env (eco_records_seq db)
                         (map (fun rd => routers_data.new_EcoRecord rd (User.id u))
                            (schemas.EcoRecordImport.records imp)))))
      by (apply in_map; exact Hin).
    rewrite flush_new_map, map_map in Hd by reflexivity.
    apply in_map_iff in Hd. destruct Hd as (rd & Heq & Hrd).
    rewrite <- Heq. apply Hfresh. exact Hrd.
Qed.

Lemma import_data_of_new_days_inserts_them_all_witness :
  exists db',
    routers_data.import_data sample.env sample.batch_fresh sample.request sample.alice sample.db
    = (Ok (JDict
         [ ("success", JBool true);
           ("message", JStr "Data imported successfully");
           ("data", JDict
              [ ("imported", JInt 2); ("updated", JInt 0); ("skipped", JInt 0);
                ("errors", JList []) ]) ]), db')
    /\ map EcoRecord.id (eco_records db') = [1; 2; 3; 4]
    /\ eco_records_seq db' = 5.
Proof.
  destruct (import_data_of_new_days_inserts_them_all sample.env sample.batch_fresh
              sample.request sample.alice sample.db "10.0.0.7")
    as (db' & Hrun & Hrows & Hseq).
  - reflexivity.
  - repeat constructor; simpl; intuition discriminate.
  - intros rd [<- | [<- | []]]; reflexivity.
  - reflexivity.
  - reflexivity.
  - reflexivity.
  - exists db'. split; [exact Hrun |]. rewrite Hrows, Hseq. split; reflexivity.
Defined.

(** ** Pages of the audit trail *)

(** An entry on a page passed every filter that was applied. *)
Lemma logs_page_entry_passed_its_filters startDate endDate userId action page limit db l :
  In l (routers_logs.logs
          (routers_logs.paginate page limit
             (routers_logs.build_query startDate endDate userId action db))) ->
  In l (operation_logs db)
  /\ (forall d, startDate = Some d ->
                datetime.leb (datetime.of_date d) (OperationLog.created_at l) = true)
  /\ (forall d, endDate = Some d ->
                datetime.leb (OperationLog.created_at l) (datetime.of_date d) = true)
  /\ (forall uid, userId = Some uid -> truthy_int uid = true -> OperationLog.user_id l = uid)
  /\ (forall a, action = Some a -> truthy_str a = true -> OperationLog.action l = a).
Proof.
  unfold routers_logs.paginate. cbn [routers_logs.logs].
  intros Hl. apply In_firstn_skipn in Hl.
  unfold routers_logs.build_query in Hl.
  apply (proj1 (order_by_created_at_desc_In _ _)) in Hl.
  apply filter_if_In in Hl. destruct Hl as [Hl Haction].
  apply filter_if_In in Hl. destruct Hl as [Hl Huser].
  apply filter_if_In in Hl. destruct Hl as [Hl Hend].
  apply filter_if_In in Hl. destruct Hl as [Hl Hstart].
  apply filter_In in Hl. destruct Hl as [Hin _].
  split; [exact Hin |]. repeat apply conj.
  - intros d Hd. exact (Hstart d Hd eq_refl).
  - intros d Hd. exact (Hend d Hd eq_refl).
  - intros uid Hu Ht. apply Z.eqb_eq. exact (Huser uid Hu Ht).
  - intros a Ha Ht. apply String.eqb_eq. exact (Haction a Ha Ht).
Qed.

Lemma import_data_completed_accounts_for_all_witness :
  exists (imported updated skipped : Z) (errors : list json),
    data_member "imported"
      (JDict [ ("success", JBool true);
               ("message", JStr "Data imported successfully");
               ("data", JDict [ ("imported", JInt 1); ("updated", JInt 1);
                                ("skipped", JInt 0); ("errors", JList []) ]) ])
    = Some (JInt imported)
    /\ imported + updated + skipped + Z.of_nat (List.length errors) = 2.
Proof.
  destruct (import_data_completed_accounts_for_all sample.env sample.batch_overwrite
              sample.request sample.alice sample.db _ _ eq_refl)
    as (imported & updated & skipped & errors & Hi & _ & _ & _ & Hsum).
  exists imported, updated, skipped, errors. split; [exact Hi | exact Hsum].
Defined.

Lemma get_logs_non_admin_refused_witness :
  auth.get_current_admin_user sample.alice
  = Raise (HTTPException 403 "Access denied. Admin only.")
  /\ main.status_code
       (fst (main.get_logs sample.env "alice-token" 1 20 None None None None sample.db))
     = 500
  /\ snd (main.get_logs sample.env "alice-token" 1 20 None None None None sample.db)
     = sample.db.
Proof.
  destruct (get_logs_non_admin_refused sample.env "alice-token" 1 20 None None None None
              sample.db sample.alice) as (Hadmin & _ & Hstatus);
    [reflexivity | discriminate |].
  split; [exact Hadmin |]. split; [exact Hstatus | reflexivity].
Defined.

(** X14. The end date of the audit trail is a point in time, not a day:
    the entries are compared with midnight at the start of [endDate], so of
    the entries written on that day only one stamped at midnight sharp can
    be on a page, whatever the other filters and the page asked for. *)
Theorem logs_end_date_stops_at_midnight :
  forall startDate userId action page limit db d l,
    In l (routers_logs.logs
            (routers_logs.paginate page limit
               (routers_logs.build_query startDate (Some d) userId action db))) ->
    datetime.day (OperationLog.created_at l) = d ->
    datetime.micros (OperationLog.created_at l) <= 0.
Proof.
  intros startDate userId action page limit db d l Hin Hday.
  destruct (logs_page_entry_passed_its_filters startDate (Some d) userId action page limit db l Hin)
    as (_ & _ & Hend & _).
  specialize (Hend d eq_refl). apply datetime_leb_spec in Hend.
  unfold datetime.of_date in Hend. cbn [datetime.day datetime.micros] in Hend.
  rewrite Hday in Hend. lia.
Qed.

Lemma logs_end_date_stops_at_midnight_witness :
  routers_logs.logs
    (routers_logs.paginate 1 20
       (routers_logs.build_query None (Some (sample.jan 2)) None None sample.db_midnight))
  = [sample.log_midnight; sample.log1]
  /\ datetime.micros (OperationLog.created_at sample.log_midnight) <= 0.
Proof.
  split; [reflexivity |].
  apply (logs_end_date_stops_at_midnight None None None 1 20 sample.db_midnight (sample.jan 2)
           sample.log_midnight); [left; reflexivity | reflexivity].
Defined.

Lemma ceil_div_bounds total limit :
  0 <= total -> 1 <= limit ->
  let pages := (total + limit - 1) / limit in
  limit * (pages - 1) < total <= limit * pages \/ (total = 0 /\ pages = 0).
Proof.
  intros Ht Hl pages. subst pages.
  pose proof (Z.mul_div_le (total + limit - 1) limit ltac:(lia)) as Hle.
  pose proof (Z.mul_succ_div_gt (total + limit - 1) limit ltac:(lia)) as Hgt.
  destruct (Z.eq_dec total 0) as [-> | Hne].
  - right. split; [reflexivity |]. apply Z.div_small. lia.
  - left. nia.
Qed.

(** X15. The pages of one ordered result tile it.  For a page number and a
    limit the route admits, a page holds [limit] entries at most; page [k]
    followed by everything after it is everything after page [k-1], so
    consecutive pages neither overlap nor leave a gap; the pages 1 to
    [totalPages] are not empty and every later page is; [hasNext] says
    whether the next page has an entry. *)
Theorem pages_tile_the_result :
  forall page limit query,
    1 <= page -> 1 <= limit ->
    let p := routers_logs.paginate page limit query in
    (List.length (routers_logs.logs p) <= Z.to_nat limit)%nat
    /\ routers_logs.logs p ++ skipn (Z.to_nat (page * limit)) query
       = skipn (Z.to_nat ((page - 1) * limit)) query
    /\ (page <= routers_logs.total_pages p <-> routers_logs.logs p <> [])
    /\ (routers_logs.has_next p = true
        <-> routers_logs.logs (routers_logs.paginate (page + 1) limit query) <> [])
    /\ routers_logs.total p = Z.of_nat (List.length query).
Proof.
  intros page limit query Hpage Hlimit p. subst p. unfold routers_logs.paginate.
  cbn [routers_logs.logs routers_logs.total_pages routers_logs.has_next routers_logs.total].
  assert (Hnonempty : forall k, 1 <= k ->
            (k <= (Z.of_nat (List.length query) + limit - 1) / limit
             <-> firstn (Z.to_nat limit) (skipn (Z.to_nat ((k - 1) * limit)) query) <> [])).
  { intros k Hk.
    pose proof (ceil_div_bounds (Z.of_nat (List.length query)) limit ltac:(lia) Hlimit) as Hb.
    cbv zeta in Hb.
    set (pages := (Z.of_nat (List.length query) + limit - 1) / limit) in *.
    assert (Hlen : List.length (firstn (Z.to_nat limit)
                                  (skipn (Z.to_nat ((k - 1) * limit)) query))
                   = Nat.min (Z.to_nat limit)
                       (List.length query - Z.to_nat ((k - 1) * limit)))
      by (rewrite length_firstn, length_skipn; reflexivity).
    assert (Hoffset : 0 <= (k - 1) * limit) by nia.
    split.
    - intros Hle Hnil. rewrite Hnil in Hlen. simpl in Hlen.
      assert ((k - 1) * limit < Z.of_nat (List.length query)) by nia. lia.
    - intros Hne. destruct (Z_le_gt_dec k pages) as [Hle | Hgt]; [exact Hle |].
      exfalso. apply Hne. apply length_zero_iff_nil. rewrite Hlen.
      assert (Z.of_nat (List.length query) <= (k - 1) * limit) by nia. lia. }
  split; [apply firstn_le_length |]. split; [| split; [| split]].
  - replace (Z.to_nat (page * limit))
      with (Z.to_nat limit + Z.to_nat ((page - 1) * limit))%nat by nia.
    rewrite <- skipn_skipn. apply firstn_skipn.
  - apply Hnonempty. exact Hpage.
  - rewrite Z.ltb_lt. replace ((page + 1 - 1) * limit) with (page * limit) by lia.
    specialize (Hnonempty (page + 1) ltac:(lia)).
    replace ((page + 1 - 1) * limit) with (page * limit) in Hnonempty by lia.
    rewrite <- Hnonempty. lia.
  - reflexivity.
Qed.

Lemma pages_tile_the_result_witness :
  routers_logs.logs (routers_logs.paginate 2 1 [sample.log2; sample.log1]) = [sample.log1]
  /\ routers_logs.logs (routers_logs.paginate 2 1 [sample.log2; sample.log1])
     ++ skipn (Z.to_nat (2 * 1)) [sample.log2; sample.log1]
     = skipn (Z.to_nat ((2 - 1) * 1)) [sample.log2; sample.log1].
Proof.
  split; [reflexivity |].
  apply (pages_tile_the_result 2 1 [sample.log2; sample.log1]); lia.
Defined.

(** ** Listing and exporting the records *)

Lemma format_record_response_run record db :
  exists j,
    routers_data.format_record_response record db = (Ok j, db)
    /\ json_get "id" j = Some (JInt (EcoRecord.id record))
    /\ json_get "date" j = Some (JDate (EcoRecord.date record)).
Proof.
  unfold routers_data.format_record_response. unfold_monad.
  destruct (routers_data.calculate_efficiency_and_cost record) as [efficiency daily_cost].
  eexists. split; [reflexivity |]. split; reflexivity.
Qed.

Lemma format_records_run records db :
  exists js,
    routers_data.format_records records db = (Ok js, db)
    /\ map (json_get "id") js = map (fun r => Some (JInt (EcoRecord.id r))) records
    /\ map (json_get "date") js = map (fun r => Some (JDate (EcoRecord.date r))) records.
Proof.
  induction records as [| r records IH].
  - exists []. repeat split.
  - destruct IH as (js & Hrun & Hid & Hdate).
    destruct (format_record_response_run r db) as (j & Hj & Hjid & Hjdate).
    exists (j :: js). cbn [routers_data.format_records]. unfold_monad.
    rewrite Hj, Hrun. split; [reflexivity |]. simpl. rewrite Hid, Hdate, Hjid, Hjdate.
    split; reflexivity.
Qed.

Lemma date_leb_spec a b :
  date.leb a b = true
  <-> date.year a < date.year b
      \/ (date.year a = date.year b
          /\ (date.month a < date.month b
              \/ (date.month a = date.month b /\ date.day a <= date.day b))).
Proof.
  unfold date.leb, date.ltb, date.eqb. destruct a as [y m d], b as [y' m' d']; simpl.
  rewrite !orb_true_iff, !andb_true_iff, !orb_true_iff, !andb_true_iff,
    !Z.ltb_lt, !Z.eqb_eq.
  lia.
Qed.

Lemma date_ltb_spec a b :
  date.ltb a b = true
  <-> date.year a < date.year b
      \/ (date.year a = date.year b
          /\ (date.month a < date.month b
              \/ (date.month a = date.month b /\ date.day a < date.day b))).
Proof.
  unfold date.ltb. destruct a as [y m d], b as [y' m' d']; simpl.
  rewrite !orb_true_iff, !andb_true_iff, !orb_true_iff, !andb_true_iff,
    !Z.ltb_lt, !Z.eqb_eq.
  lia.
Qed.

Lemma column_leb_total c a b :
  routers_data.column_leb c a b = false -> routers_data.column_leb c b a = true.
Proof.
  destruct c; cbn [routers_data.column_leb];
    try (rewrite Z.leb_gt, Z.leb_le; lia);
    try apply datetime_leb_total.
  - intros H. apply not_true_iff_false in H. rewrite date_leb_spec in *. lia.
  - destruct (EcoRecord.updated_by a), (EcoRecord.updated_by b);
      try discriminate; try reflexivity. rewrite Z.leb_gt, Z.leb_le. lia.
Qed.

Lemma column_leb_trans c x y z :
  routers_data.column_leb c x y = true -> routers_data.column_leb c y z = true ->
  routers_data.column_leb c x z = true.
Proof.
  destruct c; cbn [routers_data.column_leb];
    try (rewrite !Z.leb_le; lia);
    try apply datetime_leb_trans.
  - rewrite !date_leb_spec. lia.
  - destruct (EcoRecord.updated_by x), (EcoRecord.updated_by y), (EcoRecord.updated_by z);
      try discriminate; try reflexivity. rewrite !Z.leb_le. lia.
Qed.

Lemma insert_by_Permutation leb r l : Permutation (routers_data.insert_by leb r l) (r :: l).
Proof.
  induction l as [| x l IH]; simpl; [reflexivity |].
  destruct (leb r x); [reflexivity |].
  rewrite IH. apply perm_swap.
Qed.

Lemma order_by_Permutation leb l : Permutation (routers_data.order_by leb l) l.
Proof.
  induction l as [| x l IH]; simpl; [constructor |].
  rewrite insert_by_Permutation. constructor. exact IH.
Qed.

Lemma insert_by_sorted leb r l :
  (forall a b, leb a b = false -> leb b a = true) ->
  (forall a b c, leb a b = true -> leb b c = true -> leb a c = true) ->
  sorted_by leb l -> sorted_by leb (routers_data.insert_by leb r l).
Proof.
  intros Htotal Htrans. unfold sorted_by. induction 1 as [| x l Hl IH Hx]; simpl.
  - repeat constructor.
  - destruct (leb r x) eqn:Hrx.
    + constructor; [constructor; assumption |].
      constructor; [exact Hrx |].
      eapply Forall_impl; [| exact Hx]. intros y Hy. exact (Htrans _ _ _ Hrx Hy).
    + constructor; [exact IH |].
      apply Forall_forall. intros y Hy.
      apply (Permutation_in _ (insert_by_Permutation leb r l)) in Hy.
      destruct Hy as [<- | Hy]; [apply Htotal; exact Hrx |].
      exact (proj1 (Forall_forall _ _) Hx y Hy).
Qed.

Lemma order_by_sorted leb l :
  (forall a b, leb a b = false -> leb b a = true) ->
  (forall a b c, leb a b = true -> leb b c = true -> leb a c = true) ->
  sorted_by leb (routers_data.order_by leb l).
Proof.
  intros Htotal Htrans. induction l as [| x l IH]; simpl; [constructor |].
  apply insert_by_sorted; assumption.
Qed.

Lemma order_by_column_sorted c (descending : bool) l :
  sorted_by (if descending then routers_data.desc c else routers_data.asc c)
    (routers_data.order_by (if descending then routers_data.desc c else routers_data.asc c) l).
Proof.
  apply order_by_sorted; destruct descending; unfold routers_data.desc, routers_data.asc.
  - intros a b. apply column_leb_total.
  - intros a b. apply column_leb_total.
  - intros a b d H1 H2. exact (column_leb_trans c _ _ _ H2 H1).
  - intros a b d. apply column_leb_trans.
Qed.

Lemma date_filters_In startDate endDate rows r :
  In r (routers_data.date_filters startDate endDate rows)
  <-> In r rows /\ in_range startDate endDate r.
Proof.
  unfold routers_data.date_filters, in_range.
  destruct startDate as [s |], endDate as [e |]; rewrite ?filter_In.
  - split.
    + intros [[Hin Hs] He]. split; [exact Hin |].
      split; intros d Hd; injection Hd as <-; assumption.
    + intros [Hin [Hs He]]. auto.
  - split.
    + intros [Hin Hs]. split; [exact Hin |].
      split; intros d Hd; [injection Hd as <-; assumption | discriminate].
    + intros [Hin [Hs He]]. auto.
  - split.
    + intros [Hin He]. split; [exact Hin |].
      split; intros d Hd; [discriminate | injection Hd as <-; assumption].
    + intros [Hin [Hs He]]. auto.
  - split.
    + intros Hin. split; [exact Hin |]. split; intros d Hd; discriminate.
    + intros [Hin _]. exact Hin.
Qed.

Lemma sorted_by_firstn leb n l : sorted_by leb l -> sorted_by leb (firstn n l).
Proof. apply StronglySorted_firstn. Qed.

Lemma sorted_by_skipn leb n l : sorted_by leb l -> sorted_by leb (skipn n l).
Proof. apply StronglySorted_skipn. Qed.

Lemma select_page_records page limit query r :
  In r (routers_data.page_records (routers_data.select_page page limit query)) -> In r query.
Proof.
  unfold routers_data.select_page.
  destruct limit as [l |]; [destruct (truthy_int l) |]; cbn [routers_data.page_records];
    trivial. apply In_firstn_skipn.
Qed.

Lemma select_page_sorted leb page limit query :
  sorted_by leb query ->
  sorted_by leb (routers_data.page_records (routers_data.select_page page limit query)).
Proof.
  intros H. unfold routers_data.select_page.
  destruct limit as [l |]; [destruct (truthy_int l) |]; cbn [routers_data.page_records];
    trivial. apply sorted_by_firstn, sorted_by_skipn. exact H.
Qed.

Lemma admitted_key_resolves sortBy :
  In sortBy admitted_sort_keys ->
  routers_data.getattr_EcoRecord
    (routers_data.replace
       (routers_data.replace
          (routers_data.replace
             (routers_data.replace sortBy "powerConsumption" "power_consumption")
             "drinkingWater" "drinking_water")
          "irrigationWater" "irrigation_water")
       "electricityPrice" "electricity_price")
  = Ok (column_of_key sortBy).
Proof.
  intros H. repeat (destruct H as [<- | H]; [reflexivity |]). destruct H.
Qed.

(** X16. The list route, for a sort key the route admits.  The handler
    answers with a success body and leaves the database alone.  The key is
    turned into the column it names, so the lookup of the column cannot
    fail.  The records of the page are rows of the table whose day lies
    within the bounds given, in the order asked for (descending exactly when
    [sortOrder] is [desc]), and each is formatted under its own id.  The
    total is the number of rows within the bounds, whatever the page, the
    limit and the order.  With a limit the page holds that many records at
    most; without one it holds every row within the bounds and the number of
    pages is 1, whatever page was asked for. *)
Theorem get_all_data_returns_a_sorted_page_of_the_range :
  forall u page limit startDate endDate sortBy sortOrder db,
    In sortBy admitted_sort_keys ->
    let leb := if String.eqb sortOrder "desc"
               then routers_data.desc (column_of_key sortBy)
               else routers_data.asc (column_of_key sortBy) in
    let in_bounds := routers_data.date_filters startDate endDate (eco_records db) in
    let p := routers_data.select_page page limit (routers_data.order_by leb in_bounds) in
    let records := routers_data.page_records p in
    exists formatted,
      routers_data.get_all_data u page limit startDate endDate sortBy sortOrder db
      = (Ok (JDict
           [ ("success", JBool true);
             ("data", JDict
                [ ("records", JList formatted);
                  ("pagination", JDict
                     [ ("total", JInt (Z.of_nat (List.length in_bounds)));
                       ("page", JInt page);
                       ("limit", json_of_option JInt limit);
                       ("pages", JInt (routers_data.page_pages p)) ]);
                  ("summary", JDict
                     [ ("totalRecords", JInt (Z.of_nat (List.length in_bounds)));
                       ("dateRange", routers_data.date_range records) ]) ]) ]), db)
      /\ map (json_get "id") formatted = map (fun r => Some (JInt (EcoRecord.id r))) records
      /\ sorted_by leb records
      /\ Forall (fun r => In r (eco_records db) /\ in_range startDate endDate r) records
      /\ (forall l, limit = Some l -> (List.length records <= Z.to_nat l)%nat \/ l = 0)
      /\ (limit = None -> Permutation records in_bounds /\ routers_data.page_pages p = 1).
Proof.
  intros u page limit startDate endDate sortBy sortOrder db Hkey leb in_bounds p records.
  set (query := routers_data.order_by leb in_bounds) in *.
  destruct (format_records_run records db) as (js & Hrun & Hid & _).
  assert (Hlen : List.length query = List.length in_bounds)
    by (apply Permutation_length, order_by_Permutation).
  assert (Htotal : routers_data.page_total p = Z.of_nat (List.length in_bounds)).
  { subst p. unfold routers_data.select_page. rewrite Hlen.
    destruct limit as [l |]; [destruct (truthy_int l) |]; reflexivity. }
  exists js.
  split; [| split; [exact Hid | split; [| split; [| split]]]].
  - unfold routers_data.get_all_data. unfold_monad.
    rewrite (admitted_key_resolves sortBy Hkey). cbv beta iota.
    assert (Hq : (if String.eqb sortOrder "desc"
                  then routers_data.order_by (routers_data.desc (column_of_key sortBy))
                         (routers_data.date_filters startDate endDate (eco_records db))
                  else routers_data.order_by (routers_data.asc (column_of_key sortBy))
                         (routers_data.date_filters startDate endDate (eco_records db)))
                 = query).
    { subst query leb in_bounds. destruct (String.eqb sortOrder "desc"); reflexivity. }
    rewrite Hq. fold p. fold records. rewrite Hrun, Htotal. reflexivity.
  - subst records p. apply select_page_sorted. subst query leb.
    apply (order_by_column_sorted (column_of_key sortBy) (String.eqb sortOrder "desc")).
  - apply Forall_forall. intros r Hr. subst records p. apply select_page_records in Hr.
    subst query. apply (Permutation_in _ (order_by_Permutation leb in_bounds)) in Hr.
    subst in_bounds. apply date_filters_In in Hr. exact Hr.
  - intros l ->. subst records p. unfold routers_data.select_page, truthy_int.
    destruct (Z.eqb_spec l 0) as [-> | Hne]; [right; reflexivity | left].
    cbn [negb routers_data.page_records]. apply firstn_le_length.
  - intros ->. subst records p. cbn [routers_data.select_page routers_data.page_records
                                      routers_data.page_pages].
    split; [apply order_by_Permutation | reflexivity].
Qed.

Lemma get_all_data_returns_a_sorted_page_of_the_range_witness :
  exists formatted,
    routers_data.get_all_data sample.alice 1 (Some 1) (Some (sample.jan 1)) None
      "powerConsumption" "desc" sample.db
    = (Ok (JDict
         [ ("success", JBool true);
           ("data", JDict
              [ ("records", JList formatted);
                ("pagination", JDict
                   [ ("total", JInt 2); ("page", JInt 1); ("limit", JInt 1);
                     ("pages", JInt 2) ]);
                ("summary", JDict
                   [ ("totalRecords", JInt 2);
                     ("dateRange", JDict [ ("start", JStr "2024-01-02");
                                           ("end", JStr "2024-01-02") ]) ]) ]) ]),
       sample.db)
    /\ map (json_get "id") formatted = [Some (JInt 2)].
Proof.
  destruct (get_all_data_returns_a_sorted_page_of_the_range sample.alice 1 (Some 1)
              (Some (sample.jan 1)) None "powerConsumption" "desc" sample.db)
    as (formatted & Hrun & Hid & _); [right; left; reflexivity |].
  exists formatted. split; [exact Hrun | exact Hid].
Defined.

Lemma date_leb_refl a : date.leb a a = true.
Proof. apply date_leb_spec. lia. Qed.

Lemma date_leb_trans a b c :
  date.leb a b = true -> date.leb b c = true -> date.leb a c = true.
Proof. rewrite !date_leb_spec. lia. Qed.

Lemma min_date_spec ds :
  forall d,
    In (routers_data.min_date d ds) (d :: ds)
    /\ Forall (fun x => date.leb (routers_data.min_date d ds) x = true) (d :: ds).
Proof.
  induction ds as [| x ds IH]; intros d; unfold routers_data.min_date; simpl.
  - split; [left; reflexivity |]. repeat constructor. apply date_leb_refl.
  - fold (routers_data.min_date (if date.ltb x d then x else d) ds).
    destruct (IH (if date.ltb x d then x else d)) as [Hin Hall].
    inversion Hall as [| ? ? Hhead Htail]; subst.
    assert (Hd : date.leb (if date.ltb x d then x else d) d = true
                 /\ date.leb (if date.ltb x d then x else d) x = true).
    { destruct (date.ltb x d) eqn:Hlt.
      - apply date_ltb_spec in Hlt. rewrite !date_leb_spec. lia.
      - apply not_true_iff_false in Hlt. rewrite date_ltb_spec in Hlt.
        rewrite !date_leb_spec. lia. }
    split.
    + destruct Hin as [Hin | Hin]; [| right; right; exact Hin].
      rewrite <- Hin. destruct (date.ltb x d); [right; left | left]; reflexivity.
    + constructor; [exact (date_leb_trans _ _ _ Hhead (proj1 Hd)) |].
      constructor; [exact (date_leb_trans _ _ _ Hhead (proj2 Hd)) | exact Htail].
Qed.

Lemma max_date_spec ds :
  forall d,
    In (routers_data.max_date d ds) (d :: ds)
    /\ Forall (fun x => date.leb x (routers_data.max_date d ds) = true) (d :: ds).
Proof.
  induction ds as [| x ds IH]; intros d; unfold routers_data.max_date; simpl.
  - split; [left; reflexivity |]. repeat constructor. apply date_leb_refl.
  - fold (routers_data.max_date (if date.ltb d x then x else d) ds).
    destruct (IH (if date.ltb d x then x else d)) as [Hin Hall].
    inversion Hall as [| ? ? Hhead Htail]; subst.
    assert (Hd : date.leb d (if date.ltb d x then x else d) = true
                 /\ date.leb x (if date.ltb d x then x else d) = true).
    { destruct (date.ltb d x) eqn:Hlt.
      - apply date_ltb_spec in Hlt. rewrite !date_leb_spec. lia.
      - apply not_true_iff_false in Hlt. rewrite date_ltb_spec in Hlt.
        rewrite !date_leb_spec. lia. }
    split.
    + destruct Hin as [Hin | Hin]; [| right; right; exact Hin].
      rewrite <- Hin. destruct (date.ltb d x); [right; left | left]; reflexivity.
    + constructor; [exact (date_leb_trans _ _ _ (proj1 Hd) Hhead) |].
      constructor; [exact (date_leb_trans _ _ _ (proj2 Hd) Hhead) | exact Htail].
Qed.

(** X17. The date range of a page that is not empty names two days of
    records on the page, and the day of every record on the page lies between
    them; of an empty page it is the empty dictionary. *)
Theorem date_range_spans_the_page :
  forall records,
    records <> [] ->
    exists lo hi,
      routers_data.date_range records
      = JDict [ ("start", JStr (date.isoformat lo)); ("end", JStr (date.isoformat hi)) ]
      /\ In lo (map EcoRecord.date records)
      /\ In hi (map EcoRecord.date records)
      /\ Forall (fun r => date.leb lo (EcoRecord.date r) = true
                          /\ date.leb (EcoRecord.date r) hi = true) records.
Proof.
  intros [| r records] Hne; [contradiction |].
  unfold routers_data.date_range. cbn [map].
  destruct (min_date_spec (map EcoRecord.date records) (EcoRecord.date r)) as [Hlo Hmin].
  destruct (max_date_spec (map EcoRecord.date records) (EcoRecord.date r)) as [Hhi Hmax].
  do 2 eexists. split; [reflexivity |]. split; [exact Hlo |]. split; [exact Hhi |].
  apply Forall_forall. intros x Hx.
  assert (Hd : In (EcoRecord.date x) (EcoRecord.date r :: map EcoRecord.date records))
    by (apply (in_map EcoRecord.date (r :: records)); exact Hx).
  split.
  - exact (proj1 (Forall_forall _ _) Hmin _ Hd).
  - exact (proj1 (Forall_forall _ _) Hmax _ Hd).
Qed.

Lemma date_range_spans_the_page_witness :
  exists lo hi,
    routers_data.date_range [sample.row2; sample.row1]
    = JDict [ ("start", JStr (date.isoformat lo)); ("end", JStr (date.isoformat hi)) ]
    /\ In lo [sample.jan 2; sample.jan 1]
    /\ In hi [sample.jan 2; sample.jan 1]
    /\ routers_data.date_range [sample.row2; sample.row1]
       = JDict [ ("start", JStr "2024-01-01"); ("end", JStr "2024-01-02") ].
Proof.
  destruct (date_range_spans_the_page [sample.row2; sample.row1]) as (lo & hi & H1 & H2 & H3 & _);
    [discriminate |].
  exists lo, hi. split; [exact H1 |]. split; [exact H2 |]. split; [exact H3 | reflexivity].
Defined.

Lemma NoDup_unique_dates rows :
  unique_dates rows = true -> NoDup (map EcoRecord.date rows).
Proof.
  induction rows as [| r rows IH]; simpl; [constructor |].
  intros H. apply andb_true_iff in H. destruct H as [Hr Hrows].
  constructor; [| apply IH; exact Hrows].
  intros Hin. apply in_map_iff in Hin. destruct Hin as (r' & Heq & Hin).
  apply negb_true_iff in Hr.
  assert (existsb (fun r' => date.eqb (EcoRecord.date r') (EcoRecord.date r)) rows = true).
  { apply existsb_exists. exists r'. split; [exact Hin |]. apply date_eqb_eq. exact Heq. }
  congruence.
Qed.

Lemma NoDup_map_filter {A B} (f : A -> B) p l :
  NoDup (map f l) -> NoDup (map f (filter p l)).
Proof.
  induction l as [| x l IH]; simpl; [trivial |].
  intros H. inversion H as [| ? ? Hnotin Hrest]; subst.
  destruct (p x); simpl; [| auto]. constructor; [| auto].
  intros Hin. apply Hnotin. apply in_map_iff in Hin. destruct Hin as (y & Hy & Hin).
  apply filter_In in Hin. rewrite <- Hy. apply in_map. tauto.
Qed.

Lemma sorted_strictly leb rows :
  (forall a b, leb a b = true -> EcoRecord.date a <> EcoRecord.date b ->
               date.ltb (EcoRecord.date a) (EcoRecord.date b) = true) ->
  sorted_by leb rows -> NoDup (map EcoRecord.date rows) ->
  StronglySorted (fun a b => date.ltb (EcoRecord.date a) (EcoRecord.date b) = true) rows.
Proof.
  intros Hstrict. unfold sorted_by. induction 1 as [| x l Hl IH Hx]; simpl; intros Hnd.
  - constructor.
  - inversion Hnd as [| ? ? Hnotin Hrest]; subst. constructor; [auto |].
    apply Forall_forall. intros y Hy. apply Hstrict.
    + exact (proj1 (Forall_forall _ _) Hx y Hy).
    + intros Heq. apply Hnotin. rewrite Heq. apply in_map. exact Hy.
Qed.

(** X18. The JSON export is the whole range in the order of the days.
    With one record per day in the table, the handler answers with a body
    and leaves the database alone; the records exported are exactly the rows
    of the table whose day lies within the bounds given, each once, with
    strictly increasing days and formatted in that order; [totalRecords] is
    their number.  There is no paging. *)
Theorem export_data_json_is_the_range_by_day :
  forall env stamp startDate endDate filename u db,
    unique_dates (eco_records db) = true ->
    let records :=
      routers_data.order_by (routers_data.asc routers_data.Column_date)
        (routers_data.date_filters startDate endDate (eco_records db)) in
    exists formatted,
      routers_data.export_data env stamp "json" startDate endDate filename u db
      = (Ok (routers_data.JsonBody (JDict
           [ ("success", JBool true);
             ("data", JDict
                [ ("records", JList formatted);
                  ("metadata", JDict
                     [ ("exportDate", JStr (routers_data.datetime_isoformat (utcnow env)));
                       ("totalRecords", JInt (Z.of_nat (List.length records)));
                       ("format", JStr "json") ]) ]) ])), db)
      /\ map (json_get "date") formatted
         = map (fun r => Some (JDate (EcoRecord.date r))) records
      /\ StronglySorted
           (fun a b => date.ltb (EcoRecord.date a) (EcoRecord.date b) = true) records
      /\ (forall r, In r records <-> In r (eco_records db) /\ in_range startDate endDate r)
      /\ NoDup records.
Proof.
  intros env stamp startDate endDate filename u db Huniq records.
  destruct (format_records_run records db) as (js & Hrun & _ & Hdate).
  assert (Hperm : Permutation records
                    (routers_data.date_filters startDate endDate (eco_records db)))
    by apply order_by_Permutation.
  assert (Hnd : NoDup (map EcoRecord.date records)).
  { apply (Permutation_NoDup (Permutation_sym (Permutation_map EcoRecord.date Hperm))).
    unfold routers_data.date_filters.
    destruct startDate, endDate; repeat apply NoDup_map_filter;
      apply NoDup_unique_dates; exact Huniq. }
  exists js. split; [| split; [exact Hdate | split; [| split]]].
  - unfold routers_data.export_data. unfold_monad. cbn [String.eqb Ascii.eqb Bool.eqb].
    fold records. rewrite Hrun. reflexivity.
  - apply (sorted_strictly (routers_data.asc routers_data.Column_date)).
    + unfold routers_data.asc. cbn [routers_data.column_leb]. intros a b Hle Hne.
      apply date_ltb_spec. apply date_leb_spec in Hle.
      destruct (EcoRecord.date a) as [y m d], (EcoRecord.date b) as [y' m' d']; simpl in *.
      assert (~ (y = y' /\ m = m' /\ d = d')) by (intros (-> & -> & ->); auto). lia.
    + apply (order_by_column_sorted routers_data.Column_date false).
    + exact Hnd.
  - intros r. rewrite <- date_filters_In. split; intros H.
    + exact (Permutation_in _ Hperm H).
    + exact (Permutation_in _ (Permutation_sym Hperm) H).
  - exact (NoDup_map_inv _ _ Hnd).
Qed.

Lemma export_data_json_is_the_range_by_day_witness :
  exists formatted,
    fst (routers_data.export_data sample.env "20240105_120000" "json" None
           (Some (sample.jan 1)) None sample.alice sample.db)
    = Ok (routers_data.JsonBody (JDict
        [ ("success", JBool true);
          ("data", JDict
             [ ("records", JList formatted);
               ("metadata", JDict
                  [ ("exportDate", JStr "2024-01-05T12:00:00");
                    ("totalRecords", JInt 1);
                    ("format", JStr "json") ]) ]) ]))
    /\ map (json_get "date") formatted = [Some (JDate (sample.jan 1))].
Proof.
  destruct (export_data_json_is_the_range_by_day sample.env "20240105_120000" None
              (Some (sample.jan 1)) None sample.alice sample.db eq_refl)
    as (formatted & Hrun & Hdate & _).
  exists formatted. rewrite Hrun. split; [reflexivity | exact Hdate].
Defined.

Lemma csv_row_run record db :
  exists row,
    routers_data.csv_row record db = (Ok row, db)
    /\ nth_error row 0 = Some (JStr (date.isoformat (EcoRecord.date record)))
    /\ List.length row = List.length routers_data.csv_header.
Proof.
  unfold routers_data.csv_row. unfold_monad.
  destruct (routers_data.calculate_efficiency_and_cost record) as [efficiency daily_cost].
  eexists. split; [reflexivity |]. split; reflexivity.
Qed.

Lemma csv_rows_run records db :
  exists rows,
    routers_data.csv_rows records db = (Ok rows, db)
    /\ map (fun row => nth_error row 0) rows
       = map (fun r => Some (JStr (date.isoformat (EcoRecord.date r)))) records
    /\ Forall (fun row => List.length row = List.length routers_data.csv_header) rows.
Proof.
  induction records as [| r records IH].
  - exists []. repeat split. constructor.
  - destruct IH as (rows & Hrun & Hdates & Hcells).
    destruct (csv_row_run r db) as (row & Hrow & Hfirst & Hlen).
    exists (row :: rows). cbn [routers_data.csv_rows]. unfold_monad.
    rewrite Hrow, Hrun. split; [reflexivity |]. split.
    + cbn [map]. rewrite Hdates, Hfirst. reflexivity.
    + constructor; [exact Hlen | exact Hcells].
Qed.

Lemma string_app_assoc (a b c : string) : (a ++ (b ++ c) = (a ++ b) ++ c)%string.
Proof. induction a as [| x a IH]; simpl; [reflexivity | rewrite IH; reflexivity]. Qed.

Lemma endswith_csv_appended s : routers_data.endswith (s ++ ".csv") ".csv" = true.
Proof.
  unfold routers_data.endswith.
  assert (H : forall acc, rev_string acc (s ++ ".csv")
                          = rev_string (rev_string acc s) ".csv").
  { induction s as [| c s IH]; intros acc; simpl; [reflexivity | apply IH]. }
  rewrite H. simpl. destruct (rev_string "" s); reflexivity.
Qed.

(** X19. The CSV export.  The handler answers with a file and leaves the
    database alone.  The name of the file always ends in [.csv]: a name
    given with that ending is used as it is, any other name given gets the
    ending appended, and without a name, or with an empty one, the name is
    made from the time stamp.  The file has the header row and then one row
    per record within the bounds, in the order of the JSON export, each with
    as many cells as the header and the day first. *)
Theorem export_data_csv_names_and_rows :
  forall env stamp startDate endDate filename u db,
    let records :=
      routers_data.order_by (routers_data.asc routers_data.Column_date)
        (routers_data.date_filters startDate endDate (eco_records db)) in
    exists name rows,
      routers_data.export_data env stamp "csv" startDate endDate filename u db
      = (Ok (routers_data.CsvFile name (routers_data.csv_header :: rows)), db)
      /\ routers_data.endswith name ".csv" = true
      /\ (forall given, filename = Some given ->
            routers_data.endswith given ".csv" = true -> name = given)
      /\ (forall given, filename = Some given -> given <> "" ->
            routers_data.endswith given ".csv" = false -> name = (given ++ ".csv")%string)
      /\ (filename = None \/ filename = Some "" ->
          name = ("ecometrics_export_" ++ stamp ++ ".csv")%string)
      /\ map (fun row => nth_error row 0) rows
         = map (fun r => Some (JStr (date.isoformat (EcoRecord.date r)))) records
      /\ Forall (fun row => List.length row = List.length routers_data.csv_header) rows.
Proof.
  intros env stamp startDate endDate filename u db records.
  destruct (csv_rows_run records db) as (rows & Hrun & Hdates & Hcells).
  exists (routers_data.export_filename stamp filename), rows.
  split; [| split; [| split; [| split; [| split; [| split]]]]].
  - unfold routers_data.export_data. unfold_monad. cbn [String.eqb Ascii.eqb Bool.eqb].
    fold records. rewrite Hrun. reflexivity.
  - unfold routers_data.export_filename.
    assert (Hgen : routers_data.endswith ("ecometrics_export_" ++ stamp ++ ".csv") ".csv"
                   = true)
      by (rewrite string_app_assoc; apply endswith_csv_appended).
    destruct filename as [given |]; [| exact Hgen].
    destruct (truthy_str given); [| exact Hgen]. cbn [negb].
    destruct (routers_data.endswith given ".csv") eqn:Hends; cbn [negb];
      [exact Hends | apply endswith_csv_appended].
  - intros given -> Hends. unfold routers_data.export_filename, truthy_str.
    destruct (String.eqb_spec given "") as [-> | Hne]; [discriminate Hends |].
    cbn [negb]. rewrite Hends. reflexivity.
  - intros given -> Hne Hends. unfold routers_data.export_filename, truthy_str.
    destruct (String.eqb_spec given ""); [contradiction |].
    cbn [negb]. rewrite Hends. reflexivity.
  - intros [-> | ->]; reflexivity.
  - exact Hdates.
  - exact Hcells.
Qed.

(** ** Registering, logging in, logging out *)

Lemma find_app_new {A} (p : A -> bool) l x :
  find p l = None -> p x = true -> find p (l ++ [x]) = Some x.
Proof.
  induction l as [| y l IH]; simpl; intros Hnone Hx; [rewrite Hx; reflexivity |].
  destruct (p y); [discriminate | auto].
Qed.

(** What a registration that reports success has done. *)
Lemma register_success env ud db body db1 :
  routers_auth.register env ud db = (Ok body, db1) ->
  json_get "success" body = Some (JBool true) ->
  let new_user :=
    User.mk (users_seq db) (schemas.UserRegister.username ud)
      (schemas.UserRegister.password ud) "user" (func_now env) (func_now env) None in
  find (fun u => String.eqb (User.username u) (schemas.UserRegister.username ud)) (users db)
  = None
  /\ db1 = add_user new_user db
  /\ body = JDict
       [ ("success", JBool true);
         ("message", JStr "Registration successful");
         ("data", JDict
            [ ("id", JInt (users_seq db));
              ("username", JStr (schemas.UserRegister.username ud));
              ("role", JStr "user");
              ("createdAt", JDateTime (func_now env)) ]) ].
Proof.
  unfold routers_auth.register. unfold_monad.
  destruct (find _ (users db)) as [existing |] eqn:Hfind.
  - intros H. injection H as <- <-. discriminate.
  - destruct (commit_fault env) as [fault |];
      [destruct fault; intros H; try discriminate H; injection H as <- <-; discriminate |].
    cbn [User.username].
    destruct (existsb _ (users db)).
    + intros H. injection H as <- <-. discriminate.
    + intros H. injection H as <- <-. intros _. repeat split.
Qed.

(** X21. Who has registered can log in.  After a registration that was
    answered with success, a login with the same name and password, from any
    request that has a peer and with the commit going through, passes the
    validation of the login body and is answered with success: the user
    returned has the id the registration reported and the role [user], and
    the token is the encoding of exactly that id, name and role with an
    expiry of [JWT_EXPIRE_HOURS] hours from now. *)
Theorem registered_user_can_log_in :
  forall settings jwt_encode env env' raw rq db body db1 host,
    main.post_auth_register env raw db = (Ok body, db1) ->
    json_get "success" body = Some (JBool true) ->
    client_host rq = Some host ->
    commit_fault env' = None ->
    exists uid db2,
      data_member "id" body = Some (JInt uid)
      /\ main.post_auth_login settings jwt_encode env'
           (schemas.UserLogin.mk (schemas.UserRegister.username raw)
              (schemas.UserRegister.password raw)) rq db1
         = (Ok (JDict
              [ ("success", JBool true);
                ("data", JDict
                   [ ("token",
                      JStr (jwt_encode
                              [ ("user_id", JInt uid);
                                ("username", JStr (schemas.UserRegister.username raw));
                                ("role", JStr "user") ]
                              (auth.mkExpiry (utcnow env')
                                 (auth.timedelta_hours (config.JWT_EXPIRE_HOURS settings)))));
                     ("user", JDict
                        [ ("id", JInt uid);
                          ("username", JStr (schemas.UserRegister.username raw));
                          ("role", JStr "user");
                          ("loginTime", JDateTime (utcnow env'));
                          ("createdAt", JDateTime (func_now env)) ]) ]) ]), db2).
Proof.
  intros settings jwt_encode env env' raw rq db body db1 host Hreg Hsuccess Hhost Hcommit.
  unfold main.post_auth_register in Hreg. apply get_db_returned in Hreg. unfold_monad.
  destruct (schemas.UserRegister.validate raw) as [ud | e] eqn:Hvalid; [| discriminate].
  assert (Hud : schemas.UserRegister.validate_username (schemas.UserRegister.username raw)
                = Ok (schemas.UserRegister.username raw)
                /\ schemas.UserRegister.validate_password (schemas.UserRegister.password raw)
                   = Ok (schemas.UserRegister.password raw)
                /\ schemas.UserRegister.username ud = schemas.UserRegister.username raw
                /\ schemas.UserRegister.password ud = schemas.UserRegister.password raw).
  { unfold schemas.UserRegister.validate in Hvalid.
    assert (Hu : forall v x, schemas.UserRegister.validate_username v = Ok x -> x = v).
    { intros v x. unfold schemas.UserRegister.validate_username.
      destruct (negb _); [discriminate |]. destruct (_ <? _); [discriminate |]. congruence. }
    assert (Hp : forall v x, schemas.UserRegister.validate_password v = Ok x -> x = v).
    { intros v x. unfold schemas.UserRegister.validate_password.
      destruct (_ <? _); [discriminate |]. congruence. }
    destruct (schemas.UserRegister.validate_username _) as [u' |] eqn:Eu; [| discriminate].
    destruct (schemas.UserRegister.validate_password _) as [p' |] eqn:Ep;
      [| discriminate].
    destruct (schemas.UserRegister.validate_confirm_password _ _); [| discriminate].
    injection Hvalid as <-. cbn [schemas.UserRegister.username schemas.UserRegister.password].
    rewrite (Hu _ _ Eu), (Hp _ _ Ep). repeat split. }
  destruct Hud as (Hvu & Hvp & Hname & Hpw).
  destruct (register_success env ud db body db1 Hreg Hsuccess) as (Hfree & -> & ->).
  cbv zeta. rewrite Hname, Hpw in *.
  exists (users_seq db). eexists. split; [reflexivity |].
  unfold main.post_auth_login. apply get_db_returns.
  unfold schemas.UserLogin.validate. unfold_monad.
  cbn [schemas.UserLogin.username schemas.UserLogin.password].
  change schemas.UserLogin.validate_username with schemas.UserRegister.validate_username.
  change schemas.UserLogin.validate_password with schemas.UserRegister.validate_password.
  rewrite Hvu, Hvp.
  unfold routers_auth.login, auth.authenticate_user. unfold_monad.
  cbn [schemas.UserLogin.username schemas.UserLogin.password].
  rewrite Hhost. cbn [users add_user].
  rewrite (find_app_new _ _ _ Hfree) by (cbn [User.username]; apply String.eqb_refl).
  cbn [User.password]. rewrite String.eqb_refl. cbn [negb]. rewrite Hcommit.
  reflexivity.
Qed.

Lemma registered_user_can_log_in_witness :
  exists db1 db2,
    fst (main.post_auth_register sample.env sample.carol sample.db)
    = Ok (JDict
        [ ("success", JBool true);
          ("message", JStr "Registration successful");
          ("data", JDict
             [ ("id", JInt 3); ("username", JStr "@carol"); ("role", JStr "user");
               ("createdAt", JDateTime (sample.noon 5)) ]) ])
    /\ snd (main.post_auth_register sample.env sample.carol sample.db) = db1
    /\ main.post_auth_login sample.settings sample.encode sample.env
         (schemas.UserLogin.mk "@carol" "secret3") sample.request db1
       = (Ok (JDict
            [ ("success", JBool true);
              ("data", JDict
                 [ ("token", JStr "token-of-@carol");
                   ("user", JDict
                      [ ("id", JInt 3); ("username", JStr "@carol"); ("role", JStr "user");
                        ("loginTime", JDateTime (sample.noon 5));
                        ("createdAt", JDateTime (sample.noon 5)) ]) ]) ]), db2).
Proof.
  destruct (registered_user_can_log_in sample.settings sample.encode sample.env sample.env
              sample.carol sample.request sample.db _ _ "10.0.0.7" eq_refl eq_refl eq_refl
              eq_refl) as (uid & db2 & Hid & Hlogin).
  injection Hid as <-.
  eexists. exists db2. split; [reflexivity |]. split; [reflexivity |]. exact Hlogin.
Defined.

(** X22. A registration that is answered with success has added one user
    with the name and the password of the request, stored as they came, the
    role [user] and the next id of the counter, and nothing else: the records
    and the audit log are as before.  From then on the name is taken: any
    further registration under it is answered with the DUPLICATE_USERNAME
    failure and changes nothing. *)
Theorem registered_name_is_taken :
  forall env ud db body db1 env' ud',
    routers_auth.register env ud db = (Ok body, db1) ->
    json_get "success" body = Some (JBool true) ->
    schemas.UserRegister.username ud' = schemas.UserRegister.username ud ->
    users db1
    = users db
      ++ [ User.mk (users_seq db) (schemas.UserRegister.username ud)
             (schemas.UserRegister.password ud) "user" (func_now env) (func_now env) None ]
    /\ eco_records db1 = eco_records db
    /\ operation_logs db1 = operation_logs db
    /\ exists body',
         routers_auth.register env' ud' db1 = (Ok body', db1)
         /\ is_validation_failure "username" "DUPLICATE_USERNAME" body'.
Proof.
  intros env ud db body db1 env' ud' Hreg Hsuccess Hname.
  destruct (register_success env ud db body db1 Hreg Hsuccess) as (Hfree & -> & _).
  cbv zeta. repeat (split; [reflexivity |]).
  unfold routers_auth.register. unfold_monad. cbn [users add_user]. rewrite Hname.
  rewrite (find_app_new _ _ _ Hfree) by (cbn [User.username]; apply String.eqb_refl).
  eexists. split; [reflexivity |]. repeat split. eexists. repeat split.
Qed.

Lemma registered_name_is_taken_witness :
  exists db1 body',
    snd (routers_auth.register sample.env sample.carol sample.db) = db1
    /\ List.length (users db1) = 3%nat
    /\ routers_auth.register sample.env_log_down
         (schemas.UserRegister.mk "@carol" "another" "another") db1 = (Ok body', db1)
    /\ is_validation_failure "username" "DUPLICATE_USERNAME" body'.
Proof.
  destruct (registered_name_is_taken sample.env sample.carol sample.db _ _ sample.env_log_down
              (schemas.UserRegister.mk "@carol" "another" "another") eq_refl eq_refl eq_refl)
    as (Husers & _ & _ & body' & Hrun & Hfail).
  eexists. exists body'. split; [reflexivity |].
  split; [exact (f_equal (@List.length User.t) Husers) |].
  split; [exact Hrun | exact Hfail].
Defined.

Lemma update_user_accounts uid f us :
  (forall u, account (f u) = account u) ->
  map account (routers_auth.update_user uid f us) = map account us.
Proof.
  intros H. induction us as [| u us IH]; simpl; [reflexivity |].
  destruct (User.id u =? uid); simpl; [rewrite H | rewrite IH]; reflexivity.
Qed.

(** X23. A login writes login times and nothing else.  Whatever the
    request and however the run ends, the records, the audit log and the
    three counters are as before, and the users are the same accounts in the
    same order: no id, name, password, role or creation time has changed.
    No login, failed or not, is put on the audit log.  A login that is not
    answered with a body leaves the users exactly as they were. *)
Theorem login_writes_login_times_only :
  forall settings jwt_encode env ud rq db,
    let run := routers_auth.login settings jwt_encode env ud rq db in
    eco_records (snd run) = eco_records db
    /\ operation_logs (snd run) = operation_logs db
    /\ users_seq (snd run) = users_seq db
    /\ eco_records_seq (snd run) = eco_records_seq db
    /\ operation_logs_seq (snd run) = operation_logs_seq db
    /\ map account (users (snd run)) = map account (users db)
    /\ ((forall body, fst run <> Ok body) -> snd run = db).
Proof.
  intros settings jwt_encode env ud rq db run. subst run.
  unfold routers_auth.login, auth.authenticate_user. unfold_monad.
  destruct (client_host rq); [| repeat split].
  destruct (find _ (users db)) as [u |]; [| repeat split].
  destruct (negb _); [repeat split |].
  destruct (commit_fault env) as [[] |]; try (repeat split; fail).
  cbn [fst snd]. repeat (split; [reflexivity |]). split.
  - cbn [users routers_auth.set_users]. apply update_user_accounts. reflexivity.
  - intros H. exfalso. eapply H. reflexivity.
Qed.

(** X24. A password that no user has opens no session: for a request with
    a peer, the login is refused with 401 [Invalid credentials] under any
    name, and the database is left as it was. *)
Theorem login_with_a_password_nobody_has_is_refused :
  forall settings jwt_encode env ud rq db host,
    client_host rq = Some host ->
    (forall u, In u (users db) -> User.password u <> schemas.UserLogin.password ud) ->
    routers_auth.login settings jwt_encode env ud rq db
    = (Raise (HTTPException 401 "Invalid credentials"), db).
Proof.
  intros settings jwt_encode env ud rq db host Hhost Hnobody.
  unfold routers_auth.login, auth.authenticate_user. unfold_monad. rewrite Hhost.
  destruct (find _ (users db)) as [u |] eqn:Hfind; [| reflexivity].
  apply find_some_In in Hfind. destruct Hfind as [Hin _].
  destruct (String.eqb_spec (User.password u) (schemas.UserLogin.password ud)) as [Heq | Hne];
    [exfalso; exact (Hnobody u Hin Heq) | reflexivity].
Qed.

Lemma login_with_a_password_nobody_has_is_refused_witness :
  routers_auth.login sample.settings sample.encode sample.env
    (schemas.UserLogin.mk "@alice" "secret9") sample.request sample.db
  = (Raise (HTTPException 401 "Invalid credentials"), sample.db).
Proof.
  apply (login_with_a_password_nobody_has_is_refused sample.settings sample.encode sample.env
           (schemas.UserLogin.mk "@alice" "secret9") sample.request sample.db "10.0.0.7");
    [reflexivity |].
  intros u [<- | [<- | []]]; discriminate.
Defined.

(** X25. The role comes from the table, not from the token.  Two tokens
    that carry the same user id, whatever name and role each of them claims,
    authenticate as the same user, with the role of the row; so for a token
    that claims [admin] for a user who is not one the admin check still
    raises 403, and the route of the audit trail answers with a server error
    and not with the trail. *)
Theorem token_role_claim_is_ignored :
  forall env env' credentials credentials' db uid name role name' role',
    jwt_decode env credentials = inr (mkPayload (Some uid) (Some name) (Some role)) ->
    jwt_decode env' credentials' = inr (mkPayload (Some uid) (Some name') (Some role')) ->
    auth.get_current_user env credentials db = auth.get_current_user env' credentials' db
    /\ forall u, auth.get_current_user env' credentials' db = (Ok u, db) ->
         In u (users db) /\ User.id u = uid
         /\ (User.role u <> "admin" ->
             auth.get_current_admin_user u
             = Raise (HTTPException 403 "Access denied. Admin only.")
             /\ forall page limit startDate endDate userId action,
                  exists msg,
                    main.get_logs env' credentials' page limit startDate endDate userId action
                      db
                    = (Raise (Exception msg), db)).
Proof.
  intros env env' credentials credentials' db uid name role name' role' Hd Hd'.
  assert (Hrun : forall e c n r,
            jwt_decode e c = inr (mkPayload (Some uid) (Some n) (Some r)) ->
            auth.get_current_user e c db
            = match find (fun u => User.id u =? uid) (users db) with
              | Some u => (Ok u, db)
              | None => (Raise (HTTPException 401 "User not found"), db)
              end).
  { intros e c n r H. unfold auth.get_current_user, auth.verify_token. unfold_monad.
    rewrite H. cbn [payload_user_id payload_username payload_role auth.token_user_id].
    destruct (find _ (users db)); reflexivity. }
  split; [rewrite (Hrun _ _ _ _ Hd), (Hrun _ _ _ _ Hd'); reflexivity |].
  intros u Hu. pose proof Hu as Hu'. rewrite (Hrun _ _ _ _ Hd') in Hu'.
  destruct (find _ (users db)) as [u0 |] eqn:Hfind; [| discriminate].
  injection Hu' as <-. apply find_some_In in Hfind. destruct Hfind as [Hin Hid].
  apply Z.eqb_eq in Hid. split; [exact Hin |]. split; [exact Hid |].
  intros Hrole.
  assert (Hadmin : auth.get_current_admin_user u0
                   = Raise (HTTPException 403 "Access denied. Admin only.")).
  { unfold auth.get_current_admin_user.
    destruct (String.eqb_spec (User.role u0) "admin"); [contradiction | reflexivity]. }
  split; [exact Hadmin |].
  intros page limit startDate endDate userId action. unfold main.get_logs.
  inside_get_db ltac:(fun request db =>
    assert (Hinner : request db
                     = (Raise (HTTPException 403 "Access denied. Admin only."), db))).
  { unfold_monad. rewrite Hu. cbv beta iota. rewrite Hadmin. reflexivity. }
  destruct (get_db_raises _ _ _ _ Hinner) as (msg & Hlogs & _).
  exists msg. exact Hlogs.
Qed.

Lemma token_role_claim_is_ignored_witness :
  auth.get_current_user sample.env "alice-token" sample.db
  = auth.get_current_user sample.env_forged "alice-token" sample.db
  /\ auth.get_current_admin_user sample.alice
     = Raise (HTTPException 403 "Access denied. Admin only.")
  /\ exists msg,
       main.get_logs sample.env_forged "alice-token" 1 20 None None None None sample.db
       = (Raise (Exception msg), sample.db).
Proof.
  destruct (token_role_claim_is_ignored sample.env sample.env_forged "alice-token"
              "alice-token" sample.db 1 "@alice" "user" "@root" "admin" eq_refl eq_refl)
    as [Hsame Hrole].
  split; [exact Hsame |].
  destruct (Hrole sample.alice eq_refl) as (_ & _ & Hlogs).
  destruct (Hlogs ltac:(discriminate)) as [Hadmin Hroute].
  split; [exact Hadmin | apply Hroute].
Defined.

(** X26. Logging out ends nothing.  With a token that authenticates, the
    route answers with success, changes nothing in the database, and the
    token authenticates as the same user afterwards.  With a token that does
    not, the route answers with a server error: the session dependency
    replaces the refusal of the token check by a plain exception. *)
Theorem logout_does_not_end_the_session :
  forall env credentials db,
    (forall u, auth.get_current_user env credentials db = (Ok u, db) ->
       main.post_auth_logout env credentials db
       = (Ok (JDict [ ("success", JBool true); ("message", JStr "Logout successful") ]), db)
       /\ auth.get_current_user env credentials
            (snd (main.post_auth_logout env credentials db)) = (Ok u, db))
    /\ (forall e db', auth.get_current_user env credentials db = (Raise e, db') ->
          (exists msg,
              main.post_auth_logout env credentials db = (Raise (Exception msg), db'))
          /\ main.status_code (fst (main.post_auth_logout env credentials db)) = 500).
Proof.
  intros env credentials db. split.
  - intros u Hu.
    assert (Hrun : main.post_auth_logout env credentials db
                   = (Ok (JDict [ ("success", JBool true);
                                  ("message", JStr "Logout successful") ]), db)).
    { unfold main.post_auth_logout. apply get_db_returns.
      unfold routers_auth.logout. unfold_monad. rewrite Hu. reflexivity. }
    rewrite Hrun. cbn [snd]. split; [reflexivity | exact Hu].
  - intros e db' He. unfold main.post_auth_logout.
    inside_get_db ltac:(fun request db =>
      assert (Hinner : request db = (Raise e, db'))).
    { unfold_monad. rewrite He. reflexivity. }
    destruct (get_db_raises _ _ _ _ Hinner) as (msg & Hrun & Hstatus).
    split; [exists msg; exact Hrun | exact Hstatus].
Qed.

(** ** The settings *)

Lemma str_or_truthy x default :
  truthy_str default = true -> truthy_str (config.str_or x default) = true.
Proof.
  intros H. unfold config.str_or. destruct x as [s |]; [| exact H].
  destruct (truthy_str s) eqn:Hs; [exact Hs | exact H].
Qed.

(** X27. Settings made by the constructor always have a host, a database
    name and a port: whatever URL was parsed and whatever the environment
    holds, the check of the configuration never warns that the host or the
    database is not set, and the port is not 0.  It warns about the password
    exactly when the URL has none or an empty one. *)
Theorem settings_always_have_host_and_database :
  forall cls parsed,
    let warnings := config.validate_config (config.init cls parsed) in
    ~ In "MYSQL_HOST is not set" warnings
    /\ ~ In "MYSQL_DATABASE is not set" warnings
    /\ config.MYSQL_PORT (config.init cls parsed) <> 0
    /\ (In "MYSQL_PASSWORD is not set" warnings
        <-> config.password parsed = None \/ config.password parsed = Some "").
Proof.
  intros cls parsed warnings. subst warnings.
  unfold config.validate_config, config.init.
  cbn [config.MYSQL_PASSWORD config.MYSQL_HOST config.MYSQL_DATABASE config.JWT_SECRET
       config.ENVIRONMENT config.DEBUG config.LOG_LEVEL config.MYSQL_PORT].
  rewrite (str_or_truthy (config.hostname parsed) "localhost" eq_refl).
  rewrite (str_or_truthy (Some (config.lstrip_slash (config.path parsed))) "railway" eq_refl).
  cbn [negb].
  assert (Hpw : truthy_str (config.str_or (config.password parsed) "") = false
                <-> config.password parsed = None \/ config.password parsed = Some "").
  { unfold config.str_or, truthy_str. destruct (config.password parsed) as [s |].
    - destruct (String.eqb_spec s "") as [-> | Hne]; cbn [negb].
      + split; auto.
      + destruct (String.eqb_spec s ""); [contradiction |]. cbn [negb].
        split; [discriminate |]. intros [H | H]; [discriminate | congruence].
    - split; auto. }
  assert (Hport : config.int_or (config.port parsed) 3306 <> 0).
  { unfold config.int_or, truthy_int. destruct (config.port parsed) as [n |]; [| lia].
    destruct (Z.eqb_spec n 0); cbn [negb]; lia. }
  destruct (truthy_str (config.str_or (config.password parsed) "")) eqn:Hset;
    destruct (String.eqb (config.class_JWT_SECRET cls) config.default_JWT_SECRET);
    destruct (String.eqb (config.class_ENVIRONMENT cls) "production");
    destruct (config.class_DEBUG cls);
    destruct (String.eqb (config.class_LOG_LEVEL cls) "DEBUG");
    cbn [negb app In];
    (split; [intuition discriminate |]); (split; [intuition discriminate |]);
    (split; [exact Hport |]);
    rewrite <- Hpw; intuition discriminate.
Qed.

(** X28. The configuration report discloses neither secret.  Two settings
    that differ only in the password of the database, in the connection URL
    that embeds it and in the key of the tokens give the same report, as
    long as each has a password and a key of its own: the report tells that
    they are set and nothing about what they are. *)
Theorem config_report_hides_the_secrets :
  forall s password url secret password' url' secret',
    password <> "" -> password' <> "" ->
    secret <> "" -> secret' <> "" ->
    secret <> config.default_JWT_SECRET -> secret' <> config.default_JWT_SECRET ->
    config.get_config_info (with_secrets password url secret s)
    = config.get_config_info (with_secrets password' url' secret' s).
Proof.
  intros s password url secret password' url' secret' Hp Hp' Hs Hs' Hd Hd'.
  unfold config.get_config_info, with_secrets, truthy_str.
  cbn [config.ENVIRONMENT config.DEBUG config.LOG_LEVEL config.MYSQL_HOST config.MYSQL_PORT
       config.MYSQL_USER config.MYSQL_PASSWORD config.MYSQL_DATABASE config.JWT_SECRET
       config.JWT_ALGORITHM config.JWT_EXPIRE_HOURS config.FRONTEND_URL config.PORT
       config.RAILWAY_ENVIRONMENT config.RAILWAY_PROJECT_ID config.RAILWAY_SERVICE_ID].
  destruct (String.eqb_spec password ""), (String.eqb_spec password' ""),
    (String.eqb_spec secret ""), (String.eqb_spec secret' ""),
    (String.eqb_spec secret config.default_JWT_SECRET),
    (String.eqb_spec secret' config.default_JWT_SECRET); try contradiction.
  reflexivity.
Qed.

Lemma config_report_hides_the_secrets_witness :
  config.get_config_info (with_secrets "pw" "mysql://eco:pw@db/ecometrics" "key-one"
                            sample.settings)
  = config.get_config_info (with_secrets "hunter2" "mysql://eco:hunter2@db/ecometrics"
                              "key-two" sample.settings).
Proof.
  apply (config_report_hides_the_secrets sample.settings); discriminate.
Defined.

(** ** The expiry of a token *)

(** X29. What the encoder of tokens is handed.  The claims are the data as
    given, less an [exp] entry of their own; the expiry counts from now.  A
    delay that is given and is not zero is the delay of the token; without
    one, and also with a delay of zero, which counts as none, the delay is
    [JWT_EXPIRE_HOURS] hours: so no token expires at the moment it is made
    unless the settings ask for zero hours. *)
Theorem access_token_expiry :
  forall settings jwt_encode env data expires_delta,
    exists d,
      auth.create_access_token settings jwt_encode env data expires_delta
      = jwt_encode (filter (fun kv => negb (String.eqb (fst kv) "exp")) data)
          (auth.mkExpiry (utcnow env) d)
      /\ (forall x, expires_delta = Some x -> x <> 0 -> d = x)
      /\ (expires_delta = None \/ expires_delta = Some 0 ->
          d = auth.timedelta_hours (config.JWT_EXPIRE_HOURS settings))
      /\ (d = 0 -> config.JWT_EXPIRE_HOURS settings = 0)
      /\ json_get "exp"
           (JDict (filter (fun kv => negb (String.eqb (fst kv) "exp")) data)) = None.
Proof.
  intros settings jwt_encode env data expires_delta.
  assert (Hexp : json_get "exp"
                   (JDict (filter (fun kv => negb (String.eqb (fst kv) "exp")) data)) = None).
  { unfold json_get.
    destruct (find _ (filter _ data)) as [kv |] eqn:Hfind; [| reflexivity].
    apply find_some in Hfind. destruct Hfind as [Hin Hkey].
    apply filter_In in Hin. destruct Hin as [_ Hnot]. rewrite Hkey in Hnot. discriminate. }
  unfold auth.create_access_token, truthy_int, auth.timedelta_hours.
  destruct expires_delta as [x |].
  - destruct (Z.eqb_spec x 0) as [-> | Hne]; cbn [negb].
    + eexists. split; [reflexivity |]. split; [intros y Hy; injection Hy as <-; lia |].
      split; [reflexivity |]. split; [lia | exact Hexp].
    + exists x. split; [reflexivity |]. split; [intros y Hy; injection Hy as <-; reflexivity |].
      split; [intros [H | H]; [discriminate | injection H as ->; contradiction] |].
      split; [intros ->; contradiction | exact Hexp].
  - eexists. split; [reflexivity |]. split; [discriminate |].
    split; [reflexivity |]. split; [lia | exact Hexp].
Qed.
